(** * The Java language helper of the fn CLI (package [langs], java.go)

    A shallow embedding of the helper that resolves the latest Java FDK
    version (cache, environment override, Maven Central, Bintray), writes
    the Maven boilerplate of a new function and emits the build-stage
    Dockerfile instructions, together with the properties its specification
    states about it.

    Layout: the Go runtime and library functions the helper calls come
    first (strings, fmt, unicode/utf8, encoding/json, net/url,
    path/filepath, the process environment, the file system and the HTTP
    client), then the helper itself, then the theorems. *)

From Stdlib Require Import ZArith NArith Ascii String List Bool Lia DecimalString.
From stdpp Require Import gmap strings list fin_maps.

#[local] Set Warnings "-register-all".

(** ** Bytes and strings

    A Go [string] is a sequence of bytes: it is modelled as [string], whose
    characters are the 256 byte values. *)

Definition byte (c : ascii) : N := N_of_ascii c.

Definition in_range (lo hi c : ascii) : bool :=
  ((byte lo <=? byte c) && (byte c <=? byte hi))%N.

Definition is_digit (c : ascii) : bool := in_range "0" "9" c.
Definition is_lower (c : ascii) : bool := in_range "a" "z" c.
Definition is_upper (c : ascii) : bool := in_range "A" "Z" c.
Definition is_alnum (c : ascii) : bool := is_lower c || is_upper c || is_digit c.

(** The double quote, as a one-byte string. *)
Definition dq : string := String (ascii_of_nat 34) "".

(** [s[:n]] and [s[n:]]. *)
Fixpoint str_take (n : nat) (s : string) : string :=
  match n, s with
  | S n', String c s' => String c (str_take n' s')
  | _, _ => ""
  end.

Fixpoint str_drop (n : nat) (s : string) : string :=
  match n, s with
  | S n', String _ s' => str_drop n' s'
  | _, _ => s
  end.

Fixpoint str_forallb (p : ascii -> bool) (s : string) : bool :=
  match s with
  | "" => true
  | String c s' => p c && str_forallb p s'
  end.

(** Does byte [c] occur in [s]? *)
Fixpoint occurs (c : ascii) (s : string) : bool :=
  match s with
  | "" => false
  | String d s' => Ascii.eqb c d || occurs c s'
  end.

(** *** Package strings *)

Fixpoint strings_HasPrefix (s prefix : string) {struct prefix} : bool :=
  match prefix, s with
  | "", _ => true
  | String p prefix', String c s' => Ascii.eqb p c && strings_HasPrefix s' prefix'
  | String _ _, "" => false
  end.

(** [strings.Index]: the position of the first occurrence, [None] for Go's -1. *)
Fixpoint strings_Index (s substr : string) : option nat :=
  if strings_HasPrefix s substr then Some 0
  else match s with
       | "" => None
       | String _ s' => option_map S (strings_Index s' substr)
       end.

(** [strings.LastIndex]: the position of the last occurrence. *)
Fixpoint strings_LastIndex (s substr : string) : option nat :=
  match s with
  | "" => if strings_HasPrefix s substr then Some 0 else None
  | String _ s' =>
      match strings_LastIndex s' substr with
      | Some i => Some (S i)
      | None => if strings_HasPrefix s substr then Some 0 else None
      end
  end.

Definition strings_Contains (s substr : string) : bool :=
  match strings_Index s substr with Some _ => true | None => false end.

Definition strings_HasSuffix (s suffix : string) : bool :=
  (String.length suffix <=? String.length s) &&
  String.eqb (str_drop (String.length s - String.length suffix) s) suffix.

(** [strings.Count] for a non-empty [substr]: non-overlapping occurrences.
    [skip] is the number of bytes of the current match still to pass. *)
Fixpoint count_from (substr : string) (skip : nat) (s : string) : nat :=
  match s with
  | "" => 0
  | String _ s' =>
      match skip with
      | S k => count_from substr k s'
      | O => if strings_HasPrefix s substr
             then S (count_from substr (String.length substr - 1) s')
             else count_from substr 0 s'
      end
  end.

Definition strings_Count (s substr : string) : nat := count_from substr 0 s.

(** [strings.Cut]: the text before and after the first [sep], when there is one. *)
Definition strings_Cut (s sep : string) : string * string * bool :=
  match strings_Index s sep with
  | Some i => (str_take i s, str_drop (i + String.length sep) s, true)
  | None => (s, "", false)
  end.

Definition to_lower (c : ascii) : ascii :=
  if is_upper c then ascii_of_N (byte c + 32) else c.

Fixpoint strings_ToLower (s : string) : string :=
  match s with
  | "" => ""
  | String c s' => String (to_lower c) (strings_ToLower s')
  end.

(** [strings.Replace(s, old, new, n)] for a non-empty [old]: the first [n]
    non-overlapping occurrences of [old], from the left, are replaced by
    [new]; all of them when [n < 0].  [skip] counts the bytes of a matched
    [old] that remain to be dropped.  (With an empty [old] Go inserts [new]
    between runes; the helper never calls it that way and the model leaves
    [s] as it is.) *)
Fixpoint replace_from (old new : string) (n : Z) (skip : nat) (s : string) : string :=
  match s with
  | "" => ""
  | String c s' =>
      match skip with
      | S k => replace_from old new n k s'
      | O =>
          if (n =? 0)%Z then s
          else if strings_HasPrefix s old
               then new +:+ replace_from old new (n - 1) (String.length old - 1) s'
               else String c (replace_from old new n 0 s')
      end
  end.

Definition strings_Replace (s old new : string) (n : Z) : string :=
  if String.eqb old new || (n =? 0)%Z then s
  else match old with
       | "" => s
       | _ => replace_from old new n 0 s
       end.

Fixpoint strings_Join (elems : list string) (sep : string) : string :=
  match elems with
  | [] => ""
  | [e] => e
  | e :: rest => e +:+ sep +:+ strings_Join rest sep
  end.

(** [strings.Split(s, sep)] for a one-byte separator. *)
Fixpoint split_on (sep : ascii) (cur : string) (s : string) : list string :=
  match s with
  | "" => [cur]
  | String c s' =>
      if Ascii.eqb c sep then cur :: split_on sep "" s'
      else split_on sep (cur +:+ String c "") s'
  end.

(** *** Package unicode/utf8 *)

Module Utf8.

Definition RuneError : Z := 65533.
Definition MaxRune : Z := 1114111.

Definition bz (c : ascii) : Z := Z.of_N (byte c).
Definition chr (z : Z) : ascii := ascii_of_N (Z.to_N (z mod 256)).

(** A continuation byte lies in [lo, hi]. *)
Definition cont (lo hi : Z) (c : ascii) : bool := ((lo <=? bz c) && (bz c <=? hi))%Z.

(** The size a leading byte announces and the range its second byte must lie
    in (the [first] and [acceptRanges] tables); [None] for a byte that starts
    no multi-byte sequence. *)
Definition lead (c : ascii) : option (nat * Z * Z) :=
  let b := bz c in
  if ((194 <=? b) && (b <=? 223))%Z then Some (2, 128%Z, 191%Z)
  else if (b =? 224)%Z then Some (3, 160%Z, 191%Z)
  else if ((225 <=? b) && (b <=? 236))%Z then Some (3, 128%Z, 191%Z)
  else if (b =? 237)%Z then Some (3, 128%Z, 159%Z)
  else if ((238 <=? b) && (b <=? 239))%Z then Some (3, 128%Z, 191%Z)
  else if (b =? 240)%Z then Some (4, 144%Z, 191%Z)
  else if ((241 <=? b) && (b <=? 243))%Z then Some (4, 128%Z, 191%Z)
  else if (b =? 244)%Z then Some (4, 128%Z, 143%Z)
  else None.

(** [utf8.DecodeRuneInString]: the first rune of [s] and its width in bytes;
    an invalid encoding is [RuneError] of width 1, the empty string
    [RuneError] of width 0. *)
Definition DecodeRune (s : string) : Z * nat :=
  match s with
  | "" => (RuneError, 0)
  | String s0 r0 =>
      if (bz s0 <? 128)%Z then (bz s0, 1)
      else match lead s0 with
           | None => (RuneError, 1)
           | Some (sz, lo, hi) =>
               if String.length s <? sz then (RuneError, 1)
               else match r0 with
                    | "" => (RuneError, 1)
                    | String s1 r1 =>
                        if negb (cont lo hi s1) then (RuneError, 1)
                        else if sz <=? 2
                        then (Z.lor (Z.shiftl (Z.land (bz s0) 31) 6) (Z.land (bz s1) 63), 2)
                        else match r1 with
                             | "" => (RuneError, 1)
                             | String s2 r2 =>
                                 if negb (cont 128 191 s2) then (RuneError, 1)
                                 else if sz <=? 3
                                 then (Z.lor (Z.shiftl (Z.land (bz s0) 15) 12)
                                         (Z.lor (Z.shiftl (Z.land (bz s1) 63) 6)
                                            (Z.land (bz s2) 63)), 3)
                                 else match r2 with
                                      | "" => (RuneError, 1)
                                      | String s3 _ =>
                                          if negb (cont 128 191 s3) then (RuneError, 1)
                                          else (Z.lor (Z.shiftl (Z.land (bz s0) 7) 18)
                                                  (Z.lor (Z.shiftl (Z.land (bz s1) 63) 12)
                                                     (Z.lor (Z.shiftl (Z.land (bz s2) 63) 6)
                                                        (Z.land (bz s3) 63))), 4)
                                      end
                             end
                    end
           end
  end.

Definition enc3 (r : Z) : string :=
  String (chr (Z.lor 224 (Z.shiftr r 12)))
    (String (chr (Z.lor 128 (Z.land (Z.shiftr r 6) 63)))
       (String (chr (Z.lor 128 (Z.land r 63))) "")).

(** [utf8.EncodeRune]: surrogates and values past [MaxRune] are written as
    [RuneError]. *)
Definition EncodeRune (r : Z) : string :=
  if ((0 <=? r) && (r <=? 127))%Z then String (chr r) ""
  else if ((0 <=? r) && (r <=? 2047))%Z
  then String (chr (Z.lor 192 (Z.shiftr r 6))) (String (chr (Z.lor 128 (Z.land r 63))) "")
  else if ((r <? 0) || (MaxRune <? r) || ((55296 <=? r) && (r <=? 57343)))%Z then enc3 RuneError
  else if (r <=? 65535)%Z then enc3 r
  else String (chr (Z.lor 240 (Z.shiftr r 18)))
         (String (chr (Z.lor 128 (Z.land (Z.shiftr r 12) 63)))
            (String (chr (Z.lor 128 (Z.land (Z.shiftr r 6) 63)))
               (String (chr (Z.lor 128 (Z.land r 63))) ""))).

End Utf8.

(** ** Errors, panics and the world the helper runs in *)

(** Go's [error] values.  [errorString] is what [errors.New] and
    [fmt.Errorf] build and what the libraries report.

    Modelled from the spec: [ErrBoilerplateExists], the sentinel the package
    declares outside java.go for the spec's ManifestAlreadyExistsError; it
    is a value of its own, equal to no error built elsewhere.  Its message
    is not in java.go either, and no property below depends on it. *)
Inductive error : Type :=
| ErrBoilerplateExists
| errorString (s : string).

(** The [Error()] method. *)
Definition Error (e : error) : string :=
  match e with
  | ErrBoilerplateExists => "Function boilerplate already exists"
  | errorString s => s
  end.

(** The outcome of a call: it returns, or the goroutine panics. *)
Inductive Result (A : Type) : Type :=
| Returned (a : A)
| Panicked (reason : string).
Arguments Returned {A} a.
Arguments Panicked {A} reason.

(** *** Package fmt

    [Sprintf] for the verbs the helper uses, [%s], [%v] and [%d] without
    flags, and [%%], over string and integer operands.  A verb that does not
    fit its operand, a missing operand and operands left over are rendered
    the way Go renders them. *)

Inductive operand : Type :=
| OString (s : string)
| OInt (z : Z).

Definition decimal (z : Z) : string := NilZero.string_of_int (Z.to_int z).

Definition operand_type (a : operand) : string :=
  match a with OString _ => "string" | OInt _ => "int" end.

Definition format_v (a : operand) : string :=
  match a with OString s => s | OInt z => decimal z end.

Definition bad_verb (verb : ascii) (a : operand) : string :=
  "%!" +:+ String verb "(" +:+ operand_type a +:+ "=" +:+ format_v a +:+ ")".

Definition format_verb (verb : ascii) (a : operand) : string :=
  match verb, a with
  | "v"%char, _ => format_v a
  | "s"%char, OString s => s
  | "d"%char, OInt z => decimal z
  | _, _ => bad_verb verb a
  end.

Fixpoint extra_operands (args : list operand) : string :=
  match args with
  | [] => ""
  | [a] => operand_type a +:+ "=" +:+ format_v a
  | a :: rest => operand_type a +:+ "=" +:+ format_v a +:+ ", " +:+ extra_operands rest
  end.

Definition extra (args : list operand) : string :=
  match args with
  | [] => ""
  | _ => "%!(EXTRA " +:+ extra_operands args +:+ ")"
  end.

Fixpoint fmt_Sprintf (format : string) (args : list operand) : string :=
  match format with
  | "" => extra args
  | String c rest =>
      if Ascii.eqb c "%" then
        match rest with
        | "" => "%!(NOVERB)" +:+ extra args
        | String verb rest' =>
            if Ascii.eqb verb "%" then String "%" (fmt_Sprintf rest' args)
            else match args with
                 | [] => "%!" +:+ String verb "(MISSING)" +:+ fmt_Sprintf rest' []
                 | a :: args' => format_verb verb a +:+ fmt_Sprintf rest' args'
                 end
        end
      else String c (fmt_Sprintf rest args)
  end.

(** An error operand under [%v]: its message, [<nil>] for a nil error. *)
Definition error_v (e : option error) : operand :=
  OString (match e with Some e => Error e | None => "<nil>" end).

Definition fmt_Errorf (format : string) (args : list operand) : error :=
  errorString (fmt_Sprintf format args).

(** *** Package encoding/json

    The syntax of JSON as Go's scanner accepts it, and the decoded text of
    string literals as [unquote] produces it. *)

Module Json.

Inductive value : Type :=
| Null
| Bool (b : bool)
| Number (literal : string)
| Str (s : string)
| Array (elems : list value)
| Object (members : list (string * value)).

Definition is_space (c : ascii) : bool :=
  Ascii.eqb c " " || (byte c =? 9)%N || (byte c =? 13)%N || (byte c =? 10)%N.

Fixpoint skip_space (s : string) : string :=
  match s with
  | String c s' => if is_space c then skip_space s' else s
  | "" => ""
  end.

Definition hex_val (c : ascii) : option Z :=
  if is_digit c then Some (Utf8.bz c - 48)%Z
  else if in_range "a" "f" c then Some (Utf8.bz c - 87)%Z
  else if in_range "A" "F" c then Some (Utf8.bz c - 55)%Z
  else None.

(** [getu4]: the code unit of a [\uXXXX] escape at the head of [s]. *)
Definition getu4 (s : string) : option Z :=
  match s with
  | String b (String u (String h1 (String h2 (String h3 (String h4 _))))) =>
      if Ascii.eqb b "\" && Ascii.eqb u "u" then
        match hex_val h1, hex_val h2, hex_val h3, hex_val h4 with
        | Some a, Some b, Some c, Some d => Some (a * 4096 + b * 256 + c * 16 + d)%Z
        | _, _, _, _ => None
        end
      else None
  | _ => None
  end.

(** [utf16.DecodeRune]. *)
Definition utf16_DecodeRune (r1 r2 : Z) : Z :=
  if ((55296 <=? r1) && (r1 <? 56320) && (56320 <=? r2) && (r2 <? 57344))%Z
  then ((r1 - 55296) * 1024 + (r2 - 56320) + 65536)%Z
  else Utf8.RuneError.

Definition is_surrogate (r : Z) : bool := ((55296 <=? r) && (r <? 57344))%Z.

Definition simple_escape (c : ascii) : option ascii :=
  if Ascii.eqb c (ascii_of_nat 34) then Some (ascii_of_nat 34)
  else if Ascii.eqb c "\" then Some "\"%char
  else if Ascii.eqb c "/" then Some "/"%char
  else if Ascii.eqb c "b" then Some (ascii_of_nat 8)
  else if Ascii.eqb c "f" then Some (ascii_of_nat 12)
  else if Ascii.eqb c "n" then Some (ascii_of_nat 10)
  else if Ascii.eqb c "r" then Some (ascii_of_nat 13)
  else if Ascii.eqb c "t" then Some (ascii_of_nat 9)
  else None.

(** The rest of a string literal after its opening quote: the decoded text
    and what follows the closing quote.  Control bytes and unknown escapes
    are syntax errors; an escaped surrogate without its pair and a byte
    sequence that is not UTF-8 decode to U+FFFD. *)
Fixpoint scan_string (fuel : nat) (s : string) : option (string * string) :=
  match fuel with
  | O => None
  | S fuel' =>
      match s with
      | "" => None
      | String c rest =>
          if Ascii.eqb c (ascii_of_nat 34) then Some ("", rest)
          else if (byte c <? 32)%N then None
          else if Ascii.eqb c "\" then
            match rest with
            | "" => None
            | String e rest' =>
                if Ascii.eqb e "u" then
                  match getu4 s with
                  | None => None
                  | Some rr =>
                      let after := str_drop 6 s in
                      let '(rune, after') :=
                        if is_surrogate rr then
                          match getu4 after with
                          | Some rr1 =>
                              let dec := utf16_DecodeRune rr rr1 in
                              if (dec =? Utf8.RuneError)%Z then (Utf8.RuneError, after)
                              else (dec, str_drop 6 after)
                          | None => (Utf8.RuneError, after)
                          end
                        else (rr, after) in
                      match scan_string fuel' after' with
                      | Some (text, r) => Some (Utf8.EncodeRune rune +:+ text, r)
                      | None => None
                      end
                  end
                else
                  match simple_escape e with
                  | None => None
                  | Some b =>
                      match scan_string fuel' rest' with
                      | Some (text, r) => Some (String b text, r)
                      | None => None
                      end
                  end
            end
          else if (byte c <? 128)%N then
            match scan_string fuel' rest with
            | Some (text, r) => Some (String c text, r)
            | None => None
            end
          else
            let '(rune, size) := Utf8.DecodeRune s in
            match scan_string fuel' (str_drop size s) with
            | Some (text, r) => Some (Utf8.EncodeRune rune +:+ text, r)
            | None => None
            end
      end
  end.

(** The longest prefix of bytes satisfying [p], and the rest. *)
Fixpoint span (p : ascii -> bool) (s : string) : string * string :=
  match s with
  | String c s' =>
      if p c then let '(a, b) := span p s' in (String c a, b) else ("", s)
  | "" => ("", "")
  end.

Definition digits1 (s : string) : option (string * string) :=
  match span is_digit s with
  | ("", _) => None
  | (d, r) => Some (d, r)
  end.

(** A number literal: an optional minus sign, then 0 or a non-zero digit
    followed by digits, then an optional fraction (a dot and digits) and an
    optional exponent (e or E, an optional sign, digits). *)
Definition scan_number (s : string) : option (string * string) :=
  let '(sign, s1) :=
    match s with
    | String c r => if Ascii.eqb c "-" then ("-", r) else ("", s)
    | "" => ("", s)
    end in
  let int_part :=
    match s1 with
    | String c r =>
        if Ascii.eqb c "0" then Some ("0", r)
        else if in_range "1" "9" c then digits1 s1
        else None
    | "" => None
    end in
  match int_part with
  | None => None
  | Some (i, s2) =>
      let frac :=
        match s2 with
        | String c r =>
            if Ascii.eqb c "." then
              match digits1 r with
              | Some (d, r') => Some ("." +:+ d, r')
              | None => None
              end
            else Some ("", s2)
        | "" => Some ("", s2)
        end in
      match frac with
      | None => None
      | Some (f, s3) =>
          let exp :=
            match s3 with
            | String c r =>
                if Ascii.eqb c "e" || Ascii.eqb c "E" then
                  let '(sg, r1) :=
                    match r with
                    | String c' r' =>
                        if Ascii.eqb c' "+" || Ascii.eqb c' "-" then (String c' "", r') else ("", r)
                    | "" => ("", r)
                    end in
                  match digits1 r1 with
                  | Some (d, r2) => Some (String c sg +:+ d, r2)
                  | None => None
                  end
                else Some ("", s3)
            | "" => Some ("", s3)
            end in
          match exp with
          | None => None
          | Some (e, s4) => Some (sign +:+ i +:+ f +:+ e, s4)
          end
      end
  end.

(** The scanner refuses a document nested deeper than this. *)
Definition maxNestingDepth : N := 10000.

Fixpoint parse_value (fuel : nat) (depth : N) (s : string) : option (value * string) :=
  match fuel with
  | O => None
  | S fuel' =>
      match skip_space s with
      | "" => None
      | String c rest as s0 =>
          if Ascii.eqb c "[" then
            if (maxNestingDepth <? depth + 1)%N then None
            else match skip_space rest with
                 | String c' rest' as r =>
                     if Ascii.eqb c' "]" then Some (Array [], rest')
                     else parse_elems fuel' (depth + 1)%N r []
                 | "" => None
                 end
          else if Ascii.eqb c "{" then
            if (maxNestingDepth <? depth + 1)%N then None
            else match skip_space rest with
                 | String c' rest' as r =>
                     if Ascii.eqb c' "}" then Some (Object [], rest')
                     else parse_members fuel' (depth + 1)%N r []
                 | "" => None
                 end
          else if Ascii.eqb c (ascii_of_nat 34) then
            match scan_string (String.length rest) rest with
            | Some (text, r) => Some (Str text, r)
            | None => None
            end
          else if strings_HasPrefix s0 "true" then Some (Bool true, str_drop 4 s0)
          else if strings_HasPrefix s0 "false" then Some (Bool false, str_drop 5 s0)
          else if strings_HasPrefix s0 "null" then Some (Null, str_drop 4 s0)
          else match scan_number s0 with
               | Some (lit, r) => Some (Number lit, r)
               | None => None
               end
      end
  end
with parse_elems (fuel : nat) (depth : N) (s : string) (acc : list value)
  : option (value * string) :=
  match fuel with
  | O => None
  | S fuel' =>
      match parse_value fuel' depth s with
      | None => None
      | Some (v, r) =>
          match skip_space r with
          | String c r' =>
              if Ascii.eqb c "," then parse_elems fuel' depth r' (v :: acc)
              else if Ascii.eqb c "]" then Some (Array (rev (v :: acc)), r')
              else None
          | "" => None
          end
      end
  end
with parse_members (fuel : nat) (depth : N) (s : string) (acc : list (string * value))
  : option (value * string) :=
  match fuel with
  | O => None
  | S fuel' =>
      match skip_space s with
      | String q r0 =>
          if Ascii.eqb q (ascii_of_nat 34) then
            match scan_string (String.length r0) r0 with
            | None => None
            | Some (key, r1) =>
                match skip_space r1 with
                | String colon r2 =>
                    if Ascii.eqb colon ":" then
                      match parse_value fuel' depth r2 with
                      | None => None
                      | Some (v, r3) =>
                          match skip_space r3 with
                          | String c r4 =>
                              if Ascii.eqb c "," then parse_members fuel' depth r4 ((key, v) :: acc)
                              else if Ascii.eqb c "}" then Some (Object (rev ((key, v) :: acc)), r4)
                              else None
                          | "" => None
                          end
                      end
                    else None
                | "" => None
                end
            end
          else None
      | "" => None
      end
  end.

(** [checkValid] and the parse in one: the value of a document that is one
    JSON value between optional white space.  Of two nested calls of the
    three parsers at least one consumes a byte, so twice the length of the
    document is fuel enough. *)
Definition parse (data : string) : option value :=
  match parse_value (2 * String.length data + 2) 0 data with
  | Some (v, rest) => match skip_space rest with "" => Some v | _ => None end
  | None => None
  end.

(** How the decoder names the kind of a value in an [UnmarshalTypeError]. *)
Definition kind (v : value) : string :=
  match v with
  | Null => "null"
  | Bool _ => "bool"
  | Number _ => "number"
  | Str _ => "string"
  | Array _ => "array"
  | Object _ => "object"
  end.

(** [equalFoldRight]: the field name [s], ASCII, against the key [t] of
    the document; letters match without case, and [s] and [k] also match
    the long s (U+017F) and the Kelvin sign (U+212A). *)
Fixpoint equalFoldRight (s t : string) : bool :=
  match s with
  | "" => match t with "" => true | _ => false end
  | String sb s' =>
      match t with
      | "" => false
      | String tb t' =>
          if (byte tb <? 128)%N then
            (Ascii.eqb sb tb
             || (is_upper (ascii_of_N (N.land (byte sb) 223))
                 && (N.land (byte sb) 223 =? N.land (byte tb) 223)%N))
            && equalFoldRight s' t'
          else
            let '(tr, size) := Utf8.DecodeRune t in
            (((Ascii.eqb sb "s" || Ascii.eqb sb "S") && (tr =? 383)%Z)
             || ((Ascii.eqb sb "k" || Ascii.eqb sb "K") && (tr =? 8490)%Z))
            && equalFoldRight s' (str_drop size t)
      end
  end.

End Json.

(** *** Package net/url

    [url.Parse] and the two accessors the helper reads, [Hostname] and
    [Port].  The record keeps the fields [Parse] fills except [RawPath] and
    [RawFragment], which are hints for printing a URL again. *)

Module Url.

Record Userinfo : Type := {
  username : string;
  password : string;
  passwordSet : bool
}.

Record URL : Type := {
  Scheme : string;
  Opaque : string;
  User : option Userinfo;
  Host : string;
  Path : string;
  ForceQuery : bool;
  RawQuery : string;
  Fragment : string
}.

Inductive encoding : Type :=
| encodePath
| encodePathSegment
| encodeHost
| encodeZone
| encodeUserPassword
| encodeQueryComponent
| encodeFragment.

Definition is_host_mode (mode : encoding) : bool :=
  match mode with encodeHost | encodeZone => true | _ => false end.

Definition one_of (set : string) (c : ascii) : bool :=
  strings_Contains set (String c "").

Definition ishex (c : ascii) : bool :=
  is_digit c || in_range "a" "f" c || in_range "A" "F" c.

Definition unhex (c : ascii) : Z :=
  match Json.hex_val c with Some v => v | None => 0%Z end.

(** [shouldEscape]: must byte [c] be percent-encoded in this part of a URL? *)
Definition shouldEscape (c : ascii) (mode : encoding) : bool :=
  if is_alnum c then false
  else if is_host_mode mode && one_of ("!$&'()*+,;=:[]<>" +:+ dq) c then false
  else if one_of "-_.~" c then false
  else if one_of "$&+,/:;=?@" c then
    match mode with
    | encodePath => Ascii.eqb c "?"
    | encodePathSegment => one_of "/;,?" c
    | encodeUserPassword => one_of "@/?:" c
    | encodeQueryComponent => true
    | encodeFragment => false
    | encodeHost | encodeZone => true
    end
  else if match mode with encodeFragment => one_of "!()*" c | _ => false end then false
  else true.

(** The first pass of [unescape]: every [%] starts a well-formed escape that
    this part of the URL allows, and a host holds no byte that would have to
    be escaped. *)
Fixpoint check_escapes (mode : encoding) (s : string) : option error :=
  match s with
  | "" => None
  | String c rest =>
      if Ascii.eqb c "%" then
        match rest with
        | String a (String b rest') =>
            if negb (ishex a && ishex b) then
              Some (errorString ("invalid URL escape " +:+ dq +:+ str_take 3 s +:+ dq))
            else if match mode with encodeHost => true | _ => false end
                    && (unhex a <? 8)%Z && negb (String.eqb (str_take 3 s) "%25") then
              Some (errorString ("invalid URL escape " +:+ dq +:+ str_take 3 s +:+ dq))
            else if match mode with encodeZone => true | _ => false end
                    && negb (String.eqb (str_take 3 s) "%25")
                    && negb (unhex a * 16 + unhex b =? 32)%Z
                    && shouldEscape (Utf8.chr (unhex a * 16 + unhex b)) encodeHost then
              Some (errorString ("invalid URL escape " +:+ dq +:+ str_take 3 s +:+ dq))
            else check_escapes mode rest'
        | _ => Some (errorString ("invalid URL escape " +:+ dq +:+ str_take 3 s +:+ dq))
        end
      else if Ascii.eqb c "+" then check_escapes mode rest
      else if is_host_mode mode && (byte c <? 128)%N && shouldEscape c encodeHost then
        Some (errorString ("invalid character " +:+ dq +:+ String c "" +:+ dq +:+ " in host name"))
      else check_escapes mode rest
  end.

(** The second pass: the escapes replaced by the bytes they stand for. *)
Fixpoint decode_escapes (mode : encoding) (s : string) : string :=
  match s with
  | "" => ""
  | String c rest =>
      if Ascii.eqb c "%" then
        match rest with
        | String a (String b rest') =>
            String (Utf8.chr (unhex a * 16 + unhex b)) (decode_escapes mode rest')
        | _ => s
        end
      else if Ascii.eqb c "+" then
        String (match mode with encodeQueryComponent => " "%char | _ => "+"%char end)
               (decode_escapes mode rest)
      else String c (decode_escapes mode rest)
  end.

Definition unescape (s : string) (mode : encoding) : string * option error :=
  match check_escapes mode s with
  | Some e => ("", Some e)
  | None => (decode_escapes mode s, None)
  end.

Definition stringContainsCTLByte (s : string) : bool :=
  negb (str_forallb (fun c => negb ((byte c <? 32)%N || (byte c =? 127)%N)) s).

(** [getScheme]: a leading [scheme:] is split off; a string that starts
    with a colon has no scheme to name. *)
Fixpoint scan_scheme (rawURL : string) (i : nat) (s : string) : string * string * option error :=
  match s with
  | "" => ("", rawURL, None)
  | String c s' =>
      if is_lower c || is_upper c then scan_scheme rawURL (S i) s'
      else if is_digit c || one_of "+-." c then
        if i =? 0 then ("", rawURL, None) else scan_scheme rawURL (S i) s'
      else if Ascii.eqb c ":" then
        if i =? 0 then ("", "", Some (errorString "missing protocol scheme"))
        else (str_take i rawURL, s', None)
      else ("", rawURL, None)
  end.

Definition getScheme (rawURL : string) : string * string * option error :=
  scan_scheme rawURL 0 rawURL.

Definition validOptionalPort (port : string) : bool :=
  match port with
  | "" => true
  | String c digits => Ascii.eqb c ":" && str_forallb is_digit digits
  end.

Definition validUserinfo (s : string) : bool :=
  str_forallb (fun c => is_alnum c || one_of "-._:~!$&'()*+,;=%@" c) s.

(** [parseHost]: a host with an optional port; an IP literal in brackets
    may carry a zone after [%25]. *)
Definition parseHost (host : string) : string * option error :=
  let plain := unescape host encodeHost in
  if strings_HasPrefix host "[" then
    match strings_LastIndex host "]" with
    | None => ("", Some (errorString "missing ']' in host"))
    | Some i =>
        let colonPort := str_drop (i + 1) host in
        if negb (validOptionalPort colonPort) then
          ("", Some (errorString ("invalid port " +:+ dq +:+ colonPort +:+ dq +:+ " after host")))
        else
          match strings_Index (str_take i host) "%25" with
          | Some zone =>
              match unescape (str_take zone host) encodeHost with
              | (_, Some e) => ("", Some e)
              | (host1, None) =>
                  match unescape (str_drop zone (str_take i host)) encodeZone with
                  | (_, Some e) => ("", Some e)
                  | (host2, None) =>
                      match unescape (str_drop i host) encodeHost with
                      | (_, Some e) => ("", Some e)
                      | (host3, None) => (host1 +:+ host2 +:+ host3, None)
                      end
                  end
              end
          | None => plain
          end
    end
  else
    match strings_LastIndex host ":" with
    | Some i =>
        let colonPort := str_drop i host in
        if negb (validOptionalPort colonPort) then
          ("", Some (errorString ("invalid port " +:+ dq +:+ colonPort +:+ dq +:+ " after host")))
        else plain
    | None => plain
    end.

Definition parseAuthority (authority : string) : option Userinfo * string * option error :=
  match strings_LastIndex authority "@" with
  | None =>
      match parseHost authority with
      | (_, Some e) => (None, "", Some e)
      | (host, None) => (None, host, None)
      end
  | Some i =>
      match parseHost (str_drop (i + 1) authority) with
      | (_, Some e) => (None, "", Some e)
      | (host, None) =>
          let userinfo := str_take i authority in
          if negb (validUserinfo userinfo) then
            (None, "", Some (errorString "net/url: invalid userinfo"))
          else if negb (strings_Contains userinfo ":") then
            match unescape userinfo encodeUserPassword with
            | (_, Some e) => (None, "", Some e)
            | (u, None) =>
                (Some {| username := u; password := ""; passwordSet := false |}, host, None)
            end
          else
            let '(name, pass, _) := strings_Cut userinfo ":" in
            match unescape name encodeUserPassword with
            | (_, Some e) => (None, "", Some e)
            | (u, None) =>
                match unescape pass encodeUserPassword with
                | (_, Some e) => (None, "", Some e)
                | (p, None) =>
                    (Some {| username := u; password := p; passwordSet := true |}, host, None)
                end
            end
      end
  end.

(** [parse(rawURL, false)]: a URL without its fragment. *)
Definition parse (rawURL : string) : URL + error :=
  if stringContainsCTLByte rawURL then
    inr (errorString "net/url: invalid control character in URL")
  else if String.eqb rawURL "*" then
    inl {| Scheme := ""; Opaque := ""; User := None; Host := ""; Path := "*";
           ForceQuery := false; RawQuery := ""; Fragment := "" |}
  else
    match getScheme rawURL with
    | (_, _, Some e) => inr e
    | (scheme0, rest0, None) =>
        let scheme := strings_ToLower scheme0 in
        let '(rest, forceQuery, rawQuery) :=
          if strings_HasSuffix rest0 "?" && (strings_Count rest0 "?" =? 1)
          then (str_take (String.length rest0 - 1) rest0, true, "")
          else let '(before, after, _) := strings_Cut rest0 "?" in (before, false, after) in
        if negb (strings_HasPrefix rest "/") && negb (String.eqb scheme "") then
          inl {| Scheme := scheme; Opaque := rest; User := None; Host := ""; Path := "";
                 ForceQuery := forceQuery; RawQuery := rawQuery; Fragment := "" |}
        else if negb (strings_HasPrefix rest "/")
                && (let '(segment, _, _) := strings_Cut rest "/" in strings_Contains segment ":") then
          inr (errorString "first path segment in URL cannot contain colon")
        else
          let '(user, host, rest', err) :=
            if (negb (String.eqb scheme "") || negb (strings_HasPrefix rest "///"))
               && strings_HasPrefix rest "//" then
              let after := str_drop 2 rest in
              let '(authority, rest') :=
                match strings_Index after "/" with
                | Some i => (str_take i after, str_drop i after)
                | None => (after, "")
                end in
              let '(user, host, err) := parseAuthority authority in
              (user, host, rest', err)
            else (None, "", rest, None) in
          match err with
          | Some e => inr e
          | None =>
              match unescape rest' encodePath with
              | (_, Some e) => inr e
              | (path, None) =>
                  inl {| Scheme := scheme; Opaque := ""; User := user; Host := host;
                         Path := path; ForceQuery := forceQuery; RawQuery := rawQuery;
                         Fragment := "" |}
              end
          end
    end.

(** [url.Parse]: the fragment is cut off first and decoded last; the result
    is the URL or the error ([inr]: the cause [Parse] wraps in its
    [*url.Error]). *)
Definition Parse (rawURL : string) : URL + error :=
  let '(u, frag, _) := strings_Cut rawURL "#" in
  match parse u with
  | inr e => inr e
  | inl url =>
      if String.eqb frag "" then inl url
      else match unescape frag encodeFragment with
           | (_, Some e) => inr e
           | (f, None) =>
               inl {| Scheme := Scheme url; Opaque := Opaque url; User := User url;
                      Host := Host url; Path := Path url; ForceQuery := ForceQuery url;
                      RawQuery := RawQuery url; Fragment := f |}
           end
  end.

(** [splitHostPort]: a valid port after the last colon is split off and the
    brackets of an IP literal are dropped. *)
Definition splitHostPort (hostPort : string) : string * string :=
  let '(host, port) :=
    match strings_LastIndex hostPort ":" with
    | Some colon =>
        if validOptionalPort (str_drop colon hostPort)
        then (str_take colon hostPort, str_drop (colon + 1) hostPort)
        else (hostPort, "")
    | None => (hostPort, "")
    end in
  if strings_HasPrefix host "[" && strings_HasSuffix host "]"
  then (str_take (String.length host - 2) (str_drop 1 host), port)
  else (host, port).

Definition Hostname (u : URL) : string := fst (splitHostPort (Host u)).
Definition Port (u : URL) : string := snd (splitHostPort (Host u)).

End Url.

(** *** Package path/filepath (Unix) *)

(** The elements of a path that remain after [Clean], innermost first: empty
    elements and [.] are dropped, [..] removes the element before it, or
    stays when there is none to remove and the path is not rooted. *)
Fixpoint clean_elems (rooted : bool) (stack elems : list string) : list string :=
  match elems with
  | [] => stack
  | e :: rest =>
      if String.eqb e "" || String.eqb e "." then clean_elems rooted stack rest
      else if String.eqb e ".." then
        match stack with
        | top :: below =>
            if String.eqb top ".." then clean_elems rooted (e :: stack) rest
            else clean_elems rooted below rest
        | [] => clean_elems rooted (if rooted then [] else [e]) rest
        end
      else clean_elems rooted (e :: stack) rest
  end.

Definition filepath_Clean (path : string) : string :=
  let rooted := strings_HasPrefix path "/" in
  let out := (if rooted then "/" else "")
             +:+ strings_Join (rev (clean_elems rooted [] (split_on "/" "" path))) "/" in
  if String.eqb out "" then "." else out.

(** [filepath.Join]: the elements from the first non-empty one on, joined
    by slashes and cleaned; the empty string when all are empty. *)
Fixpoint filepath_Join (elem : list string) : string :=
  match elem with
  | [] => ""
  | e :: rest =>
      if String.eqb e "" then filepath_Join rest
      else filepath_Clean (strings_Join elem "/")
  end.

(** ** The world the helper runs in

    The process environment, the file system and the network are the
    helper's surroundings.  [network] is what the HTTP client would answer
    to a request after the calls made so far; [dirs] are the directories
    that exist and [files] the files, by the names the helper has for them;
    [fs_fault] is the error the operating system has for making an entry at
    a path (a read-only mount, a missing permission); [trace] records every
    call that reaches out of the process to change or to fetch something. *)

Inductive Event : Type :=
| HttpGet (url : string) (insecureSkipVerify : bool)
| WriteFile (filename data : string) (perm : Z)
| MkdirAll (path : string) (perm : Z).

(** An [*http.Response]: its status and what reading its body to the end
    gives ([ioutil.ReadAll]: the bytes and an error). *)
Record Response : Type := {
  StatusCode : Z;
  Body : string * option error
}.

Record World : Type := {
  environ : gmap string string;
  files : gmap string string;
  dirs : gset string;
  fs_fault : string -> option error;
  network : list Event -> string -> bool -> option Response * option error;
  trace : list Event
}.

Definition record (e : Event) (w : World) : World :=
  {| environ := environ w; files := files w; dirs := dirs w; fs_fault := fs_fault w;
     network := network w; trace := trace w ++ [e] |}.

Definition set_files (f : gmap string string) (w : World) : World :=
  {| environ := environ w; files := f; dirs := dirs w; fs_fault := fs_fault w;
     network := network w; trace := trace w |}.

Definition set_dirs (d : gset string) (w : World) : World :=
  {| environ := environ w; files := files w; dirs := d; fs_fault := fs_fault w;
     network := network w; trace := trace w |}.

(** A computation in the world: it returns a value and the world it leaves,
    or it panics. *)
Definition IO (A : Type) : Type := World -> Result (A * World).

Definition ret {A : Type} (a : A) : IO A := fun w => Returned (a, w).

Definition bind {A B : Type} (m : IO A) (k : A -> IO B) : IO B :=
  fun w => match m w with
           | Returned (a, w') => k a w'
           | Panicked reason => Panicked reason
           end.

Definition panic {A : Type} (reason : string) : IO A := fun _ => Panicked reason.

Definition lift {A : Type} (r : Result A) : IO A :=
  fun w => match r with
           | Returned a => Returned (a, w)
           | Panicked reason => Panicked reason
           end.

Notation "x <- m ;; k" := (bind m (fun x => k))
  (at level 100, m at next level, right associativity).

(** [os.Getenv]: the value of the variable, empty when it is not set. *)
Definition getenv (w : World) (key : string) : string := default "" (environ w !! key).

Definition os_Getenv (key : string) : IO string :=
  fun w => Returned (getenv w key, w).

(** Modelled from the spec: [exists], the package's test that a file is
    there (declared outside java.go): true when the path names a file or a
    directory. *)
Definition exists_ (name : string) : IO bool :=
  fun w => Returned (bool_decide (is_Some (files w !! name)) || bool_decide (name ∈ dirs w), w).

(** The directory a path is an entry of, found the way [os.MkdirAll] finds
    it, from the end of the path: the trailing separators are passed over,
    then the last element; what is left, without its last separator, is
    the directory ([path[:j-1]] when [j > 1]).  [None] when nothing is
    left: the entry is in the working directory or in the root, which are
    always there.  Names are compared as they are written; the helper
    passes cleaned paths. *)
Fixpoint skip_separators (l : list ascii) : list ascii :=
  match l with
  | c :: l' => if Ascii.eqb c "/" then skip_separators l' else l
  | [] => []
  end.

Fixpoint skip_element (l : list ascii) : list ascii :=
  match l with
  | c :: l' => if Ascii.eqb c "/" then l else skip_element l'
  | [] => []
  end.

Definition parent_dir (path : string) : option string :=
  match skip_element (skip_separators (rev (list_ascii_of_string path))) with
  | _ :: (_ :: _) as up => Some (string_of_list_ascii (rev up))
  | _ => None
  end.

Definition is_dir (w : World) (path : string) : bool := bool_decide (path ∈ dirs w).

Definition is_file (w : World) (path : string) : bool :=
  bool_decide (is_Some (files w !! path)).

(** An entry can be made at a path when the directory it goes to exists. *)
Definition dir_there (w : World) (path : string) : bool :=
  match parent_dir path with
  | Some d => is_dir w d
  | None => true
  end.

(** [ioutil.WriteFile]: the file is created or replaced, unless the system
    refuses the path, the path is a directory, or the directory the file
    goes to does not exist. *)
Definition ioutil_WriteFile (filename data : string) (perm : Z) : IO (option error) :=
  fun w =>
    let w := record (WriteFile filename data perm) w in
    match fs_fault w filename with
    | Some e => Returned (Some e, w)
    | None =>
        if bool_decide (filename ∈ dirs w)
        then Returned (Some (errorString ("open " +:+ filename +:+ ": is a directory")), w)
        else if negb (dir_there w filename)
        then Returned (Some (errorString ("open " +:+ filename
                                          +:+ ": no such file or directory")), w)
        else Returned (None, set_files (<[filename := data]> (files w)) w)
    end.

(** [os.Mkdir]: one directory is made, in a directory that exists. *)
Definition os_Mkdir (name : string) (w : World) : option error * World :=
  match fs_fault w name with
  | Some e => (Some e, w)
  | None =>
      if is_file w name || is_dir w name
      then (Some (errorString ("mkdir " +:+ name +:+ ": file exists")), w)
      else if negb (dir_there w name)
      then (Some (errorString ("mkdir " +:+ name +:+ ": no such file or directory")), w)
      else (None, set_dirs ({[name]} ∪ dirs w) w)
  end.

(** The recursion of [os.MkdirAll].  A path that is a directory is done, a
    path that is a file is an error; otherwise the directory the path is
    an entry of is made first, by the same procedure, and then the path
    itself with [os.Mkdir], whose error counts only when the path is still
    no directory.  What was made before an error stays.  The recursion is
    on a shorter path each time; [fuel] bounds it and is the length of the
    path. *)
Fixpoint MkdirAll_from (fuel : nat) (path : string) (w : World) : option error * World :=
  if is_dir w path then (None, w)
  else if is_file w path
  then (Some (errorString ("mkdir " +:+ path +:+ ": not a directory")), w)
  else
    let '(err, w) :=
      match fuel, parent_dir path with
      | S fuel', Some up => MkdirAll_from fuel' up w
      | _, _ => (None, w)
      end in
    match err with
    | Some e => (Some e, w)
    | None =>
        let '(err, w) := os_Mkdir path w in
        match err with
        | Some e => if is_dir w path then (None, w) else (Some e, w)
        | None => (None, w)
        end
    end.

(** [os.MkdirAll]: the directory and the directories above it that are
    missing are made. *)
Definition os_MkdirAll (path : string) (perm : Z) : IO (option error) :=
  fun w =>
    let w := record (MkdirAll path perm) w in
    let '(err, w) := MkdirAll_from (String.length path) path w in
    Returned (err, w).

(** [client.Get] of a client whose transport has the given
    [InsecureSkipVerify]: the response and the error, as the network gives
    them.  When the request fails in transport there is no response. *)
Definition client_Get (url : string) (insecureSkipVerify : bool)
  : IO (option Response * option error) :=
  fun w => Returned (network w (trace w) url insecureSkipVerify,
                     record (HttpGet url insecureSkipVerify) w).

Definition ioutil_ReadAll (body : string * option error) : string * option error := body.

(** ** Package langs: the Java helper (java.go) *)

(** *** Constants

    The four texts are the source's raw string literals, byte for byte; a
    double quote is written [dq]. *)

(** The manifest of a function whose FDK version came from Maven Central. *)
Definition mavenPomFile : string := Eval vm_compute in
  ("<?xml version=" +:+ dq +:+
  "1.0" +:+ dq +:+
  " encoding=" +:+ dq +:+
  "UTF-8" +:+ dq +:+
  "?>
<project xmlns=" +:+ dq +:+
  "http://maven.apache.org/POM/4.0.0" +:+ dq +:+
  "
         xmlns:xsi=" +:+ dq +:+
  "http://www.w3.org/2001/XMLSchema-instance" +:+ dq +:+
  "
         xsi:schemaLocation=" +:+ dq +:+
  "http://maven.apache.org/POM/4.0.0 http://maven.apache.org/xsd/maven-4.0.0.xsd" +:+ dq +:+
  ">
    <modelVersion>4.0.0</modelVersion>
    <properties>
        <project.build.sourceEncoding>UTF-8</project.build.sourceEncoding>
        <fdk.version>%s</fdk.version>
    </properties>
    <groupId>com.example.fn</groupId>
    <artifactId>hello</artifactId>
    <version>1.0.0</version>

    <dependencies>
        <dependency>
            <groupId>com.fnproject.fn</groupId>
            <artifactId>api</artifactId>
            <version>${fdk.version}</version>
        </dependency>
        <dependency>
            <groupId>com.fnproject.fn</groupId>
            <artifactId>testing-core</artifactId>
            <version>${fdk.version}</version>
            <scope>test</scope>
        </dependency>
        <dependency>
            <groupId>com.fnproject.fn</groupId>
            <artifactId>testing-junit4</artifactId>
            <version>${fdk.version}</version>
            <scope>test</scope>
        </dependency>
        <dependency>
            <groupId>junit</groupId>
            <artifactId>junit</artifactId>
            <version>4.12</version>
            <scope>test</scope>
        </dependency>
    </dependencies>

    <build>
        <plugins>
            <plugin>
                <groupId>org.apache.maven.plugins</groupId>
                <artifactId>maven-compiler-plugin</artifactId>
                <version>3.3</version>
                <configuration>
                    <source>%s</source>
                    <target>%s</target>
                </configuration>
            </plugin>
            <plugin>
                 <groupId>org.apache.maven.plugins</groupId>
                 <artifactId>maven-surefire-plugin</artifactId>
                 <version>2.22.1</version>
                 <configuration>
                     <useSystemClassLoader>false</useSystemClassLoader>
                 </configuration>
            </plugin>
        </plugins>
    </build>
</project>
").

(** The manifest of a function whose FDK version came from Bintray: it adds
    the Bintray repository. *)
Definition bintrayPomFile : string := Eval vm_compute in
  ("<?xml version=" +:+ dq +:+
  "1.0" +:+ dq +:+
  " encoding=" +:+ dq +:+
  "UTF-8" +:+ dq +:+
  "?>
<project xmlns=" +:+ dq +:+
  "http://maven.apache.org/POM/4.0.0" +:+ dq +:+
  "
         xmlns:xsi=" +:+ dq +:+
  "http://www.w3.org/2001/XMLSchema-instance" +:+ dq +:+
  "
         xsi:schemaLocation=" +:+ dq +:+
  "http://maven.apache.org/POM/4.0.0 http://maven.apache.org/xsd/maven-4.0.0.xsd" +:+ dq +:+
  ">
    <modelVersion>4.0.0</modelVersion>
    <properties>
        <project.build.sourceEncoding>UTF-8</project.build.sourceEncoding>
        <fdk.version>%s</fdk.version>
    </properties>
    <groupId>com.example.fn</groupId>
    <artifactId>hello</artifactId>
    <version>1.0.0</version>

	<repositories>
        <repository>
            <id>fn-release-repo</id>
            <url>https://dl.bintray.com/fnproject/fnproject</url>
            <releases>
                <enabled>true</enabled>
            </releases>
            <snapshots>
                <enabled>false</enabled>
            </snapshots>
        </repository>
    </repositories>

    <dependencies>
        <dependency>
            <groupId>com.fnproject.fn</groupId>
            <artifactId>api</artifactId>
            <version>${fdk.version}</version>
        </dependency>
        <dependency>
            <groupId>com.fnproject.fn</groupId>
            <artifactId>testing-core</artifactId>
            <version>${fdk.version}</version>
            <scope>test</scope>
        </dependency>
        <dependency>
            <groupId>com.fnproject.fn</groupId>
            <artifactId>testing-junit4</artifactId>
            <version>${fdk.version}</version>
            <scope>test</scope>
        </dependency>
        <dependency>
            <groupId>junit</groupId>
            <artifactId>junit</artifactId>
            <version>4.12</version>
            <scope>test</scope>
        </dependency>
    </dependencies>

    <build>
        <plugins>
            <plugin>
                <groupId>org.apache.maven.plugins</groupId>
                <artifactId>maven-compiler-plugin</artifactId>
                <version>3.3</version>
                <configuration>
                    <source>%s</source>
                    <target>%s</target>
                </configuration>
            </plugin>
            <plugin>
                 <groupId>org.apache.maven.plugins</groupId>
                 <artifactId>maven-surefire-plugin</artifactId>
                 <version>2.22.1</version>
                 <configuration>
                     <useSystemClassLoader>false</useSystemClassLoader>
                 </configuration>
            </plugin>
        </plugins>
    </build>
</project>
").

(** The starter function. *)
Definition helloJavaSrcBoilerplate : string := Eval vm_compute in
  ("package com.example.fn;

public class HelloFunction {

    public String handleRequest(String input) {
        String name = (input == null || input.isEmpty()) ? " +:+ dq +:+
  "world" +:+ dq +:+
  "  : input;

        System.out.println(" +:+ dq +:+
  "Inside Java Hello World function" +:+ dq +:+
  "); 
        return " +:+ dq +:+
  "Hello, " +:+ dq +:+
  " + name + " +:+ dq +:+
  "!" +:+ dq +:+
  ";
    }

}").

(** The starter test. *)
Definition helloJavaTestBoilerplate : string := Eval vm_compute in
  ("package com.example.fn;

import com.fnproject.fn.testing.*;
import org.junit.*;

import static org.junit.Assert.*;

public class HelloFunctionTest {

    @Rule
    public final FnTestingRule testing = FnTestingRule.createDefault();

    @Test
    public void shouldReturnGreeting() {
        testing.givenEvent().enqueue();
        testing.thenRun(HelloFunction.class, " +:+ dq +:+
  "handleRequest" +:+ dq +:+
  ");

        FnResult result = testing.getOnlyResult();
        assertEquals(" +:+ dq +:+
  "Hello, world!" +:+ dq +:+
  ", result.getBodyAsString());
    }

}").

Definition bintrayVersionURL : string :=
  "https://api.bintray.com/search/packages/maven?repo=fnproject&g=com.fnproject.fn&a=fdk".
Definition mavenVersionUrl : string :=
  "https://repo1.maven.org/maven2/com/fnproject/fn/fdk/maven-metadata.xml".
Definition versionEnv : string := "FN_JAVA_FDK_VERSION".

(** *** Types *)

(** [JavaLangHelper] (the embedded [BaseHelper] has no state of its own). *)
Record JavaLangHelper : Type := {
  version : string;
  latestFdkVersion : string;
  pomType : string
}.

(** [h.latestFdkVersion = v] and [h.pomType = p]. *)
Definition set_latestFdkVersion (v : string) (h : JavaLangHelper) : JavaLangHelper :=
  {| version := version h; latestFdkVersion := v; pomType := pomType h |}.

Definition set_pomType (p : string) (h : JavaLangHelper) : JavaLangHelper :=
  {| version := version h; latestFdkVersion := latestFdkVersion h; pomType := p |}.

(** The document [parseMavenResponse] decodes into. *)
Module Maven.

Record VersionsT : Type := {
  Versions_Text : string;
  Version : list string
}.

Record VersioningT : Type := {
  Versioning_Text : string;
  Latest : string;
  Release : string;
  Versions : VersionsT;
  LastUpdated : string
}.

Record ParsedResponse : Type := {
  XMLName : string * string;
  Text : string;
  GroupId : string;
  ArtifactId : string;
  Versioning : VersioningT
}.

End Maven.

(** The package descriptor [parseBintrayResponse] decodes into. *)
Module Bintray.

Record parsedResponse : Type := { Version : string }.

Definition zero : parsedResponse := {| Version := "" |}.

End Bintray.

(** *** Package encoding/xml

    [xml.Unmarshal] into a zero [ParsedResponse] is a parameter of the
    development: what is proved about the helper holds for every decoder. *)
Class XmlDecoder : Type :=
  xml_Unmarshal : string -> Maven.ParsedResponse * option error.

(** *** [json.Unmarshal] into a [[]parsedResponse]

    A type mismatch does not stop the decoder: it goes on and reports the
    first mismatch at the end. *)

Definition first_error (a b : option error) : option error :=
  match a with Some _ => a | None => b end.

Definition unmarshalTypeError (v : Json.value) (target : string) : error :=
  errorString ("json: cannot unmarshal " +:+ Json.kind v +:+ " into Go value of type " +:+ target).

(** A JSON value into the string field [latest_version]. *)
Definition decode_Version (v : Json.value) (cur : Bintray.parsedResponse)
  : Bintray.parsedResponse * option error :=
  match v with
  | Json.Str s => ({| Bintray.Version := s |}, None)
  | Json.Null => (cur, None)
  | _ => (cur, Some (unmarshalTypeError v "string"))
  end.

(** The members of an object into the struct, in order; a key that does not
    name the field (exactly, or up to case) is skipped. *)
Fixpoint decode_members (members : list (string * Json.value)) (cur : Bintray.parsedResponse)
  : Bintray.parsedResponse * option error :=
  match members with
  | [] => (cur, None)
  | (key, v) :: rest =>
      if String.eqb key "latest_version" || Json.equalFoldRight "latest_version" key then
        let '(cur', e) := decode_Version v cur in
        let '(r, e') := decode_members rest cur' in
        (r, first_error e e')
      else decode_members rest cur
  end.

Definition decode_parsedResponse (v : Json.value) (cur : Bintray.parsedResponse)
  : Bintray.parsedResponse * option error :=
  match v with
  | Json.Object members => decode_members members cur
  | Json.Null => (cur, None)
  | _ => (cur, Some (unmarshalTypeError v "langs.parsedResponse"))
  end.

(** Element [i] of the array is decoded into element [i] of the slice that
    was passed in, into a zero value past its end. *)
Fixpoint decode_elems (elems : list Json.value) (into : list Bintray.parsedResponse)
  : list Bintray.parsedResponse * option error :=
  match elems with
  | [] => ([], None)
  | v :: rest =>
      let '(x, e) := decode_parsedResponse v (hd Bintray.zero into) in
      let '(xs, e') := decode_elems rest (tl into) in
      (x :: xs, first_error e e')
  end.

(** [json.Unmarshal(data, &v)]: the slice afterwards and the error.  An
    array replaces the slice, the empty array by an empty slice; [null]
    makes it nil; a document that is not JSON, or any other value, leaves
    it as it was. *)
Definition json_Unmarshal (data : string) (v : list Bintray.parsedResponse)
  : list Bintray.parsedResponse * option error :=
  match Json.parse data with
  | None => (v, Some (errorString "invalid character in JSON document"))
  | Some (Json.Array elems) => decode_elems elems v
  | Some Json.Null => ([], None)
  | Some other => (v, Some (unmarshalTypeError other "[]langs.parsedResponse"))
  end.

(** *** Functions *)

(** [fetchError], the error [GetLatestFDKVersion] builds for a resolution
    that failed. *)
Definition fetchError : error :=
  fmt_Errorf ("Failed to fetch latest Java FDK javaVersion. Check your network settings "
              +:+ "or manually override the javaVersion by setting %s")
             [OString versionEnv].


Section Helper.

Context {xml : XmlDecoder}.

(** [mavenOpts]: the [MAVEN_OPTS] of the build stage, from the proxy
    settings of the environment.  [opts] is the buffer the source writes to. *)
Definition mavenOpts : IO string :=
  let opts := "" in
  http_proxy <- os_Getenv "http_proxy" ;;
  let opts :=
    match Url.Parse http_proxy with
    | inl parsedURL =>
        opts +:+ fmt_Sprintf "-Dhttp.proxyHost=%s " [OString (Url.Hostname parsedURL)]
             +:+ fmt_Sprintf "-Dhttp.proxyPort=%s " [OString (Url.Port parsedURL)]
    | inr _ => opts
    end in
  https_proxy <- os_Getenv "https_proxy" ;;
  let opts :=
    match Url.Parse https_proxy with
    | inl parsedURL =>
        opts +:+ fmt_Sprintf "-Dhttps.proxyHost=%s " [OString (Url.Hostname parsedURL)]
             +:+ fmt_Sprintf "-Dhttps.proxyPort=%s " [OString (Url.Port parsedURL)]
    | inr _ => opts
    end in
  nonProxyHost <- os_Getenv "no_proxy" ;;
  let opts :=
    opts +:+ fmt_Sprintf "-Dhttp.nonProxyHosts=%s "
                         [OString (strings_Replace nonProxyHost "," "|" (-1))] in
  let opts := opts +:+ "-Dmaven.repo.local=/usr/share/maven/ref/repository" in
  ret opts.

(** [DockerfileBuildCmds]: the build stage steps that compile the Maven
    project. *)
Definition DockerfileBuildCmds (h : JavaLangHelper) : IO (list string) :=
  opts <- mavenOpts ;;
  ret [ fmt_Sprintf "ENV MAVEN_OPTS %s" [OString opts];
        "ADD pom.xml /function/pom.xml";
        ("RUN [" +:+ dq +:+ "mvn" +:+ dq +:+ ", " +:+ dq +:+ "package" +:+ dq +:+ ", "
           +:+ dq +:+ "dependency:copy-dependencies" +:+ dq +:+ ", "
           +:+ dq +:+ "-DincludeScope=runtime" +:+ dq +:+ ", ")
        +:+ (dq +:+ "-DskipTests=true" +:+ dq +:+ ", "
               +:+ dq +:+ "-Dmdep.prependGroupId=true" +:+ dq +:+ ", "
               +:+ dq +:+ "-DoutputDirectory=target" +:+ dq +:+ ", "
               +:+ dq +:+ "--fail-never" +:+ dq +:+ "]");
        "ADD src /function/src";
        "RUN [" +:+ dq +:+ "mvn" +:+ dq +:+ ", " +:+ dq +:+ "package" +:+ dq +:+ "]" ].

(** [pomFileContent]: the manifest for the FDK version, the Java version
    and the registry the FDK version came from. *)
Definition pomFileContent (APIversion javaVersion pomType : string) : string :=
  if String.eqb pomType "maven"
  then fmt_Sprintf mavenPomFile [OString APIversion; OString javaVersion; OString javaVersion]
  else fmt_Sprintf bintrayPomFile [OString APIversion; OString javaVersion; OString javaVersion].

(** [getURLResponse]: the body of the answer to a GET.  The deferred
    [resp.Body.Close()] is evaluated before the error is looked at: without
    a response it dereferences nil. *)
Definition getURLResponse (url : string) (inSecureSkipVerify : bool)
  : IO (string * option error) :=
  got <- client_Get url inSecureSkipVerify ;;
  let '(resp, err) := got in
  match resp with
  | None => panic "runtime error: invalid memory address or nil pointer dereference"
  | Some resp =>
      if bool_decide (is_Some err) || negb (StatusCode resp =? 200)%Z then
        ret ("", Some (fmt_Errorf "Failed to fetch response from URL %s Error: %v Status: %d"
                                  [OString url; error_v err; OInt (StatusCode resp)]))
      else
        let '(data, err) := ioutil_ReadAll (Body resp) in
        match err with
        | Some e => ret ("", Some e)
        | None => ret (data, None)
        end
  end.

(** [parseMavenResponse]: the [latest] field of a metadata document that
    lists at least one version. *)
Definition parseMavenResponse (data : string) : string * option error :=
  let '(response, err) := xml_Unmarshal data in
  match err with
  | Some e => ("", Some e)
  | None =>
      if length (Maven.Version (Maven.Versions (Maven.Versioning response))) =? 0
      then ("", Some (fmt_Errorf "Maven response is not valid" []))
      else (Maven.Latest (Maven.Versioning response), None)
  end.

(** [parseBintrayResponse]: the [latest_version] of the first descriptor.
    The slice is made with one element and then handed to the decoder;
    [parsedResp[0]] is read whatever the decoder left of it. *)
Definition parseBintrayResponse (data : string) : Result (string * option error) :=
  let parsedResp := [Bintray.zero] in
  let '(parsedResp, err) := json_Unmarshal data parsedResp in
  match err with
  | Some e => Returned ("", Some e)
  | None =>
      match parsedResp with
      | [] => Panicked "runtime error: index out of range [0] with length 0"
      | first :: _ => Returned (Bintray.Version first, None)
      end
  end.

(** [getFDKLatestFromURL]: Maven Central first, Bintray second; the version
    and the registry that gave it.  What is returned when both fail is the
    error of the second fetch. *)
Definition getFDKLatestFromURL (comURL bintrayURL : string)
  : IO (string * string * option error) :=
  got <- getURLResponse comURL false ;;
  let '(data, err) := got in
  match (match err with
         | None => match parseMavenResponse data with
                   | (version, None) => Some version
                   | (_, Some _) => None
                   end
         | Some _ => None
         end) with
  | Some version => ret (version, "maven", None)
  | None =>
      got <- getURLResponse bintrayURL true ;;
      let '(data, err) := got in
      match err with
      | None =>
          parsed <- lift (parseBintrayResponse data) ;;
          match parsed with
          | (version, None) => ret (version, "bintray", None)
          | (_, Some _) => ret ("", "", err)
          end
      | Some _ => ret ("", "", err)
      end
  end.

(** [GetLatestFDKVersion]: the cached version, else the override of the
    environment, else the registries; a version from the registries is
    cached with the registry's name. *)
Definition GetLatestFDKVersion (h : JavaLangHelper)
  : IO (string * option error * JavaLangHelper) :=
  if negb (String.eqb (latestFdkVersion h) "") then ret (latestFdkVersion h, None, h)
  else
    version <- os_Getenv versionEnv ;;
    if negb (String.eqb version "") then ret (version, None, h)
    else
      got <- getFDKLatestFromURL mavenVersionUrl bintrayVersionURL ;;
      let '(version, pType, err) := got in
      match err with
      | Some _ => ret ("", Some fetchError, h)
      | None =>
          ret (version, None, set_pomType pType (set_latestFdkVersion version h))
      end.

(** The closure [mkDirAndWriteFile] of [GenerateBoilerplate], with the
    [path] it captures: the directory is made, then the file is written. *)
Definition mkDirAndWriteFile (path : string) (dir filename content : string)
  : IO (option error) :=
  let fullPath := filepath_Join [path; dir] in
  err <- os_MkdirAll fullPath 493 ;;
  match err with
  | Some e => ret (Some e)
  | None =>
      let fullFilePath := filepath_Join [fullPath; filename] in
      ioutil_WriteFile fullFilePath content 420
  end.

(** [GenerateBoilerplate]: the manifest, the starter function and its test
    below [path], unless a manifest is there already.  (420 and 493 are the
    modes 0644 and 0755.) *)
Definition GenerateBoilerplate (h : JavaLangHelper) (path : string)
  : IO (option error * JavaLangHelper) :=
  let pathToPomFile := filepath_Join [path; "pom.xml"] in
  there <- exists_ pathToPomFile ;;
  if there : bool then ret (Some ErrBoilerplateExists, h)
  else
    got <- GetLatestFDKVersion h ;;
    let '(apiVersion, err, h) := got in
    match err with
    | Some e => ret (Some e, h)
    | None =>
        err <- ioutil_WriteFile pathToPomFile
                 (pomFileContent apiVersion (version h) (pomType h)) 420 ;;
        match err with
        | Some e => ret (Some e, h)
        | None =>
            err <- mkDirAndWriteFile path "src/main/java/com/example/fn" "HelloFunction.java"
                     helloJavaSrcBoilerplate ;;
            match err with
            | Some e => ret (Some e, h)
            | None =>
                err <- mkDirAndWriteFile path "src/test/java/com/example/fn"
                         "HelloFunctionTest.java" helloJavaTestBoilerplate ;;
                ret (err, h)
            end
        end
    end.

End Helper.

(** *** The helper's other methods *)

(** [LangStrings]: the names the runtime goes by. *)
Definition LangStrings (h : JavaLangHelper) : list string :=
  ["java"; fmt_Sprintf "java%s" [OString (version h)]].

(** [Runtime]: [h.LangStrings()[0]]. *)
Definition Runtime (h : JavaLangHelper) : Result string :=
  match LangStrings h with
  | first :: _ => Returned first
  | [] => Panicked "runtime error: index out of range [0] with length 0"
  end.

(** [os.Getwd] is a parameter: the working directory the system reports
    in a world, or its error.  It reads the world and leaves it as it is. *)
Class WorkingDirectory : Type :=
  os_Getwd : World -> string * option error.

Section Images.

Context {xml : XmlDecoder}.

(** [BuildFromImage]: the image the project is compiled in.  The FDK
    version is resolved first, the Java version is looked at afterwards. *)
Definition BuildFromImage (h : JavaLangHelper)
  : IO (string * option error * JavaLangHelper) :=
  got <- GetLatestFDKVersion h ;;
  let '(fdkVersion, err, h) := got in
  match err with
  | Some e => ret ("", Some e, h)
  | None =>
      if String.eqb (version h) "8" then
        ret (fmt_Sprintf "fnproject/fn-java-fdk-build:%s" [OString fdkVersion], None, h)
      else if String.eqb (version h) "11" then
        ret (fmt_Sprintf "fnproject/fn-java-fdk-build:jdk11-%s" [OString fdkVersion], None, h)
      else
        ret ("", Some (fmt_Errorf "unsupported java version %s" [OString (version h)]), h)
  end.

(** [RunFromImage]: the image the function runs in. *)
Definition RunFromImage (h : JavaLangHelper)
  : IO (string * option error * JavaLangHelper) :=
  got <- GetLatestFDKVersion h ;;
  let '(fdkVersion, err, h) := got in
  match err with
  | Some e => ret ("", Some e, h)
  | None =>
      if String.eqb (version h) "8" then
        ret (fmt_Sprintf "fnproject/fn-java-fdk:%s" [OString fdkVersion], None, h)
      else if String.eqb (version h) "11" then
        ret (fmt_Sprintf "fnproject/fn-java-fdk:jre11-%s" [OString fdkVersion], None, h)
      else
        ret ("", Some (fmt_Errorf "unsupported java version %s" [OString (version h)]), h)
  end.

End Images.

(** [PreBuild]: the working directory must hold a manifest. *)
Definition PreBuild {cwd : WorkingDirectory} (h : JavaLangHelper) : IO (option error) :=
  fun w =>
    let '(wd, err) := os_Getwd w in
    match err with
    | Some e => Returned (Some e, w)
    | None =>
        (there <- exists_ (filepath_Join [wd; "pom.xml"]) ;;
         if negb there
         then ret (Some (errorString
                           "Could not find pom.xml - are you sure this is a Maven project?"))
         else ret None) w
    end.

(** ** A decoder to run the helper with

    [MiniXml] decodes the part of XML that a [maven-metadata.xml] document
    uses: elements with attributes, character data with the five predefined
    entities, comments and processing instructions.  It is an instance of
    [XmlDecoder] for running the helper on sample documents: the theorems
    about the helper hold for every decoder, and the examples run with this
    one. *)

Module MiniXml.

Inductive node : Type :=
| Elem (name : string) (children : list node)
| Chars (text : string).

Definition is_space (c : ascii) : bool := Json.is_space c.

(** What follows the first occurrence of [stop] in [s]. *)
Definition skip_past (stop s : string) : option string :=
  match strings_Index s stop with
  | Some i => Some (str_drop (i + String.length stop) s)
  | None => None
  end.

Definition is_name_byte (c : ascii) : bool :=
  negb (is_space c || Ascii.eqb c "/" || Ascii.eqb c ">" || Ascii.eqb c "<" || Ascii.eqb c "=").

(** The attributes of a start tag are passed over; the result tells whether
    the tag closes itself. *)
Fixpoint skip_attrs (quote : option ascii) (s : string) : option (bool * string) :=
  match s with
  | "" => None
  | String c s' =>
      match quote with
      | Some q => skip_attrs (if Ascii.eqb c q then None else quote) s'
      | None =>
          if Ascii.eqb c ">" then Some (false, s')
          else if Ascii.eqb c "/" then
            match s' with
            | String d s'' => if Ascii.eqb d ">" then Some (true, s'') else None
            | "" => None
            end
          else if Ascii.eqb c (ascii_of_nat 34) || Ascii.eqb c "'" then skip_attrs (Some c) s'
          else skip_attrs None s'
      end
  end.

Definition entities : list (string * string) :=
  [("&lt;", "<"); ("&gt;", ">"); ("&amp;", "&"); ("&apos;", "'"); ("&quot;", dq)].

Definition entity (s : string) : option (string * string) :=
  match filter (fun e => strings_HasPrefix s (fst e)) entities with
  | (name, text) :: _ => Some (text, str_drop (String.length name) s)
  | [] => None
  end.

(** Character data up to the next tag. *)
Fixpoint chars (fuel : nat) (s : string) : option (string * string) :=
  match fuel with
  | O => None
  | S fuel' =>
      match s with
      | "" => Some ("", "")
      | String c s' =>
          if Ascii.eqb c "<" then Some ("", s)
          else if Ascii.eqb c "&" then
            match entity s with
            | Some (text, rest) =>
                match chars fuel' rest with
                | Some (t, r) => Some (text +:+ t, r)
                | None => None
                end
            | None => None
            end
          else match chars fuel' s' with
               | Some (t, r) => Some (String c t, r)
               | None => None
               end
      end
  end.

(** The nodes up to the end tag of the enclosing element, or to the end of
    the document. *)
Fixpoint nodes (fuel : nat) (s : string) : option (list node * string) :=
  match fuel with
  | O => None
  | S fuel' =>
      if String.eqb s "" || strings_HasPrefix s "</" then Some ([], s)
      else if strings_HasPrefix s "<?" then
        match skip_past "?>" s with
        | Some r => nodes fuel' r
        | None => None
        end
      else if strings_HasPrefix s "<!--" then
        match skip_past "-->" s with
        | Some r => nodes fuel' r
        | None => None
        end
      else if strings_HasPrefix s "<!" then None
      else if strings_HasPrefix s "<" then
        let '(name, r0) := Json.span is_name_byte (str_drop 1 s) in
        if String.eqb name "" then None
        else match skip_attrs None r0 with
             | None => None
             | Some (true, r1) =>
                 match nodes fuel' r1 with
                 | Some (sibs, r) => Some (Elem name [] :: sibs, r)
                 | None => None
                 end
             | Some (false, r1) =>
                 match nodes fuel' r1 with
                 | None => None
                 | Some (kids, r2) =>
                     if strings_HasPrefix r2 ("</" +:+ name) then
                       match Json.skip_space (str_drop (2 + String.length name) r2) with
                       | String c r3 =>
                           if Ascii.eqb c ">" then
                             match nodes fuel' r3 with
                             | Some (sibs, r) => Some (Elem name kids :: sibs, r)
                             | None => None
                             end
                           else None
                       | "" => None
                       end
                     else None
                 end
             end
      else match chars (S (String.length s)) s with
           | Some (text, r) =>
               match nodes fuel' r with
               | Some (sibs, r') => Some (Chars text :: sibs, r')
               | None => None
               end
           | None => None
           end
  end.

(** The character data directly inside an element. *)
Fixpoint chardata (kids : list node) : string :=
  match kids with
  | [] => ""
  | Chars t :: rest => t +:+ chardata rest
  | Elem _ _ :: rest => chardata rest
  end.

Definition into_Versions (kids : list node) (cur : Maven.VersionsT) : Maven.VersionsT :=
  fold_left
    (fun acc n =>
       match n with
       | Chars t => {| Maven.Versions_Text := Maven.Versions_Text acc +:+ t;
                       Maven.Version := Maven.Version acc |}
       | Elem name sub =>
           if String.eqb name "version"
           then {| Maven.Versions_Text := Maven.Versions_Text acc;
                   Maven.Version := Maven.Version acc ++ [chardata sub] |}
           else acc
       end)
    kids cur.

Definition into_Versioning (kids : list node) (cur : Maven.VersioningT) : Maven.VersioningT :=
  fold_left
    (fun acc n =>
       let '(t, l, r, v, u) :=
         (Maven.Versioning_Text acc, Maven.Latest acc, Maven.Release acc,
          Maven.Versions acc, Maven.LastUpdated acc) in
       let '(t, l, r, v, u) :=
         match n with
         | Chars c => (t +:+ c, l, r, v, u)
         | Elem name sub =>
             if String.eqb name "latest" then (t, chardata sub, r, v, u)
             else if String.eqb name "release" then (t, l, chardata sub, v, u)
             else if String.eqb name "versions" then (t, l, r, into_Versions sub v, u)
             else if String.eqb name "lastUpdated" then (t, l, r, v, chardata sub)
             else (t, l, r, v, u)
         end in
       {| Maven.Versioning_Text := t; Maven.Latest := l; Maven.Release := r;
          Maven.Versions := v; Maven.LastUpdated := u |})
    kids cur.

Definition into_ParsedResponse (kids : list node) (cur : Maven.ParsedResponse)
  : Maven.ParsedResponse :=
  fold_left
    (fun acc n =>
       let '(x, t, g, a, v) :=
         (Maven.XMLName acc, Maven.Text acc, Maven.GroupId acc, Maven.ArtifactId acc,
          Maven.Versioning acc) in
       let '(t, g, a, v) :=
         match n with
         | Chars c => (t +:+ c, g, a, v)
         | Elem name sub =>
             if String.eqb name "groupId" then (t, chardata sub, a, v)
             else if String.eqb name "artifactId" then (t, g, chardata sub, v)
             else if String.eqb name "versioning" then (t, g, a, into_Versioning sub v)
             else (t, g, a, v)
         end in
       {| Maven.XMLName := x; Maven.Text := t; Maven.GroupId := g; Maven.ArtifactId := a;
          Maven.Versioning := v |})
    kids cur.

Definition zero : Maven.ParsedResponse :=
  {| Maven.XMLName := ("", ""); Maven.Text := ""; Maven.GroupId := ""; Maven.ArtifactId := "";
     Maven.Versioning :=
       {| Maven.Versioning_Text := ""; Maven.Latest := ""; Maven.Release := "";
          Maven.Versions := {| Maven.Versions_Text := ""; Maven.Version := [] |};
          Maven.LastUpdated := "" |} |}.

Definition is_blank (n : node) : bool :=
  match n with
  | Chars t => str_forallb is_space t
  | Elem _ _ => false
  end.

(** The document must be one [metadata] element. *)
Definition Unmarshal (data : string) : Maven.ParsedResponse * option error :=
  match nodes (String.length data + 1) data with
  | Some (top, "") =>
      match filter (fun n => negb (is_blank n)) top with
      | [Elem name kids] =>
          if String.eqb name "metadata" then
            let r := into_ParsedResponse kids zero in
            ({| Maven.XMLName := ("", name); Maven.Text := Maven.Text r;
                Maven.GroupId := Maven.GroupId r; Maven.ArtifactId := Maven.ArtifactId r;
                Maven.Versioning := Maven.Versioning r |}, None)
          else (zero, Some (errorString ("expected element type <metadata> but have <"
                                         +:+ name +:+ ">")))
      | _ => (zero, Some (errorString "XML syntax error"))
      end
  | _ => (zero, Some (errorString "XML syntax error"))
  end.

End MiniXml.

Definition mini_xml : XmlDecoder := MiniXml.Unmarshal.

(** ** Sample surroundings

    Worlds and helpers on which the development is run: registries that
    answer, registries that cannot be reached, an environment with and
    without the override. *)

Definition sample_metadata : string :=
"<?xml version='1.0' encoding='UTF-8'?>
<metadata>
  <groupId>com.fnproject.fn</groupId>
  <artifactId>fdk</artifactId>
  <versioning>
    <latest>1.0.105</latest>
    <release>1.0.105</release>
    <versions>
      <version>1.0.104</version>
      <version>1.0.105</version>
    </versions>
    <lastUpdated>20200219104706</lastUpdated>
  </versioning>
</metadata>
".

(** The document of the spec's fallback scenario. *)
Definition sample_descriptors : string :=
  "[{" +:+ dq +:+ "latest_version" +:+ dq +:+ ":" +:+ dq +:+ "2.3.1" +:+ dq +:+ "}]".

Definition answer (status : Z) (body : string) : option Response * option error :=
  (Some {| StatusCode := status; Body := (body, None) |}, None).

(** A request that fails in transport: an error and no response. *)
Definition unreachable : option Response * option error :=
  (None, Some (errorString "dial tcp: lookup failed: no such host")).

Definition registries (maven bintray : option Response * option error)
  : list Event -> string -> bool -> option Response * option error :=
  fun _ url _ =>
    if String.eqb url mavenVersionUrl then maven
    else if String.eqb url bintrayVersionURL then bintray
    else unreachable.

Definition world_of (env fs : gmap string string)
    (net : list Event -> string -> bool -> option Response * option error) : World :=
  {| environ := env; files := fs; dirs := ∅; fs_fault := fun _ => None;
     network := net; trace := [] |}.

(** A helper for Java 11 that has resolved nothing yet, and one that has. *)
Definition fresh_helper : JavaLangHelper :=
  {| version := "11"; latestFdkVersion := ""; pomType := "" |}.

Definition warm_helper : JavaLangHelper :=
  {| version := "11"; latestFdkVersion := "1.0.105"; pomType := "maven" |}.

Definition offline : list Event -> string -> bool -> option Response * option error :=
  registries unreachable unreachable.

Definition override_world : World :=
  world_of {[ versionEnv := "2.0.0" ]} ∅ offline.

Definition maven_world : World :=
  world_of ∅ ∅ (registries (answer 200 sample_metadata) unreachable).

Definition project_world : World :=
  world_of ∅ {[ "proj/pom.xml" := "<project/>" ]} offline.

(** ** Reading a manifest back

    The spec's round trip re-reads the version a manifest embeds.  The
    reading is the spec's, not the helper's: the text between the first
    [<fdk.version>] and the [</fdk.version>] that follows it. *)

Definition fdk_open : string := "<fdk.version>".
Definition fdk_close : string := "</fdk.version>".




(** The last element of a slash-separated path. *)
Fixpoint last_element (cur : string) (s : string) : string :=
  match s with
  | "" => cur
  | String c s' =>
      if Ascii.eqb c "/" then last_element "" s'
      else last_element (cur +:+ String c "") s'
  end.

(** A path element that [Clean] keeps: it names something. *)
Definition real_element (n : string) : Prop :=
  occurs "/" n = false /\ n <> "" /\ n <> "." /\ n <> "..".

(** Two worlds with the same files, directories and file-system faults. *)
Definition same_fs (w w' : World) : Prop :=
  files w' = files w /\ dirs w' = dirs w /\ fs_fault w' = fs_fault w.


(** The spec's translation of one proxy variable: the host and the port of
    its URL as two properties of the given family, nothing when the value
    is no URL. *)
Definition proxy_opts (family value : string) : string :=
  match Url.Parse value with
  | inl u => "-D" +:+ family +:+ ".proxyHost=" +:+ Url.Hostname u +:+ " "
             +:+ "-D" +:+ family +:+ ".proxyPort=" +:+ Url.Port u +:+ " "
  | inr _ => ""
  end.

(** A proxy given as host and port, the way many environments have it. *)
Definition proxy_world : World :=
  world_of {[ "http_proxy" := "192.168.1.1:3128"; "https_proxy" := "192.168.1.1:3128";
              "no_proxy" := "localhost,127.0.0.1" ]} ∅ offline.

(** The primary registry cannot be reached; the secondary answers as in the
    spec's scenario. *)
Definition primary_down_world : World :=
  world_of ∅ ∅ (registries unreachable (answer 200 sample_descriptors)).

(** The primary registry answers 404; the secondary answers as in the
    spec's scenario. *)
Definition primary_404_world : World :=
  world_of ∅ ∅ (registries (answer 404 "Not Found") (answer 200 sample_descriptors)).

(** The primary registry answers 404 and the secondary answers 200 with a
    page that is no JSON. *)
Definition garbage_world : World :=
  world_of ∅ ∅ (registries (answer 404 "Not Found")
                           (answer 200 "<html>Bintray has been sunset</html>")).

(** Both registries answer 503. *)
Definition down_world : World :=
  world_of ∅ ∅ (registries (answer 503 "") (answer 503 "")).

(** Neither registry can be reached. *)
Definition offline_world : World := world_of ∅ ∅ offline.

(** An argument of an exec-form instruction, in its quotes. *)
Definition quoted (s : string) : string := dq +:+ s +:+ dq.

(** The spec's translation of [no_proxy]: every comma becomes a pipe. *)
Fixpoint commas_to_pipes (s : string) : string :=
  match s with
  | "" => ""
  | String c s' => String (if Ascii.eqb c "," then "|"%char else c) (commas_to_pipes s')
  end.

(** Helpers for Java 8 and for a Java version the images do not come in. *)
Definition java8_helper : JavaLangHelper :=
  {| version := "8"; latestFdkVersion := ""; pomType := "" |}.

Definition java17_helper : JavaLangHelper :=
  {| version := "17"; latestFdkVersion := ""; pomType := "" |}.

(** A process whose working directory is [wd]. *)
Definition in_directory (wd : string) : WorkingDirectory := fun _ => (wd, None).

(** The world a computation leaves, the world it started in when it panics. *)
Definition world_after {A : Type} (m : IO A) (w : World) : World :=
  match m w with
  | Returned (_, w') => w'
  | Panicked _ => w
  end.

(** A target directory in which the system refuses to make [src]. *)
Definition readonly_src_world : World :=
  {| environ := ∅; files := ∅; dirs := {["proj"]};
     fs_fault := fun p => if String.eqb p "proj/src"
                          then Some (errorString "mkdir proj/src: permission denied")
                          else None;
     network := registries (answer 200 sample_metadata) unreachable; trace := [] |}.

(** A target directory on a file system that refuses every write. *)
Definition readonly_world : World :=
  {| environ := ∅; files := ∅; dirs := {["proj"]};
     fs_fault := fun p => Some (errorString ("open " +:+ p +:+ ": read-only file system"));
     network := registries (answer 200 sample_metadata) unreachable; trace := [] |}.

(** The primary registry answers 200 with a page that is no metadata; the
    secondary answers as in the spec's scenario. *)
Definition primary_garbage_world : World :=
  world_of ∅ ∅ (registries (answer 200 "<html>moved</html>") (answer 200 sample_descriptors)).

(** A helper for Java 11 with no version cached and the tag "maven", as
    Maven Central leaves it with metadata whose [latest] is empty. *)
Definition warm_tag_helper : JavaLangHelper :=
  {| version := "11"; latestFdkVersion := ""; pomType := "maven" |}.

(** The four fixed parts of a manifest template, around the three elements
    that take an operand. *)
Definition template_parts (template : string) : string * string * string * string :=
  let '(head, rest, _) := strings_Cut template "<fdk.version>%s</fdk.version>" in
  let '(middle, rest, _) := strings_Cut rest "<source>%s</source>" in
  let '(gap, tail, _) := strings_Cut rest "<target>%s</target>" in
  (head, middle, gap, tail).

(** The repository a manifest for a version from Bintray declares. *)
Definition bintray_repository : string := "https://dl.bintray.com/fnproject/fnproject".

(** ** Package adapter: the application client (oci_app_client.go)

    The client lists the applications of a compartment page by page.  Of
    the SDK's types the development has the fields the client reads and
    writes; a pointer is an [option], nil is [None]. *)

Module Adapter.

Record App : Type := { Name : string; ID : string }.

Record ApplicationSummary : Type := {
  DisplayName : option string;
  Id : option string
}.

Record ListApplicationsRequest : Type := {
  CompartmentId : option string;
  Page : option string
}.

Record ListApplicationsResponse : Type := {
  Items : list ApplicationSummary;
  OpcNextPage : option string
}.

(** [client.ListApplications]: the service's answer to a request, after the
    requests it has had so far. *)
Definition Service : Type :=
  list ListApplicationsRequest -> ListApplicationsRequest
  -> ListApplicationsResponse * option error.

(** Arithmetic on [int64] wraps around. *)
Definition int64 (z : Z) : Z := ((z + 2 ^ 63) mod 2 ^ 64 - 2 ^ 63)%Z.

(** The loop of [convertOCIAppsToAdapterApps], from the slice it has
    appended to so far. *)
Fixpoint convert_from (resApps : list App) (ociApps : list ApplicationSummary)
  : Result (list App) :=
  match ociApps with
  | [] => Returned resApps
  | ociApp :: rest =>
      match DisplayName ociApp, Id ociApp with
      | Some name, Some id => convert_from (resApps ++ [{| Name := name; ID := id |}]) rest
      | _, _ => Panicked "runtime error: invalid memory address or nil pointer dereference"
      end
  end.

Definition convertOCIAppsToAdapterApps (ociApps : list ApplicationSummary)
  : Result (list App) :=
  convert_from [] ociApps.

(** How a run of [ListApp] ends, what it has written to the standard error
    stream and the requests it has sent. *)
Record Run : Type := {
  outcome : Result (list App * option error);
  stderr : string;
  sent : list ListApplicationsRequest
}.

(** The loop of [ListApp]: [inl] the applications at the [break], [inr] the
    error it returns with.  The loop has no bound of its own; [fuel] is the
    number of requests it may send, and [None] is a loop that has not ended
    by then. *)
Fixpoint ListApp_loop (fuel : nat) (client : Service) (n : Z)
    (history : list ListApplicationsRequest) (req : ListApplicationsRequest)
    (resApps : list App)
  : option (Result (list App + error) * list ListApplicationsRequest) :=
  match fuel with
  | O => None
  | S fuel =>
      let '(resp, err) := client history req in
      let history := history ++ [req] in
      match err with
      | Some e => Some (Returned (inr e), history)
      | None =>
          match convertOCIAppsToAdapterApps (Items resp) with
          | Panicked reason => Some (Panicked reason, history)
          | Returned adapterApps =>
              let resApps := resApps ++ adapterApps in
              let howManyMore :=
                int64 (n - int64 (Z.of_nat (length resApps + length (Items resp)))) in
              if (howManyMore <=? 0)%Z || bool_decide (OpcNextPage resp = None)
              then Some (Returned (inl resApps), history)
              else ListApp_loop fuel client n history
                     {| CompartmentId := CompartmentId req; Page := OpcNextPage resp |}
                     resApps
          end
      end
  end.

(** [ListApp], for the compartment of the configuration and the [n] of the
    command line. *)
Definition ListApp (fuel : nat) (client : Service) (compartmentId : string) (n : Z)
  : option Run :=
  let req := {| CompartmentId := Some compartmentId; Page := None |} in
  match ListApp_loop fuel client n [] req [] with
  | None => None
  | Some (Panicked reason, history) =>
      Some {| outcome := Panicked reason; stderr := ""; sent := history |}
  | Some (Returned (inr e), history) =>
      Some {| outcome := Returned ([], Some e); stderr := ""; sent := history |}
  | Some (Returned (inl resApps), history) =>
      if length resApps =? 0
      then Some {| outcome := Returned ([], None); stderr := "No apps found
"; sent := history |}
      else Some {| outcome := Returned (resApps, None); stderr := ""; sent := history |}
  end.

(** A service with three applications on two pages. *)
Definition summary (name id : string) : ApplicationSummary :=
  {| DisplayName := Some name; Id := Some id |}.

Definition two_pages : Service :=
  fun _ req =>
    match Page req with
    | None => ({| Items := [summary "app-a" "ocid1.a"; summary "app-b" "ocid1.b"];
                  OpcNextPage := Some "page-2" |}, None)
    | Some _ => ({| Items := [summary "app-c" "ocid1.c"]; OpcNextPage := None |}, None)
    end.

(** A service whose second page cannot be had. *)
Definition broken_second_page : Service :=
  fun _ req =>
    match Page req with
    | None => ({| Items := [summary "app-a" "ocid1.a"]; OpcNextPage := Some "page-2" |}, None)
    | Some _ => ({| Items := []; OpcNextPage := None |},
                 Some (errorString "Service error:InternalError"))
    end.

End Adapter.

(** A path written as its elements, below the root ("/") or below the
    working directory (the empty root). *)
Definition plain (root : string) (elems : list string) : string :=
  root +:+ strings_Join elems "/".

(** The second world is the first with, at most, more directories. *)
Definition more_dirs (w w' : World) : Prop :=
  files w' = files w /\ fs_fault w' = fs_fault w /\ trace w' = trace w
  /\ dirs w ⊆ dirs w'.

(** A world with one more directory. *)
Definition with_dir (d : string) (w : World) : World := set_dirs ({[d]} ∪ dirs w) w.


(** * Properties *)

(** ** Strings *)

Section Strings.

Lemma append_nil (b : string) : "" +:+ b = b.
Proof. reflexivity. Qed.

Lemma append_cons (c : ascii) (a b : string) : String c a +:+ b = String c (a +:+ b).
Proof. reflexivity. Qed.

Lemma append_assoc (a b c : string) : (a +:+ b) +:+ c = a +:+ (b +:+ c).
Proof.
  induction a as [|x a IH]; [reflexivity|].
  rewrite !append_cons. f_equal. exact IH.
Qed.

Lemma append_empty_r (a : string) : a +:+ "" = a.
Proof.
  induction a as [|x a IH]; [reflexivity|].
  rewrite append_cons. f_equal. exact IH.
Qed.

Lemma length_append (a b : string) :
  String.length (a +:+ b) = String.length a + String.length b.
Proof.
  induction a as [|x a IH]; [reflexivity|].
  rewrite append_cons. cbn [String.length Nat.add]. f_equal. exact IH.
Qed.

Lemma str_drop_append (a b : string) : str_drop (String.length a) (a +:+ b) = b.
Proof.
  induction a as [|x a IH]; [now destruct b|].
  rewrite append_cons. exact IH.
Qed.


Lemma HasPrefix_append (t y : string) : strings_HasPrefix (t +:+ y) t = true.
Proof.
  induction t as [|c t IH]; [reflexivity|].
  rewrite append_cons. cbn [strings_HasPrefix].
  now rewrite Ascii.eqb_refl, IH.
Qed.




(** [fmt.Sprintf]: text without a verb is copied, and [%s] is replaced by
    its string operand. *)
Lemma Sprintf_literal (a f : string) (args : list operand) :
  occurs "%" a = false ->
  fmt_Sprintf (a +:+ f) args = a +:+ fmt_Sprintf f args.
Proof.
  induction a as [|c a IH]; intros Ha; [reflexivity|].
  cbn [occurs] in Ha. apply orb_false_iff in Ha as [Hc Ha].
  rewrite !append_cons. cbn [fmt_Sprintf]. rewrite Ascii.eqb_sym in Hc. rewrite Hc.
  now rewrite (IH Ha).
Qed.

Lemma Sprintf_s (f v : string) (args : list operand) :
  fmt_Sprintf ("%s" +:+ f) (OString v :: args) = v +:+ fmt_Sprintf f args.
Proof. reflexivity. Qed.

(** [strings.Replace(s, ",", "|", -1)] is the spec's translation. *)
Lemma replace_from_commas (s : string) (n : Z) :
  (n < 0)%Z -> replace_from "," "|" n 0 s = commas_to_pipes s.
Proof.
  revert n. induction s as [|c s IH]; intros n Hn; [reflexivity|].
  cbn [replace_from commas_to_pipes].
  destruct (n =? 0)%Z eqn:E; [apply Z.eqb_eq in E; lia|].
  cbn [strings_HasPrefix]. rewrite (Ascii.eqb_sym "," c).
  destruct (Ascii.eqb c ","); cbn.
  - rewrite IH by lia. reflexivity.
  - rewrite IH by lia. reflexivity.
Qed.

Lemma Replace_commas (s : string) :
  strings_Replace s "," "|" (-1) = commas_to_pipes s.
Proof. unfold strings_Replace. cbn. now apply replace_from_commas. Qed.

End Strings.

(** ** Paths *)

Section Paths.

Lemma split_simple (n cur : string) :
  occurs "/" n = false -> split_on "/" cur n = [cur +:+ n].
Proof.
  revert cur. induction n as [|c n IH]; intros cur Hn.
  - cbn. now rewrite append_empty_r.
  - cbn [occurs] in Hn. apply orb_false_iff in Hn as [Hc Hn].
    cbn [split_on]. rewrite Ascii.eqb_sym, Hc. rewrite (IH _ Hn).
    now rewrite append_assoc.
Qed.

Lemma split_last (p n cur : string) :
  occurs "/" n = false ->
  split_on "/" cur (p +:+ String "/" n) = split_on "/" cur p ++ [n].
Proof.
  intros Hn. revert cur. induction p as [|c p IH]; intros cur.
  - rewrite append_nil. cbn [split_on]. rewrite Ascii.eqb_refl.
    now rewrite (split_simple n "" Hn).
  - rewrite append_cons. cbn [split_on].
    destruct (Ascii.eqb c "/"); rewrite IH; reflexivity.
Qed.

Lemma clean_elems_snoc (rooted : bool) (l stack : list string) (n : string) :
  real_element n ->
  clean_elems rooted stack (l ++ [n]) = n :: clean_elems rooted stack l.
Proof.
  intros (_ & H0 & H1 & H2). revert stack. induction l as [|e l IH]; intros stack.
  - cbn [app clean_elems].
    apply String.eqb_neq in H0, H1, H2. now rewrite H0, H1, H2.
  - cbn [app clean_elems].
    repeat (case_match; try apply IH).
Qed.

Lemma Join_snoc (l : list string) (n : string) :
  strings_Join (l ++ [n]) "/"
  = match l with [] => n | _ => strings_Join l "/" +:+ String "/" n end.
Proof.
  induction l as [|e l IH]; [reflexivity|].
  cbn [app strings_Join]. destruct l as [|e' l].
  - reflexivity.
  - cbn [app] in IH |- *. rewrite IH. now rewrite append_assoc.
Qed.

Lemma last_simple (n cur : string) :
  occurs "/" n = false -> last_element cur n = cur +:+ n.
Proof.
  revert cur. induction n as [|c n IH]; intros cur Hn.
  - cbn. now rewrite append_empty_r.
  - cbn [occurs] in Hn. apply orb_false_iff in Hn as [Hc Hn].
    cbn [last_element]. rewrite Ascii.eqb_sym, Hc. rewrite (IH _ Hn).
    now rewrite append_assoc.
Qed.

Lemma last_after_slash (b n cur : string) :
  occurs "/" n = false -> last_element cur (b +:+ String "/" n) = n.
Proof.
  intros Hn. revert cur. induction b as [|c b IH]; intros cur.
  - rewrite append_nil. cbn [last_element]. rewrite Ascii.eqb_refl.
    now rewrite (last_simple n "" Hn).
  - rewrite append_cons. cbn [last_element].
    destruct (Ascii.eqb c "/"); apply IH.
Qed.

(** Cleaning a path that ends with a real element keeps that element last. *)
Lemma Clean_last (q n : string) :
  real_element n ->
  q = "" \/ (exists p, q = p +:+ "/") ->
  last_element "" (filepath_Clean (q +:+ n)) = n.
Proof.
  intros Hn Hq. pose proof Hn as (Hs & H0 & _).
  assert (Hsplit : exists l, split_on "/" "" (q +:+ n) = l ++ [n]).
  { destruct Hq as [-> | [p ->]].
    - exists []. rewrite append_nil. now rewrite (split_simple n "" Hs).
    - exists (split_on "/" "" p). rewrite append_assoc.
      change ("/" +:+ n) with (String "/" n). now apply split_last. }
  destruct Hsplit as [l Hl]. unfold filepath_Clean. rewrite Hl.
  rewrite (clean_elems_snoc _ _ _ _ Hn). cbn [rev]. rewrite Join_snoc.
  set (root := if strings_HasPrefix (q +:+ n) "/" then "/" else "").
  set (inner := rev (clean_elems (strings_HasPrefix (q +:+ n) "/") [] l)).
  assert (Hout : exists a, (a = "" \/ exists b, a = b +:+ "/")
                           /\ root +:+ match inner with
                                       | [] => n
                                       | _ => strings_Join inner "/" +:+ String "/" n
                                       end = a +:+ n).
  { destruct inner as [|i inner'].
    - exists root. split; [|reflexivity].
      unfold root. destruct (strings_HasPrefix (q +:+ n) "/");
        [right; now exists ""|now left].
    - exists (root +:+ strings_Join (i :: inner') "/" +:+ "/"). split.
      + right. exists (root +:+ strings_Join (i :: inner') "/").
        now rewrite append_assoc.
      + now rewrite !append_assoc. }
  destruct Hout as (a & Ha & ->).
  assert (Hne : String.eqb (a +:+ n) "" = false).
  { apply String.eqb_neq. destruct a; [now rewrite append_nil|discriminate]. }
  rewrite Hne.
  destruct Ha as [-> | [b ->]].
  - rewrite append_nil. now rewrite (last_simple n "" Hs).
  - rewrite append_assoc. change ("/" +:+ n) with (String "/" n).
    now apply last_after_slash.
Qed.

Lemma Join_last (p n : string) :
  real_element n -> last_element "" (filepath_Join [p; n]) = n.
Proof.
  intros Hn. pose proof Hn as (_ & H0 & _).
  cbn [filepath_Join]. destruct (String.eqb p "") eqn:Ep.
  - apply String.eqb_neq in H0. rewrite H0. cbn [strings_Join].
    rewrite <- (append_nil n) at 1. apply Clean_last; auto.
  - cbn [strings_Join]. rewrite <- append_assoc. apply Clean_last; eauto.
Qed.

(** The manifest and the two starter files are three different paths. *)
Lemma starter_path_not_manifest (path dir name : string) :
  real_element name -> name <> "pom.xml" ->
  filepath_Join [filepath_Join [path; dir]; name] <> filepath_Join [path; "pom.xml"].
Proof.
  intros Hn Hne Heq.
  apply (f_equal (last_element "")) in Heq.
  rewrite (Join_last _ name Hn) in Heq.
  rewrite (Join_last path "pom.xml") in Heq.
  - contradiction.
  - repeat split; discriminate.
Qed.

End Paths.

(** ** Version resolution *)

Section Override.

Context {xml : XmlDecoder}.

(** *** The cache and the override *)

Lemma GetLatestFDKVersion_cached (h : JavaLangHelper) (w : World) :
  latestFdkVersion h <> "" ->
  GetLatestFDKVersion h w = Returned ((latestFdkVersion h, None, h), w).
Proof.
  intros Hc. unfold GetLatestFDKVersion.
  destruct (String.eqb (latestFdkVersion h) "") eqn:E.
  - apply String.eqb_eq in E. contradiction.
  - reflexivity.
Qed.

Lemma GetLatestFDKVersion_env (h : JavaLangHelper) (w : World) (V : string) :
  latestFdkVersion h = "" ->
  environ w !! versionEnv = Some V -> V <> "" ->
  GetLatestFDKVersion h w = Returned ((V, None, h), w).
Proof.
  intros Hc Hv Hne. unfold GetLatestFDKVersion, bind, os_Getenv, getenv.
  rewrite Hc. cbn. rewrite Hv. cbn.
  destruct (String.eqb V "") eqn:E.
  - apply String.eqb_eq in E. contradiction.
  - reflexivity.
Qed.

(** C2, as the code has it: with the override set to a non-empty [V], the
    helper answers [V] when it has nothing cached and its cached version
    when it has; either way it returns no error, the world is as it was (no
    request was recorded) and so is the helper (cache and registry tag). *)
Theorem GetLatestFDKVersion_override (h : JavaLangHelper) (w : World) (V : string) :
  environ w !! versionEnv = Some V -> V <> "" ->
  GetLatestFDKVersion h w =
    Returned ((if String.eqb (latestFdkVersion h) "" then V else latestFdkVersion h,
               None, h), w).
Proof.
  intros Hv Hne.
  destruct (String.eqb (latestFdkVersion h) "") eqn:E.
  - apply String.eqb_eq in E. now apply GetLatestFDKVersion_env.
  - apply GetLatestFDKVersion_cached. intros C. rewrite C in E. discriminate.
Qed.

End Override.

Lemma GetLatestFDKVersion_override_witness :
  GetLatestFDKVersion (xml := mini_xml) fresh_helper override_world
  = Returned (("2.0.0", None, fresh_helper), override_world).
Proof.
  apply (GetLatestFDKVersion_override (xml := mini_xml) fresh_helper override_world "2.0.0").
  - vm_compute. reflexivity.
  - discriminate.
Defined.

(** C2 as stated fails: a helper that has "1.0.105" cached answers "1.0.105"
    although the override is set to "2.0.0". *)
Lemma override_loses_to_cache :
  environ override_world !! versionEnv = Some "2.0.0"
  /\ GetLatestFDKVersion (xml := mini_xml) warm_helper override_world
     = Returned (("1.0.105", None, warm_helper), override_world)
  /\ "1.0.105" <> "2.0.0".
Proof.
  split; [vm_compute; reflexivity|].
  split; [reflexivity|discriminate].
Qed.

Section Resolution.

Context {xml : XmlDecoder}.

(** *** Fetching *)

Lemma getURLResponse_answer (url : string) (insecure : bool) (w : World) (body : string) :
  network w (trace w) url insecure = answer 200 body ->
  getURLResponse url insecure w
  = Returned ((body, None), record (HttpGet url insecure) w).
Proof.
  intros Hnet. unfold getURLResponse, bind, client_Get. rewrite Hnet. reflexivity.
Qed.

(** A request that fails in transport has no response, and the fetch
    panics instead of returning the error. *)
Theorem getURLResponse_no_response (url : string) (insecure : bool) (w : World)
    (err : option error) :
  network w (trace w) url insecure = (None, err) ->
  getURLResponse url insecure w
  = Panicked "runtime error: invalid memory address or nil pointer dereference".
Proof.
  intros Hnet. unfold getURLResponse, bind, client_Get. rewrite Hnet. reflexivity.
Qed.

Lemma getURLResponse_bad_status (url : string) (insecure : bool) (w : World)
    (resp : Response) (err : option error) :
  network w (trace w) url insecure = (Some resp, err) ->
  StatusCode resp <> 200%Z ->
  exists e, getURLResponse url insecure w
            = Returned (("", Some e), record (HttpGet url insecure) w).
Proof.
  intros Hnet Hs. unfold getURLResponse, bind, client_Get. rewrite Hnet. cbn.
  destruct (StatusCode resp =? 200)%Z eqn:E; [apply Z.eqb_eq in E; contradiction|].
  rewrite orb_true_r. eexists. reflexivity.
Qed.

(** A fetch that returns has recorded its request and changed nothing else. *)
Lemma getURLResponse_frame (url : string) (insecure : bool) (w w' : World)
    (r : string * option error) :
  getURLResponse url insecure w = Returned (r, w') ->
  w' = record (HttpGet url insecure) w.
Proof.
  unfold getURLResponse, bind, client_Get, panic, ret. cbn.
  intros H. repeat case_match; simplify_eq; reflexivity.
Qed.

(** C3: a helper with nothing cached, no override, and a primary registry
    that answers 200 with a document the decoder reads as listing at least
    one version: the helper returns the document's [latest] field with no
    error and caches it with the tag "maven", and the only request it has
    recorded is the one to the primary registry; the secondary registry was
    not queried. *)
Theorem primary_answer_is_final (h : JavaLangHelper) (w : World) (body : string)
    (doc : Maven.ParsedResponse) :
  latestFdkVersion h = "" ->
  getenv w versionEnv = "" ->
  network w (trace w) mavenVersionUrl false = answer 200 body ->
  xml_Unmarshal body = (doc, None) ->
  Maven.Version (Maven.Versions (Maven.Versioning doc)) <> [] ->
  GetLatestFDKVersion h w
  = Returned ((Maven.Latest (Maven.Versioning doc), None,
               set_pomType "maven"
                 (set_latestFdkVersion (Maven.Latest (Maven.Versioning doc)) h)),
              record (HttpGet mavenVersionUrl false) w)
  /\ trace (record (HttpGet mavenVersionUrl false) w)
     = trace w ++ [HttpGet mavenVersionUrl false].
Proof.
  intros Hc Henv Hnet Hxml Hvs. split; [|reflexivity].
  unfold GetLatestFDKVersion. rewrite Hc. cbn. rewrite Henv. cbn.
  unfold bind, getFDKLatestFromURL. unfold bind.
  rewrite (getURLResponse_answer _ _ _ _ Hnet).
  unfold parseMavenResponse. rewrite Hxml.
  destruct (Maven.Version (Maven.Versions (Maven.Versioning doc))) as [|v vs] eqn:E;
    [contradiction|].
  reflexivity.
Qed.

End Resolution.

Lemma getURLResponse_no_response_witness :
  getURLResponse mavenVersionUrl false offline_world
  = Panicked "runtime error: invalid memory address or nil pointer dereference".
Proof.
  apply (getURLResponse_no_response mavenVersionUrl false offline_world
           (Some (errorString "dial tcp: lookup failed: no such host"))).
  reflexivity.
Defined.

Lemma primary_answer_is_final_witness :
  GetLatestFDKVersion (xml := mini_xml) fresh_helper maven_world
  = Returned (("1.0.105", None,
               {| version := "11"; latestFdkVersion := "1.0.105"; pomType := "maven" |}),
              record (HttpGet mavenVersionUrl false) maven_world)
  /\ trace (record (HttpGet mavenVersionUrl false) maven_world)
     = [HttpGet mavenVersionUrl false].
Proof.
  apply (primary_answer_is_final (xml := mini_xml) fresh_helper maven_world sample_metadata
           (fst (MiniXml.Unmarshal sample_metadata))).
  - reflexivity.
  - vm_compute. reflexivity.
  - vm_compute. reflexivity.
  - vm_compute. reflexivity.
  - vm_compute. discriminate.
Defined.

(** *** The fallback chain *)

Section Fallback.

Context {xml : XmlDecoder}.

(** The fallback of the spec's scenario, for a primary registry that
    answers with a status other than 200: the secondary registry is asked
    next, without certificate verification, and its first descriptor gives
    the version, cached with the tag "bintray". *)
Theorem secondary_answer_after_primary_refusal (h : JavaLangHelper) (w : World)
    (resp : Response) (err : option error) :
  latestFdkVersion h = "" ->
  getenv w versionEnv = "" ->
  network w (trace w) mavenVersionUrl false = (Some resp, err) ->
  StatusCode resp <> 200%Z ->
  network w (trace w ++ [HttpGet mavenVersionUrl false]) bintrayVersionURL true
  = answer 200 sample_descriptors ->
  GetLatestFDKVersion h w
  = Returned (("2.3.1", None, set_pomType "bintray" (set_latestFdkVersion "2.3.1" h)),
              record (HttpGet bintrayVersionURL true)
                (record (HttpGet mavenVersionUrl false) w)).
Proof.
  intros Hc Henv Hnet1 Hs Hnet2.
  unfold GetLatestFDKVersion. rewrite Hc. cbn. fold (getenv w versionEnv).
  rewrite Henv. cbn.
  unfold bind, getFDKLatestFromURL. unfold bind.
  destruct (getURLResponse_bad_status _ _ _ _ _ Hnet1 Hs) as [e ->].
  rewrite (getURLResponse_answer bintrayVersionURL true
             (record (HttpGet mavenVersionUrl false) w) sample_descriptors Hnet2).
  reflexivity.
Qed.

(** When both registries answer with a status other than 200 the helper
    returns [fetchError], whose message names the override variable; it
    caches nothing. *)
Theorem both_registries_refuse (h : JavaLangHelper) (w : World)
    (resp1 resp2 : Response) (err1 err2 : option error) :
  latestFdkVersion h = "" ->
  getenv w versionEnv = "" ->
  network w (trace w) mavenVersionUrl false = (Some resp1, err1) ->
  StatusCode resp1 <> 200%Z ->
  network w (trace w ++ [HttpGet mavenVersionUrl false]) bintrayVersionURL true
  = (Some resp2, err2) ->
  StatusCode resp2 <> 200%Z ->
  GetLatestFDKVersion h w
  = Returned (("", Some fetchError, h),
              record (HttpGet bintrayVersionURL true)
                (record (HttpGet mavenVersionUrl false) w))
  /\ strings_Contains (Error fetchError) "FN_JAVA_FDK_VERSION" = true.
Proof.
  intros Hc Henv Hnet1 Hs1 Hnet2 Hs2. split; [|vm_compute; reflexivity].
  unfold GetLatestFDKVersion. rewrite Hc. cbn. fold (getenv w versionEnv).
  rewrite Henv. cbn.
  unfold bind, getFDKLatestFromURL. unfold bind.
  destruct (getURLResponse_bad_status _ _ _ _ _ Hnet1 Hs1) as [e1 ->].
  destruct (getURLResponse_bad_status bintrayVersionURL true
              (record (HttpGet mavenVersionUrl false) w) resp2 err2 Hnet2 Hs2) as [e2 ->].
  reflexivity.
Qed.

(** A version that is cached is the answer: no variable is read, no
    registry is asked, and the helper stays as it is. *)
Theorem cached_version_is_final (h : JavaLangHelper) (w : World) :
  latestFdkVersion h <> "" ->
  GetLatestFDKVersion h w = Returned ((latestFdkVersion h, None, h), w).
Proof. apply GetLatestFDKVersion_cached. Qed.

End Fallback.

Lemma secondary_answer_after_primary_refusal_witness :
  GetLatestFDKVersion (xml := mini_xml) fresh_helper primary_404_world
  = Returned (("2.3.1", None, set_pomType "bintray" (set_latestFdkVersion "2.3.1" fresh_helper)),
              record (HttpGet bintrayVersionURL true)
                (record (HttpGet mavenVersionUrl false) primary_404_world)).
Proof.
  apply (secondary_answer_after_primary_refusal (xml := mini_xml) fresh_helper
           primary_404_world {| StatusCode := 404; Body := ("Not Found", None) |} None);
    try reflexivity.
  discriminate.
Defined.

Lemma both_registries_refuse_witness :
  GetLatestFDKVersion (xml := mini_xml) fresh_helper down_world
  = Returned (("", Some fetchError, fresh_helper),
              record (HttpGet bintrayVersionURL true)
                (record (HttpGet mavenVersionUrl false) down_world))
  /\ strings_Contains (Error fetchError) "FN_JAVA_FDK_VERSION" = true.
Proof.
  apply (both_registries_refuse (xml := mini_xml) fresh_helper down_world
           {| StatusCode := 503; Body := ("", None) |}
           {| StatusCode := 503; Body := ("", None) |} None None);
    try reflexivity; discriminate.
Defined.

Lemma cached_version_is_final_witness :
  GetLatestFDKVersion (xml := mini_xml) warm_helper offline_world
  = Returned (("1.0.105", None, warm_helper), offline_world).
Proof.
  apply (cached_version_is_final (xml := mini_xml) warm_helper offline_world).
  discriminate.
Defined.

(** *** Where resolution leaves its specification *)

(** C1 fails on the code in two of the cases it lists.  A secondary
    registry that answers 200 with a body that is no JSON (after a primary
    that answered 404) makes the helper return the empty version and no
    error: [getFDKLatestFromURL] returns the nil error of the fetch, not the
    error of the parse.  Registries that cannot be reached make the helper
    panic: [getURLResponse] defers [resp.Body.Close()] on a nil response. *)
Theorem failed_resolution_is_not_reported :
  GetLatestFDKVersion (xml := mini_xml) fresh_helper garbage_world
  = Returned (("", None, fresh_helper),
              record (HttpGet bintrayVersionURL true)
                (record (HttpGet mavenVersionUrl false) garbage_world))
  /\ GetLatestFDKVersion (xml := mini_xml) fresh_helper offline_world
     = Panicked "runtime error: invalid memory address or nil pointer dereference".
Proof. split; vm_compute; reflexivity. Qed.

(** C4 fails on the code in the spec's own scenario: with the primary
    registry unreachable the helper panics before it asks the secondary
    registry, which would have answered "2.3.1". *)
Theorem unreachable_primary_panics :
  network primary_down_world [] mavenVersionUrl false = unreachable
  /\ network primary_down_world [HttpGet mavenVersionUrl false] bintrayVersionURL true
     = answer 200 sample_descriptors
  /\ GetLatestFDKVersion (xml := mini_xml) fresh_helper primary_down_world
     = Panicked "runtime error: invalid memory address or nil pointer dereference".
Proof. repeat split; vm_compute; reflexivity. Qed.

(** C9 fails on the code: the empty array (and [null]) is decoded with no
    error into a slice of length 0, whatever length the slice was made
    with, and indexing it panics. *)
Theorem parseBintrayResponse_empty_array_panics :
  json_Unmarshal "[]" [Bintray.zero] = ([], None)
  /\ parseBintrayResponse "[]"
     = Panicked "runtime error: index out of range [0] with length 0"
  /\ parseBintrayResponse "null"
     = Panicked "runtime error: index out of range [0] with length 0".
Proof. repeat split; vm_compute; reflexivity. Qed.

(** On the spec's document the parser does return the version. *)
Example parseBintrayResponse_sample :
  parseBintrayResponse sample_descriptors = Returned ("2.3.1", None).
Proof. vm_compute. reflexivity. Qed.

(** ** Boilerplate *)

Section Boilerplate.

Context {xml : XmlDecoder}.

(** The error of a failed resolution is never the sentinel. *)
Lemma GetLatestFDKVersion_error_not_sentinel (h h' : JavaLangHelper) (w w' : World)
    (v : string) (e : error) :
  GetLatestFDKVersion h w = Returned ((v, Some e, h'), w') -> e <> ErrBoilerplateExists.
Proof.
  unfold GetLatestFDKVersion, bind, os_Getenv, ret. intros H.
  repeat case_match; simplify_eq; discriminate.
Qed.

(** With a manifest in place the helper stops at its first test. *)
Lemma GenerateBoilerplate_manifest_there (h : JavaLangHelper) (path : string) (w : World) :
  is_Some (files w !! filepath_Join [path; "pom.xml"]) ->
  GenerateBoilerplate h path w = Returned ((Some ErrBoilerplateExists, h), w).
Proof.
  intros Hpom. unfold GenerateBoilerplate, bind, exists_.
  rewrite (bool_decide_eq_true_2 _ Hpom). reflexivity.
Qed.

(** C5: when [pom.xml] is already in the target directory, the helper
    returns [ErrBoilerplateExists] and the file system is as it was: the
    same files with the same contents, the same directories, and no
    [WriteFile] or [MkdirAll] recorded. *)
Theorem GenerateBoilerplate_existing_manifest_untouched (h : JavaLangHelper)
    (path : string) (w : World) :
  is_Some (files w !! filepath_Join [path; "pom.xml"]) ->
  exists h' w',
    GenerateBoilerplate h path w = Returned ((Some ErrBoilerplateExists, h'), w')
    /\ files w' = files w /\ dirs w' = dirs w /\ trace w' = trace w.
Proof.
  intros Hpom. exists h, w.
  rewrite (GenerateBoilerplate_manifest_there h path w Hpom). auto.
Qed.

(** C10: the manifest is tested before the version is resolved.  With
    [pom.xml] in place the helper returns [ErrBoilerplateExists], its cache
    is as it was and no request has been recorded, whatever resolution
    would have done in this state: had it panicked, the helper still
    returns; had it failed with an error, that error is not the one
    returned. *)
Theorem GenerateBoilerplate_manifest_before_resolution (h : JavaLangHelper)
    (path : string) (w : World) :
  is_Some (files w !! filepath_Join [path; "pom.xml"]) ->
  exists w',
    GenerateBoilerplate h path w = Returned ((Some ErrBoilerplateExists, h), w')
    /\ trace w' = trace w
    /\ (forall v e h1 w1,
           GetLatestFDKVersion h w = Returned ((v, Some e, h1), w1) ->
           e <> ErrBoilerplateExists).
Proof.
  intros Hpom. exists w.
  rewrite (GenerateBoilerplate_manifest_there h path w Hpom).
  repeat split. intros v e h1 w1. apply GetLatestFDKVersion_error_not_sentinel.
Qed.

End Boilerplate.

Lemma GenerateBoilerplate_existing_manifest_untouched_witness :
  exists h' w',
    GenerateBoilerplate (xml := mini_xml) fresh_helper "proj" project_world
    = Returned ((Some ErrBoilerplateExists, h'), w')
    /\ files w' = files project_world /\ dirs w' = dirs project_world
    /\ trace w' = trace project_world.
Proof.
  apply (GenerateBoilerplate_existing_manifest_untouched (xml := mini_xml)
           fresh_helper "proj" project_world).
  vm_compute. eexists. reflexivity.
Defined.

Lemma GenerateBoilerplate_manifest_before_resolution_witness :
  exists w',
    GenerateBoilerplate (xml := mini_xml) fresh_helper "proj" project_world
    = Returned ((Some ErrBoilerplateExists, fresh_helper), w')
    /\ trace w' = trace project_world
    /\ (forall v e h1 w1,
           GetLatestFDKVersion (xml := mini_xml) fresh_helper project_world
           = Returned ((v, Some e, h1), w1) ->
           e <> ErrBoilerplateExists).
Proof.
  apply (GenerateBoilerplate_manifest_before_resolution (xml := mini_xml)
           fresh_helper "proj" project_world).
  vm_compute. eexists. reflexivity.
Defined.

(** ** The manifest embeds the version *)

Section Manifest.






End Manifest.

(** ** Paths and the file system *)

Section PlainPaths.

Lemma list_ascii_append (a b : string) :
  list_ascii_of_string (a +:+ b) = list_ascii_of_string a ++ list_ascii_of_string b.
Proof.
  induction a as [|c a IH]; [reflexivity|].
  rewrite append_cons. cbn [list_ascii_of_string app]. now rewrite IH.
Qed.

Lemma occurs_list (c : ascii) (s : string) :
  occurs c s = false -> Forall (fun d => Ascii.eqb d c = false) (list_ascii_of_string s).
Proof.
  induction s as [|d s IH]; intros H; [constructor|].
  cbn [occurs] in H. apply orb_false_iff in H as [Hd Hs].
  cbn [list_ascii_of_string]. constructor; [now rewrite Ascii.eqb_sym|now apply IH].
Qed.

Lemma skip_element_passes (l r : list ascii) :
  Forall (fun d => Ascii.eqb d "/" = false) l ->
  skip_element (l ++ "/"%char :: r) = "/"%char :: r.
Proof.
  induction l as [|d l IH]; intros H; [reflexivity|].
  inversion H as [|d' l' Hd Hl]; subst. cbn [app skip_element]. rewrite Hd. now apply IH.
Qed.

Lemma skip_element_all (l : list ascii) :
  Forall (fun d => Ascii.eqb d "/" = false) l -> skip_element l = [].
Proof.
  induction l as [|d l IH]; intros H; [reflexivity|].
  inversion H as [|d' l' Hd Hl]; subst. cbn [skip_element]. rewrite Hd. now apply IH.
Qed.

Lemma skip_separators_stays (l : list ascii) :
  match l with d :: _ => Ascii.eqb d "/" = false | [] => True end ->
  skip_separators l = l.
Proof. destruct l as [|d l]; [reflexivity|]. cbn. now intros ->. Qed.

(** The last character of an element is no separator. *)
Lemma rev_element (n : string) :
  occurs "/" n = false ->
  Forall (fun d => Ascii.eqb d "/" = false) (rev (list_ascii_of_string n)).
Proof. intros H. apply Forall_rev. now apply occurs_list. Qed.

(** The directory of an entry [n] of a directory [X]. *)
Lemma parent_dir_entry (X n : string) :
  X <> "" -> n <> "" -> occurs "/" n = false ->
  parent_dir (X +:+ String "/" n) = Some X.
Proof.
  intros HX Hn Hs. unfold parent_dir.
  rewrite list_ascii_append. cbn [list_ascii_of_string].
  rewrite rev_app_distr. cbn [rev]. rewrite <- app_assoc. cbn [app].
  pose proof (rev_element n Hs) as Hr.
  assert (Hne : rev (list_ascii_of_string n) <> []).
  { destruct n as [|c n]; [contradiction|]. cbn [list_ascii_of_string rev].
    destruct (rev (list_ascii_of_string n)); discriminate. }
  rewrite skip_separators_stays.
  - rewrite (skip_element_passes _ _ Hr).
    destruct (rev (list_ascii_of_string X)) as [|c up] eqn:E.
    + destruct X; [contradiction|]. cbn [list_ascii_of_string rev] in E.
      destruct (rev (list_ascii_of_string X)); discriminate.
    + rewrite <- E, rev_involutive. now rewrite string_of_list_ascii_of_string.
  - destruct Hr as [|d l Hd Hl]; [contradiction|]. exact Hd.
Qed.

(** A single element, below the working directory or below the root, is
    an entry of a directory that is always there. *)
Lemma parent_dir_single (root n : string) :
  root = "" \/ root = "/" -> occurs "/" n = false ->
  parent_dir (root +:+ n) = None.
Proof.
  intros Hroot Hs. unfold parent_dir. rewrite list_ascii_append, rev_app_distr.
  pose proof (rev_element n Hs) as Hr.
  destruct Hroot as [-> | ->]; cbn [list_ascii_of_string rev app].
  - rewrite app_nil_r.
    destruct (rev (list_ascii_of_string n)) as [|d l] eqn:E; [reflexivity|].
    inversion Hr as [|d' l' Hd Hl]; subst. cbn [skip_separators]. rewrite Hd.
    now rewrite (skip_element_all (d :: l) Hr).
  - destruct (rev (list_ascii_of_string n)) as [|d l] eqn:E; [reflexivity|].
    inversion Hr as [|d' l' Hd Hl]; subst. cbn [app skip_separators]. rewrite Hd.
    change (d :: l ++ ["/"%char]) with ((d :: l) ++ ["/"%char]).
    now rewrite (skip_element_passes (d :: l) [] Hr).
Qed.

Lemma skip_separators_suffix (l : list ascii) : exists pre, l = pre ++ skip_separators l.
Proof.
  induction l as [|d l [pre IH]]; [now exists []|].
  cbn [skip_separators]. destruct (Ascii.eqb d "/").
  - exists (d :: pre). cbn. now rewrite <- IH.
  - now exists [].
Qed.

Lemma skip_element_suffix (l : list ascii) : exists pre, l = pre ++ skip_element l.
Proof.
  induction l as [|d l [pre IH]]; [now exists []|].
  cbn [skip_element]. destruct (Ascii.eqb d "/").
  - now exists [].
  - exists (d :: pre). cbn. now rewrite <- IH.
Qed.

Lemma length_list_ascii (s : string) : length (list_ascii_of_string s) = String.length s.
Proof. induction s as [|c s IH]; [reflexivity|]. cbn. now rewrite IH. Qed.

Lemma string_of_list_append (a b : list ascii) :
  string_of_list_ascii (a ++ b) = string_of_list_ascii a +:+ string_of_list_ascii b.
Proof.
  induction a as [|c a IH]; [reflexivity|].
  cbn [app string_of_list_ascii]. now rewrite IH, append_cons.
Qed.

(** The directory of an entry is a proper beginning of the entry's path. *)
Lemma parent_dir_beginning (path up : string) :
  parent_dir path = Some up -> exists rest, path = up +:+ rest /\ rest <> "".
Proof.
  unfold parent_dir. intros H.
  destruct (skip_separators_suffix (rev (list_ascii_of_string path))) as [pre1 H1].
  destruct (skip_element_suffix (skip_separators (rev (list_ascii_of_string path))))
    as [pre2 H2].
  destruct (skip_element _) as [|c [|d l]]; try discriminate.
  simplify_eq. rewrite H2 in H1.
  apply (f_equal (@rev ascii)) in H1. rewrite rev_involutive in H1.
  rewrite !rev_app_distr in H1. cbn [rev] in H1. rewrite <- !app_assoc in H1.
  rewrite (app_assoc (rev l) [d]) in H1. change (rev l ++ [d]) with (rev (d :: l)) in H1.
  apply (f_equal string_of_list_ascii) in H1.
  rewrite string_of_list_ascii_of_string in H1.
  rewrite string_of_list_append in H1.
  eexists. split; [exact H1|].
  cbn [app string_of_list_ascii]. discriminate.
Qed.

Lemma parent_dir_shorter (path up : string) :
  parent_dir path = Some up -> String.length up < String.length path.
Proof.
  intros H. destruct (parent_dir_beginning _ _ H) as (rest & -> & Hrest).
  rewrite length_append. destruct rest; [contradiction|]. cbn. lia.
Qed.

Lemma HasPrefix_refl (s : string) : strings_HasPrefix s s = true.
Proof. rewrite <- (append_empty_r s) at 1. apply HasPrefix_append. Qed.

(** Beginnings with a common start. *)
Lemma HasPrefix_common (x a b : string) :
  strings_HasPrefix (x +:+ a) (x +:+ b) = strings_HasPrefix a b.
Proof.
  induction x as [|c x IH]; [now rewrite !append_nil|].
  rewrite !append_cons. cbn [strings_HasPrefix]. now rewrite Ascii.eqb_refl, IH.
Qed.

Lemma HasPrefix_inv (s t : string) :
  strings_HasPrefix s t = true -> exists rest, s = t +:+ rest.
Proof.
  revert s. induction t as [|c t IH]; intros s H.
  - exists s. now rewrite append_nil.
  - destruct s as [|d s]; cbn [strings_HasPrefix] in H; [discriminate|].
    apply andb_true_iff in H as [Hc Hs]. apply Ascii.eqb_eq in Hc. subst d.
    destruct (IH _ Hs) as [rest ->]. exists rest. now rewrite append_cons.
Qed.

Lemma HasPrefix_trans (s t u : string) :
  strings_HasPrefix s t = true -> strings_HasPrefix t u = true ->
  strings_HasPrefix s u = true.
Proof.
  intros H1 H2. apply HasPrefix_inv in H1 as [r1 ->]. apply HasPrefix_inv in H2 as [r2 ->].
  rewrite append_assoc. apply HasPrefix_append.
Qed.

Lemma parent_dir_HasPrefix (path up : string) :
  parent_dir path = Some up -> strings_HasPrefix path up = true.
Proof.
  intros H. destruct (parent_dir_beginning _ _ H) as (rest & -> & _).
  apply HasPrefix_append.
Qed.

(** *** Paths written as their elements *)

Lemma Join_app (L R : list string) :
  L <> [] -> R <> [] ->
  strings_Join (L ++ R) "/" = strings_Join L "/" +:+ "/" +:+ strings_Join R "/".
Proof.
  intros HL HR. induction R as [|n R IH] using rev_ind; [contradiction|].
  rewrite app_assoc, !Join_snoc.
  destruct R as [|r R].
  - rewrite app_nil_r. destruct L; [contradiction|]. reflexivity.
  - rewrite IH by discriminate.
    destruct (L ++ r :: R) eqn:E; [destruct L; discriminate|].
    cbn [app]. now rewrite !append_assoc.
Qed.

Lemma split_Join (L : list string) (cur : string) :
  L <> [] -> Forall real_element L ->
  split_on "/" cur (strings_Join L "/")
  = match L with e :: rest => (cur +:+ e) :: rest | [] => [] end.
Proof.
  intros HL HF. induction L as [|n L IH] using rev_ind; [contradiction|].
  apply Forall_app in HF as [HF Hn]. inversion Hn as [|n' l' (Hs & _) _]; subst.
  rewrite Join_snoc. destruct L as [|e L].
  - cbn [app]. now apply split_simple.
  - rewrite (split_last _ _ _ Hs), IH by (discriminate || assumption). reflexivity.
Qed.

Lemma clean_elems_real (rooted : bool) (L stack : list string) :
  Forall real_element L -> clean_elems rooted stack L = rev L ++ stack.
Proof.
  intros HF. induction L as [|n L IH] using rev_ind; [reflexivity|].
  apply Forall_app in HF as [HF Hn]. inversion Hn as [|n' l' Hr _]; subst.
  rewrite (clean_elems_snoc _ _ _ _ Hr), IH by assumption.
  now rewrite rev_app_distr.
Qed.

Lemma plain_not_empty (root : string) (L : list string) :
  L <> [] -> Forall real_element L -> plain root L <> "".
Proof.
  intros HL HF. unfold plain. destruct L as [|e L]; [contradiction|].
  inversion HF as [|e' l' (_ & He & _) _]; subst.
  destruct root; [|discriminate]. rewrite append_nil.
  destruct e as [|c e]; [contradiction|].
  cbn [strings_Join]. destruct L; [discriminate|]. rewrite append_cons. discriminate.
Qed.

Lemma real_head (e : string) :
  real_element e -> exists c e', e = String c e' /\ Ascii.eqb c "/" = false.
Proof.
  intros (Hs & He & _). destruct e as [|c e']; [contradiction|].
  exists c, e'. split; [reflexivity|].
  cbn [occurs] in Hs. apply orb_false_iff in Hs as [Hc _]. now rewrite Ascii.eqb_sym.
Qed.

(** A path of real elements is clean. *)
Lemma Clean_plain (root : string) (L : list string) :
  root = "" \/ root = "/" -> L <> [] -> Forall real_element L ->
  filepath_Clean (plain root L) = plain root L.
Proof.
  intros Hroot HL HF.
  pose proof (plain_not_empty root L HL HF) as Hne.
  unfold filepath_Clean. unfold plain in *.
  destruct L as [|e L]; [contradiction|].
  inversion HF as [|e' l' He HF']; subst.
  destruct (real_head e He) as (c & e0 & -> & Hc).
  destruct Hroot as [-> | ->].
  - rewrite append_nil in *.
    assert (Hp : strings_HasPrefix (strings_Join (String c e0 :: L) "/") "/" = false).
    { cbn [strings_Join]. destruct L; [|rewrite append_cons];
        cbn [strings_HasPrefix]; now rewrite Ascii.eqb_sym, Hc. }
    rewrite Hp, split_Join, append_nil by (discriminate || assumption).
    rewrite clean_elems_real, app_nil_r, rev_involutive by assumption.
    rewrite append_nil.
    destruct (String.eqb _ "") eqn:E; [|reflexivity].
    apply String.eqb_eq in E. contradiction.
  - change ("/" +:+ strings_Join (String c e0 :: L) "/")
      with (String "/" (strings_Join (String c e0 :: L) "/")) in *.
    cbn [strings_HasPrefix split_on]. rewrite Ascii.eqb_refl. cbn [andb].
    replace (strings_HasPrefix (strings_Join (String c e0 :: L) "/") "") with true
      by (destruct (strings_Join (String c e0 :: L) "/"); reflexivity).
    rewrite split_Join, append_nil by (discriminate || assumption).
    change (clean_elems true [] ("" :: String c e0 :: L))
      with (clean_elems true [] (String c e0 :: L)).
    rewrite clean_elems_real, app_nil_r, rev_involutive by assumption.
    change ("/" +:+ strings_Join (String c e0 :: L) "/")
      with (String "/" (strings_Join (String c e0 :: L) "/")).
    reflexivity.
Qed.

(** Joining a relative path of real elements to a plain path. *)
Lemma Join_plain (root : string) (L R : list string) :
  root = "" \/ root = "/" -> L <> [] -> R <> [] ->
  Forall real_element L -> Forall real_element R ->
  filepath_Join [plain root L; strings_Join R "/"] = plain root (L ++ R).
Proof.
  intros Hroot HL HR HFL HFR. cbn [filepath_Join].
  pose proof (plain_not_empty root L HL HFL) as Hne.
  apply String.eqb_neq in Hne. rewrite Hne. cbn [strings_Join].
  assert (E : plain root L +:+ "/" +:+ strings_Join R "/" = plain root (L ++ R)).
  { unfold plain. now rewrite Join_app, !append_assoc by assumption. }
  rewrite E. apply Clean_plain; [assumption|destruct L; [contradiction|discriminate]|].
  apply Forall_app. now split.
Qed.

Lemma plain_snoc (root : string) (M : list string) (n : string) :
  M <> [] -> plain root (M ++ [n]) = plain root M +:+ String "/" n.
Proof.
  intros HM. unfold plain. rewrite Join_snoc. destruct M; [contradiction|].
  now rewrite append_assoc.
Qed.

(** The directory of the last element of a plain path. *)
Lemma parent_dir_plain (root : string) (M : list string) (n : string) :
  root = "" \/ root = "/" -> Forall real_element M -> real_element n ->
  parent_dir (plain root (M ++ [n]))
  = match M with [] => None | _ => Some (plain root M) end.
Proof.
  intros Hroot HM Hn. pose proof Hn as (Hs & He & _).
  destruct M as [|m M].
  - cbn [app]. unfold plain. cbn [strings_Join]. now apply parent_dir_single.
  - rewrite plain_snoc by discriminate.
    apply parent_dir_entry; [|assumption..].
    apply plain_not_empty; [discriminate|assumption].
Qed.

End PlainPaths.

(** *** The file system calls *)

Section FileSystem.

Lemma more_dirs_refl (w : World) : more_dirs w w.
Proof. unfold more_dirs. split; [|split; [|split]]; reflexivity. Qed.

Lemma more_dirs_trans (w1 w2 w3 : World) :
  more_dirs w1 w2 -> more_dirs w2 w3 -> more_dirs w1 w3.
Proof.
  unfold more_dirs. intros (-> & -> & -> & H1) (-> & -> & -> & H2).
  split; [|split; [|split]]; try reflexivity. now transitivity (dirs w2).
Qed.

Lemma os_Mkdir_frame (name : string) (w w' : World) (e : option error) :
  os_Mkdir name w = (e, w') -> more_dirs w w' /\ (e = None -> name ∈ dirs w').
Proof.
  unfold os_Mkdir. intros H.
  repeat case_match; simplify_eq; (split; [|try discriminate]).
  - apply more_dirs_refl.
  - apply more_dirs_refl.
  - apply more_dirs_refl.
  - unfold more_dirs. split; [|split; [|split]]; try reflexivity.
    cbn. apply union_subseteq_r.
  - intros _. cbn. apply elem_of_union_l, elem_of_singleton. reflexivity.
Qed.

Lemma MkdirAll_from_frame (fuel : nat) (path : string) (w w' : World) (e : option error) :
  MkdirAll_from fuel path w = (e, w') -> more_dirs w w' /\ (e = None -> path ∈ dirs w').
Proof.
  revert path w w' e.
  assert (Hend : forall path w1 w' e,
             (let '(err, w) := os_Mkdir path w1 in
              match err with
              | Some e => if is_dir w path then (None, w) else (Some e, w)
              | None => (None, w)
              end) = (e, w') ->
             more_dirs w1 w' /\ (e = None -> path ∈ dirs w')).
  { intros path w1 w' e H.
    destruct (os_Mkdir path w1) as [err2 w2] eqn:E2.
    apply os_Mkdir_frame in E2 as [Hm Hin].
    destruct err2 as [e2|].
    - destruct (is_dir w2 path) eqn:Ed; simplify_eq; (split; [exact Hm|]).
      + intros _. now apply bool_decide_eq_true_1 in Ed.
      + discriminate.
    - simplify_eq. auto. }
  induction fuel as [|fuel IH]; intros path w w' e H; cbn [MkdirAll_from] in H.
  - destruct (is_dir w path) eqn:Ed.
    { simplify_eq. split; [apply more_dirs_refl|].
      intros _. now apply bool_decide_eq_true_1 in Ed. }
    destruct (is_file w path); [simplify_eq; split; [apply more_dirs_refl|discriminate]|].
    now apply Hend.
  - destruct (is_dir w path) eqn:Ed.
    { simplify_eq. split; [apply more_dirs_refl|].
      intros _. now apply bool_decide_eq_true_1 in Ed. }
    destruct (is_file w path); [simplify_eq; split; [apply more_dirs_refl|discriminate]|].
    destruct (parent_dir path) as [up|]; [|now apply Hend].
    destruct (MkdirAll_from fuel up w) as [err1 w1] eqn:E1.
    apply IH in E1 as [Hm1 _].
    destruct err1 as [e1|]; [simplify_eq; split; [exact Hm1|discriminate]|].
    apply Hend in H as [Hm2 Hin]. split; [|exact Hin].
    eapply more_dirs_trans; eassumption.
Qed.

Lemma os_Mkdir_bound (name : string) (w w' : World) (e : option error) :
  os_Mkdir name w = (e, w') -> forall d, d ∈ dirs w' -> d ∈ dirs w \/ d = name.
Proof.
  unfold os_Mkdir. intros H d.
  repeat case_match; simplify_eq; auto.
  cbn. rewrite elem_of_union, elem_of_singleton. tauto.
Qed.

(** The directories the recursion makes are beginnings of its path. *)
Lemma MkdirAll_from_bound (fuel : nat) (path : string) (w w' : World) (e : option error) :
  MkdirAll_from fuel path w = (e, w') ->
  forall d, d ∈ dirs w' -> d ∈ dirs w \/ strings_HasPrefix path d = true.
Proof.
  revert path w w' e.
  assert (Hend : forall path (w0 w1 w' : World) e,
             (forall d, d ∈ dirs w1 -> d ∈ dirs w0 \/ strings_HasPrefix path d = true) ->
             (let '(err, w) := os_Mkdir path w1 in
              match err with
              | Some e => if is_dir w path then (None, w) else (Some e, w)
              | None => (None, w)
              end) = (e, w') ->
             forall d, d ∈ dirs w' -> d ∈ dirs w0 \/ strings_HasPrefix path d = true).
  { intros path w0 w1 w' e H1 H d Hd.
    destruct (os_Mkdir path w1) as [err2 w2] eqn:E2.
    pose proof (os_Mkdir_bound _ _ _ _ E2) as Hb.
    assert (w' = w2) by (destruct err2; [destruct (is_dir w2 path)|]; now simplify_eq).
    subst w'. destruct (Hb d Hd) as [Hin | ->]; [now apply H1|].
    right. apply HasPrefix_refl. }
  induction fuel as [|fuel IH]; intros path w w' e H; cbn [MkdirAll_from] in H.
  - destruct (is_dir w path); [simplify_eq; auto|].
    destruct (is_file w path); [simplify_eq; auto|].
    eapply Hend; [|exact H]. auto.
  - destruct (is_dir w path); [simplify_eq; auto|].
    destruct (is_file w path); [simplify_eq; auto|].
    destruct (parent_dir path) as [up|] eqn:Eup; [|eapply Hend; [|exact H]; auto].
    pose proof (parent_dir_HasPrefix _ _ Eup) as Hpre.
    destruct (MkdirAll_from fuel up w) as [err1 w1] eqn:E1.
    pose proof (IH _ _ _ _ E1) as Hb1.
    assert (Hb : forall d, d ∈ dirs w1 -> d ∈ dirs w \/ strings_HasPrefix path d = true).
    { intros d Hd. destruct (Hb1 d Hd) as [Hin|Hin]; [now left|right].
      eapply HasPrefix_trans; eassumption. }
    destruct err1 as [e1|]; [simplify_eq; exact Hb|].
    eapply Hend; [exact Hb|exact H].
Qed.

(** [os.MkdirAll] changes no file; it has recorded its call; directories
    are made, none is removed; without an error the directory is there. *)
Lemma os_MkdirAll_frame (path : string) (perm : Z) (w : World) :
  exists e w',
    os_MkdirAll path perm w = Returned (e, w')
    /\ files w' = files w /\ fs_fault w' = fs_fault w
    /\ trace w' = trace w ++ [MkdirAll path perm]
    /\ dirs w ⊆ dirs w'
    /\ (e = None -> path ∈ dirs w').
Proof.
  unfold os_MkdirAll.
  destruct (MkdirAll_from (String.length path) path (record (MkdirAll path perm) w))
    as [e w'] eqn:E.
  apply MkdirAll_from_frame in E as [(Hf & Hq & Ht & Hd) Hin].
  exists e, w'. split; [reflexivity|]. auto.
Qed.

(** On a file system that refuses nothing, with no file in the way, the
    recursion makes the directory. *)
Lemma MkdirAll_from_makes (fuel : nat) (path : string) (w : World) :
  String.length path <= fuel ->
  (forall q, fs_fault w q = None) ->
  (forall a, strings_HasPrefix path a = true -> files w !! a = None) ->
  exists w', MkdirAll_from fuel path w = (None, w').
Proof.
  revert path w.
  assert (Hend : forall path w w1,
             more_dirs w w1 ->
             (forall q, fs_fault w q = None) ->
             files w !! path = None ->
             dir_there w1 path = true ->
             exists w',
               (let '(err, w) := os_Mkdir path w1 in
                match err with
                | Some e => if is_dir w path then (None, w) else (Some e, w)
                | None => (None, w)
                end) = (None, w')).
  { intros path w w1 (Hf & Hq & _ & _) Hfault Hfile Hthere. unfold os_Mkdir.
    rewrite Hq, Hfault. unfold is_file. rewrite Hf, Hfile.
    rewrite bool_decide_eq_false_2 by apply is_Some_None. cbn [orb].
    destruct (is_dir w1 path) eqn:Ed; [rewrite Ed; eauto|].
    rewrite Hthere. cbn [negb]. eauto. }
  induction fuel as [|fuel IH]; intros path w Hlen Hfault Hfiles; cbn [MkdirAll_from].
  - destruct (is_dir w path); [eauto|].
    unfold is_file. rewrite (Hfiles path (HasPrefix_refl path)).
    rewrite bool_decide_eq_false_2 by apply is_Some_None.
    apply (Hend path w w); [apply more_dirs_refl|assumption|
                            apply Hfiles, HasPrefix_refl|].
    destruct path; [reflexivity|cbn in Hlen; lia].
  - destruct (is_dir w path); [eauto|].
    unfold is_file. rewrite (Hfiles path (HasPrefix_refl path)).
    rewrite bool_decide_eq_false_2 by apply is_Some_None.
    destruct (parent_dir path) as [up|] eqn:Eup.
    + pose proof (parent_dir_shorter _ _ Eup) as Hshort.
      pose proof (parent_dir_HasPrefix _ _ Eup) as Hpre.
      destruct (IH up w) as [w1 E1]; [lia|assumption| |].
      { intros a Ha. apply Hfiles. eapply HasPrefix_trans; eassumption. }
      rewrite E1.
      apply MkdirAll_from_frame in E1 as [Hm Hin].
      apply (Hend path w w1); [assumption..|apply Hfiles, HasPrefix_refl|].
      unfold dir_there. rewrite Eup. unfold is_dir.
      apply bool_decide_eq_true_2. now apply Hin.
    + apply (Hend path w w); [apply more_dirs_refl|assumption|
                              apply Hfiles, HasPrefix_refl|].
      unfold dir_there. now rewrite Eup.
Qed.

Lemma os_MkdirAll_makes (path : string) (perm : Z) (w : World) :
  (forall q, fs_fault w q = None) ->
  (forall a, strings_HasPrefix path a = true -> files w !! a = None) ->
  exists w',
    os_MkdirAll path perm w = Returned (None, w')
    /\ files w' = files w /\ fs_fault w' = fs_fault w
    /\ trace w' = trace w ++ [MkdirAll path perm]
    /\ dirs w ⊆ dirs w' /\ path ∈ dirs w'
    /\ (forall d, d ∈ dirs w' -> d ∈ dirs w \/ strings_HasPrefix path d = true).
Proof.
  intros Hfault Hfiles.
  destruct (os_MkdirAll_frame path perm w) as (e & w' & H & Hf & Hq & Ht & Hd & Hin).
  destruct (MkdirAll_from_makes (String.length path) path (record (MkdirAll path perm) w))
    as [w2 E]; [lia|assumption..|].
  pose proof (MkdirAll_from_bound _ _ _ _ _ E) as Hb.
  revert H. unfold os_MkdirAll. rewrite E. intros H. simplify_eq.
  exists w'. split; [reflexivity|]. repeat split; auto.
Qed.

(** A directory that the system refuses to make stops the recursion, and
    with it the making of everything below. *)
Lemma MkdirAll_from_blocked (p up : string) (e : error) (w : World) :
  is_dir w p = false -> is_file w p = false -> parent_dir p = Some up ->
  is_dir w up = true -> fs_fault w p = Some e ->
  forall fuel, String.length p <= fuel -> MkdirAll_from fuel p w = (Some e, w).
Proof.
  intros Hd Hf Hp Hup Hq fuel Hlen.
  pose proof (parent_dir_shorter _ _ Hp).
  destruct fuel as [|fuel]; [lia|]. cbn [MkdirAll_from]. rewrite Hd, Hf, Hp.
  replace (MkdirAll_from fuel up w) with (@None error, w)
    by (destruct fuel; cbn [MkdirAll_from]; now rewrite Hup).
  unfold os_Mkdir. rewrite Hq. now rewrite Hd.
Qed.

Lemma MkdirAll_from_blocked_below (p up : string) (e : error) (w : World) :
  is_dir w p = false -> is_file w p = false -> parent_dir p = Some up ->
  (forall fuel, String.length up <= fuel -> MkdirAll_from fuel up w = (Some e, w)) ->
  forall fuel, String.length p <= fuel -> MkdirAll_from fuel p w = (Some e, w).
Proof.
  intros Hd Hf Hp Hup fuel Hlen.
  pose proof (parent_dir_shorter _ _ Hp).
  destruct fuel as [|fuel]; [lia|]. cbn [MkdirAll_from]. rewrite Hd, Hf, Hp.
  rewrite Hup by lia. reflexivity.
Qed.

(** [ioutil.WriteFile] has recorded its call and changes no directory;
    without an error the file has the data, with an error no file has
    changed. *)
Lemma ioutil_WriteFile_frame (filename data : string) (perm : Z) (w : World) :
  exists e w',
    ioutil_WriteFile filename data perm w = Returned (e, w')
    /\ dirs w' = dirs w /\ fs_fault w' = fs_fault w
    /\ trace w' = trace w ++ [WriteFile filename data perm]
    /\ files w' = match e with
                  | None => <[filename := data]> (files w)
                  | Some _ => files w
                  end.
Proof.
  unfold ioutil_WriteFile. cbn [record fs_fault dirs files trace].
  destruct (fs_fault w filename); [eexists _, _; split; [reflexivity|auto]|].
  case_bool_decide; [eexists _, _; split; [reflexivity|auto]|].
  destruct (dir_there _ filename); cbn [negb];
    eexists _, _; (split; [reflexivity|auto]).
Qed.

(** A write that the system takes. *)
Lemma ioutil_WriteFile_stored (filename data : string) (perm : Z) (w : World) :
  fs_fault w filename = None -> filename ∉ dirs w -> dir_there w filename = true ->
  ioutil_WriteFile filename data perm w
  = Returned (None, set_files (<[filename := data]> (files w))
                      (record (WriteFile filename data perm) w)).
Proof.
  intros Hf Hd Ht. unfold ioutil_WriteFile. cbn [record fs_fault dirs files trace].
  rewrite Hf, (bool_decide_eq_false_2 _ Hd).
  change (dir_there (record (WriteFile filename data perm) w) filename)
    with (dir_there w filename).
  now rewrite Ht.
Qed.

End FileSystem.

(** ** What generation leaves on disk *)

Section Generation.

Context {xml : XmlDecoder}.

Lemma same_fs_refl (w : World) : same_fs w w.
Proof. repeat split. Qed.

Lemma same_fs_record (e : Event) (w : World) : same_fs w (record e w).
Proof. repeat split. Qed.

Lemma same_fs_trans (w1 w2 w3 : World) : same_fs w1 w2 -> same_fs w2 w3 -> same_fs w1 w3.
Proof. unfold same_fs. intros (-> & -> & ->) (-> & -> & ->). auto. Qed.

Lemma getFDKLatestFromURL_same_fs (comURL bintrayURL : string) (w w' : World)
    (r : string * string * option error) :
  getFDKLatestFromURL comURL bintrayURL w = Returned (r, w') -> same_fs w w'.
Proof.
  unfold getFDKLatestFromURL, bind, ret, lift. intros H.
  destruct (getURLResponse comURL false w) as [[r1 w1]|] eqn:E1; [|discriminate].
  apply getURLResponse_frame in E1. subst w1.
  repeat case_match; simplify_eq;
    try apply same_fs_record;
    match goal with
    | E : getURLResponse _ _ _ = Returned (_, ?w2) |- _ =>
        apply getURLResponse_frame in E; subst w2
    end;
    eapply same_fs_trans; apply same_fs_record.
Qed.

(** Resolution leaves the file system alone. *)
Lemma GetLatestFDKVersion_same_fs (h h' : JavaLangHelper) (w w' : World)
    (r : string * option error) :
  GetLatestFDKVersion h w = Returned ((r, h'), w') -> same_fs w w'.
Proof.
  unfold GetLatestFDKVersion, bind, ret, os_Getenv. intros H.
  repeat case_match; simplify_eq; try apply same_fs_refl;
    eapply getFDKLatestFromURL_same_fs; eassumption.
Qed.

Lemma ioutil_WriteFile_returns (filename data : string) (perm : Z) (w : World) :
  exists e w', ioutil_WriteFile filename data perm w = Returned (e, w')
               /\ forall q, q <> filename -> files w' !! q = files w !! q.
Proof.
  destruct (ioutil_WriteFile_frame filename data perm w) as (e & w' & H & _ & _ & _ & Hf).
  exists e, w'. split; [exact H|]. intros q Hq. rewrite Hf.
  destruct e; [reflexivity|]. now rewrite lookup_insert_ne.
Qed.

Lemma ioutil_WriteFile_written (filename data : string) (perm : Z) (w : World) :
  fs_fault w filename = None -> filename ∉ dirs w -> dir_there w filename = true ->
  exists w', ioutil_WriteFile filename data perm w = Returned (None, w')
             /\ files w' !! filename = Some data.
Proof.
  intros Hf Hd Ht. rewrite ioutil_WriteFile_stored by assumption.
  eexists. split; [reflexivity|]. cbn. apply lookup_insert_eq.
Qed.

Lemma os_MkdirAll_returns (path : string) (perm : Z) (w : World) :
  exists e w', os_MkdirAll path perm w = Returned (e, w') /\ files w' = files w.
Proof.
  destruct (os_MkdirAll_frame path perm w) as (e & w' & H & Hf & _).
  eauto.
Qed.

(** The closure returns, and the only file it can change is its own. *)
Lemma mkDirAndWriteFile_returns (path dir filename content : string) (w : World) :
  exists e w', mkDirAndWriteFile path dir filename content w = Returned (e, w')
               /\ forall q, q <> filepath_Join [filepath_Join [path; dir]; filename] ->
                            files w' !! q = files w !! q.
Proof.
  unfold mkDirAndWriteFile, bind.
  destruct (os_MkdirAll_returns (filepath_Join [path; dir]) 493 w) as (e & w1 & -> & Hf).
  destruct e as [e|].
  - exists (Some e), w1. split; [reflexivity|]. intros q _. now rewrite Hf.
  - destruct (ioutil_WriteFile_returns
                (filepath_Join [filepath_Join [path; dir]; filename]) content 420 w1)
      as (e & w2 & -> & Hw).
    exists e, w2. split; [reflexivity|]. intros q Hq. rewrite (Hw q Hq). now rewrite Hf.
Qed.

(** Generation in full: in a directory that exists and has no manifest,
    with a version [v] resolved and a file system that takes the manifest,
    the helper returns, and the manifest it leaves is [pomFileContent] of
    [v]. *)
Lemma GenerateBoilerplate_manifest (h h1 : JavaLangHelper) (path v : string) (w w1 : World) :
  files w !! filepath_Join [path; "pom.xml"] = None ->
  filepath_Join [path; "pom.xml"] ∉ dirs w ->
  dir_there w (filepath_Join [path; "pom.xml"]) = true ->
  fs_fault w (filepath_Join [path; "pom.xml"]) = None ->
  GetLatestFDKVersion h w = Returned ((v, None, h1), w1) ->
  exists err w',
    GenerateBoilerplate h path w = Returned ((err, h1), w')
    /\ files w' !! filepath_Join [path; "pom.xml"]
       = Some (pomFileContent v (version h1) (pomType h1)).
Proof.
  intros Hnone Hdir Hthere Hfault Hres.
  destruct (GetLatestFDKVersion_same_fs _ _ _ _ _ Hres) as (Hf1 & Hd1 & Hq1).
  unfold GenerateBoilerplate, bind, exists_.
  rewrite bool_decide_eq_false_2 by (rewrite Hnone; apply is_Some_None).
  rewrite (bool_decide_eq_false_2 _ Hdir). cbn [orb].
  rewrite Hres.
  destruct (ioutil_WriteFile_written (filepath_Join [path; "pom.xml"])
              (pomFileContent v (version h1) (pomType h1)) 420 w1)
    as (w2 & -> & Hpom).
  { now rewrite Hq1. }
  { now rewrite Hd1. }
  { unfold dir_there, is_dir in *. now rewrite Hd1. }
  destruct (mkDirAndWriteFile_returns path "src/main/java/com/example/fn"
              "HelloFunction.java" helloJavaSrcBoilerplate w2) as (e3 & w3 & -> & H3).
  assert (Hpom3 : files w3 !! filepath_Join [path; "pom.xml"]
                  = Some (pomFileContent v (version h1) (pomType h1))).
  { rewrite H3; [exact Hpom|]. apply not_eq_sym, starter_path_not_manifest.
    - repeat split; discriminate.
    - discriminate. }
  destruct e3 as [e3|]; [eauto|].
  destruct (mkDirAndWriteFile_returns path "src/test/java/com/example/fn"
              "HelloFunctionTest.java" helloJavaTestBoilerplate w3) as (e4 & w4 & -> & H4).
  exists e4, w4. split; [reflexivity|].
  rewrite H4; [exact Hpom3|]. apply not_eq_sym, starter_path_not_manifest.
  - repeat split; discriminate.
  - discriminate.
Qed.




End Generation.



(** *** A clean directory *)

Section CleanDirectory.

Context {xml : XmlDecoder}.

Lemma append_same_start (x a b : string) : x +:+ a = x +:+ b -> a = b.
Proof.
  induction x as [|c x IH]; [now rewrite !append_nil|].
  rewrite !append_cons. intros H. injection H as H. now apply IH.
Qed.

(** A relative path of real elements, joined to a plain path, goes below
    it unchanged. *)
Lemma Join_below (root : string) (L R : list string) :
  root = "" \/ root = "/" -> L <> [] -> R <> [] ->
  Forall real_element L -> Forall real_element R ->
  filepath_Join [plain root L; strings_Join R "/"]
  = plain root L +:+ "/" +:+ strings_Join R "/"
  /\ plain root L +:+ "/" +:+ strings_Join R "/" = plain root (L ++ R).
Proof.
  intros Hroot HL HR HFL HFR.
  assert (E : plain root L +:+ "/" +:+ strings_Join R "/" = plain root (L ++ R)).
  { unfold plain. now rewrite Join_app, !append_assoc by assumption. }
  split; [|exact E]. rewrite E. now apply Join_plain.
Qed.

(** The names generation uses below a plain path. *)
Lemma starter_names (root : string) (L : list string) (path : string) :
  root = "" \/ root = "/" -> L <> [] -> Forall real_element L -> path = plain root L ->
  path <> ""
  /\ filepath_Join [path; "pom.xml"] = path +:+ "/pom.xml"
  /\ filepath_Join [path; "src"] = path +:+ "/src"
  /\ filepath_Join [path; "src/main/java/com/example/fn"]
     = path +:+ "/src/main/java/com/example/fn"
  /\ filepath_Join [filepath_Join [path; "src/main/java/com/example/fn"]; "HelloFunction.java"]
     = path +:+ "/src/main/java/com/example/fn/HelloFunction.java"
  /\ filepath_Join [path; "src/test/java/com/example/fn"]
     = path +:+ "/src/test/java/com/example/fn"
  /\ filepath_Join [filepath_Join [path; "src/test/java/com/example/fn"];
                    "HelloFunctionTest.java"]
     = path +:+ "/src/test/java/com/example/fn/HelloFunctionTest.java".
Proof.
  intros Hroot HL HF ->.
  assert (Hreal : forall R, forallb (fun n => negb (occurs "/" n) && negb (String.eqb n "")
                                              && negb (String.eqb n ".")
                                              && negb (String.eqb n "..")) R = true ->
                            Forall real_element R).
  { induction R as [|n R IH]; intros HR; [constructor|].
    cbn [forallb] in HR. apply andb_true_iff in HR as [Hn HR].
    constructor; [|now apply IH].
    repeat (apply andb_true_iff in Hn as [Hn ?]).
    repeat split.
    - now destruct (occurs "/" n).
    - intros ->. discriminate.
    - intros ->. discriminate.
    - intros ->. discriminate. }
  assert (Hone : forall R, R <> [] -> Forall real_element R ->
                           filepath_Join [plain root L; strings_Join R "/"]
                           = plain root L +:+ "/" +:+ strings_Join R "/").
  { intros R HR HFR. now apply Join_below. }
  assert (Htwo : forall R n, R <> [] -> Forall real_element R -> real_element n ->
                             filepath_Join [filepath_Join [plain root L; strings_Join R "/"]; n]
                             = plain root L +:+ "/" +:+ strings_Join R "/" +:+ "/" +:+ n).
  { intros R n HR HFR Hn. rewrite (Hone R HR HFR).
    destruct (Join_below root L R Hroot HL HR HF HFR) as [_ ->].
    change n with (strings_Join [n] "/") at 1.
    destruct (Join_below root (L ++ R) [n]) as [-> _];
      [assumption|destruct L; [contradiction|discriminate]|discriminate
       |apply Forall_app; now split|now constructor|].
    destruct (Join_below root L R Hroot HL HR HF HFR) as [_ <-].
    now rewrite !append_assoc. }
  split; [now apply plain_not_empty|].
  split; [exact (Hone ["pom.xml"] ltac:(discriminate) (Hreal ["pom.xml"] eq_refl))|].
  split; [exact (Hone ["src"] ltac:(discriminate) (Hreal ["src"] eq_refl))|].
  split; [exact (Hone ["src"; "main"; "java"; "com"; "example"; "fn"]
                   ltac:(discriminate)
                   (Hreal ["src"; "main"; "java"; "com"; "example"; "fn"] eq_refl))|].
  split; [exact (Htwo ["src"; "main"; "java"; "com"; "example"; "fn"] "HelloFunction.java"
                   ltac:(discriminate)
                   (Hreal ["src"; "main"; "java"; "com"; "example"; "fn"] eq_refl)
                   (Forall_inv (Hreal ["HelloFunction.java"] eq_refl)))|].
  split; [exact (Hone ["src"; "test"; "java"; "com"; "example"; "fn"]
                   ltac:(discriminate)
                   (Hreal ["src"; "test"; "java"; "com"; "example"; "fn"] eq_refl))|].
  exact (Htwo ["src"; "test"; "java"; "com"; "example"; "fn"] "HelloFunctionTest.java"
           ltac:(discriminate)
           (Hreal ["src"; "test"; "java"; "com"; "example"; "fn"] eq_refl)
           (Forall_inv (Hreal ["HelloFunctionTest.java"] eq_refl))).
Qed.

(** Names below the same directory differ when what follows it differs,
    and none is the beginning of another unless what follows it is. *)
Lemma below_differs (x a b : string) :
  strings_HasPrefix a b = false -> x +:+ a <> x +:+ b.
Proof.
  intros H E. apply append_same_start in E. subst b.
  rewrite HasPrefix_refl in H. discriminate.
Qed.

Lemma below_not_self (x a : string) : a <> "" -> x +:+ a <> x.
Proof.
  intros Ha E. rewrite <- (append_empty_r x) in E at 2.
  apply append_same_start in E. contradiction.
Qed.

(** In a target directory that exists and holds nothing, named by a plain
    path, on a file system that refuses nothing, with a version resolved:
    the helper returns no error, the files below the target are exactly
    three, the manifest for the version, the starter function and its
    test, and the directories of the two starter files exist. *)
Theorem GenerateBoilerplate_clean (h h1 : JavaLangHelper) (root : string)
    (elems : list string) (path v : string) (w w1 : World) :
  root = "" \/ root = "/" -> elems <> [] -> Forall real_element elems ->
  path = plain root elems ->
  files w = ∅ -> dirs w = {[path]} -> (forall p, fs_fault w p = None) ->
  GetLatestFDKVersion h w = Returned ((v, None, h1), w1) ->
  exists w',
    GenerateBoilerplate h path w = Returned ((None, h1), w')
    /\ files w'
       = <[filepath_Join [filepath_Join [path; "src/test/java/com/example/fn"];
                          "HelloFunctionTest.java"] := helloJavaTestBoilerplate]>
           (<[filepath_Join [filepath_Join [path; "src/main/java/com/example/fn"];
                             "HelloFunction.java"] := helloJavaSrcBoilerplate]>
              (<[filepath_Join [path; "pom.xml"]
                 := pomFileContent v (version h1) (pomType h1)]> ∅))
    /\ size (files w') = 3
    /\ filepath_Join [path; "src/main/java/com/example/fn"] ∈ dirs w'
    /\ filepath_Join [path; "src/test/java/com/example/fn"] ∈ dirs w'.
Proof.
  intros Hroot Helems Hreal Hpath Hfiles Hdirs Hfault Hres.
  destruct (GetLatestFDKVersion_same_fs _ _ _ _ _ Hres) as (Hf1 & Hd1 & Hq1).
  destruct (starter_names root elems path Hroot Helems Hreal Hpath)
    as (Hne & Epom & _ & Edmain & Efmain & Edtest & Eftest).
  clear Hpath Hreal Helems Hroot.
  unfold GenerateBoilerplate, bind, exists_, mkDirAndWriteFile, bind.
  rewrite Efmain, Eftest, Edmain, Edtest, Epom.
  set (pom := path +:+ "/pom.xml").
  set (dmain := path +:+ "/src/main/java/com/example/fn").
  set (fmain := path +:+ "/src/main/java/com/example/fn/HelloFunction.java").
  set (dtest := path +:+ "/src/test/java/com/example/fn").
  set (ftest := path +:+ "/src/test/java/com/example/fn/HelloFunctionTest.java").
  assert (Ppom : parent_dir pom = Some path)
    by (apply (parent_dir_entry path "pom.xml"); [assumption|discriminate|reflexivity]).
  assert (Pfmain : parent_dir fmain = Some dmain).
  { unfold fmain, dmain.
    change "/src/main/java/com/example/fn/HelloFunction.java"
      with ("/src/main/java/com/example/fn" +:+ String "/" "HelloFunction.java").
    rewrite <- append_assoc. apply parent_dir_entry; [|discriminate|reflexivity].
    destruct path; [contradiction|discriminate]. }
  assert (Pftest : parent_dir ftest = Some dtest).
  { unfold ftest, dtest.
    change "/src/test/java/com/example/fn/HelloFunctionTest.java"
      with ("/src/test/java/com/example/fn" +:+ String "/" "HelloFunctionTest.java").
    rewrite <- append_assoc. apply parent_dir_entry; [|discriminate|reflexivity].
    destruct path; [contradiction|discriminate]. }
  assert (Dpom : pom <> path) by (apply below_not_self; discriminate).
  assert (D1 : fmain <> pom) by (apply below_differs; reflexivity).
  assert (D2 : ftest <> pom) by (apply below_differs; reflexivity).
  assert (D3 : ftest <> fmain) by (apply below_differs; reflexivity).
  (* the manifest *)
  rewrite Hfiles, Hdirs, lookup_empty.
  rewrite bool_decide_eq_false_2 by apply is_Some_None.
  rewrite bool_decide_eq_false_2 by (rewrite elem_of_singleton; exact Dpom).
  cbn [orb]. rewrite Hres.
  rewrite ioutil_WriteFile_stored;
    [|rewrite Hq1; apply Hfault
     |rewrite Hd1, Hdirs, elem_of_singleton; exact Dpom
     |unfold dir_there, is_dir; rewrite Ppom, Hd1, Hdirs;
      apply bool_decide_eq_true_2, elem_of_singleton; reflexivity].
  set (w2 := set_files _ _).
  (* the starter function *)
  destruct (os_MkdirAll_makes dmain 493 w2) as (w3 & -> & Hf3 & Hq3 & _ & Hd3 & Hin3 & Hb3).
  { intros q. cbn. rewrite Hq1. apply Hfault. }
  { intros a Ha. cbn. rewrite Hf1, Hfiles. apply lookup_insert_None. split; [apply lookup_empty|].
    intros <-. unfold dmain, pom in Ha. rewrite HasPrefix_common in Ha. discriminate. }
  assert (Hdirs3 : forall d, d ∈ dirs w3 -> d = path \/ strings_HasPrefix dmain d = true).
  { intros d Hd. destruct (Hb3 d Hd) as [Hin|Hin]; [left|now right].
    revert Hin. cbn. rewrite Hd1, Hdirs, elem_of_singleton. auto. }
  rewrite ioutil_WriteFile_stored;
    [|rewrite Hq3; cbn; rewrite Hq1; apply Hfault
     |intros Hin; destruct (Hdirs3 _ Hin) as [E|E];
      [revert E; apply below_not_self; discriminate
      |unfold dmain, fmain in E; rewrite HasPrefix_common in E; discriminate]
     |unfold dir_there, is_dir; rewrite Pfmain; now apply bool_decide_eq_true_2].
  set (w4 := set_files _ _).
  (* the test *)
  destruct (os_MkdirAll_makes dtest 493 w4) as (w5 & -> & Hf5 & Hq5 & _ & Hd5 & Hin5 & Hb5).
  { intros q. cbn. rewrite Hq3. cbn. rewrite Hq1. apply Hfault. }
  { intros a Ha. cbn. rewrite Hf3. cbn. rewrite Hf1, Hfiles.
    apply lookup_insert_None. split; [apply lookup_insert_None; split; [apply lookup_empty|]|].
    - intros <-. unfold dtest, pom in Ha. rewrite HasPrefix_common in Ha. discriminate.
    - intros <-. unfold dtest, fmain in Ha. rewrite HasPrefix_common in Ha. discriminate. }
  assert (Hdirs5 : forall d, d ∈ dirs w5 ->
                             d = path \/ strings_HasPrefix dmain d = true
                             \/ strings_HasPrefix dtest d = true).
  { intros d Hd. destruct (Hb5 d Hd) as [Hin|Hin]; [|auto].
    destruct (Hdirs3 d Hin); auto. }
  rewrite ioutil_WriteFile_stored;
    [|rewrite Hq5; cbn; rewrite Hq3; cbn; rewrite Hq1; apply Hfault
     |intros Hin; destruct (Hdirs5 _ Hin) as [E|[E|E]];
      [revert E; apply below_not_self; discriminate
      |unfold dmain, ftest in E; rewrite HasPrefix_common in E; discriminate
      |unfold dtest, ftest in E; rewrite HasPrefix_common in E; discriminate]
     |unfold dir_there, is_dir; rewrite Pftest; now apply bool_decide_eq_true_2].
  eexists. split; [reflexivity|].
  cbn [files set_files record dirs]. rewrite Hf5. unfold w4. cbn [files set_files record].
  rewrite Hf3. unfold w2. cbn [files set_files record]. rewrite Hf1, Hfiles.
  split; [reflexivity|]. split; [|split].
  - rewrite !map_size_insert_None, map_size_empty; [reflexivity|..].
    + apply lookup_empty.
    + rewrite lookup_insert_ne by (apply not_eq_sym, D1). apply lookup_empty.
    + rewrite !lookup_insert_ne by (apply not_eq_sym; assumption). apply lookup_empty.
  - apply Hd5. exact Hin3.
  - exact Hin5.
Qed.

End CleanDirectory.

Lemma GenerateBoilerplate_clean_witness :
  exists w',
    GenerateBoilerplate (xml := mini_xml) fresh_helper "proj" (with_dir "proj" maven_world)
    = Returned ((None, set_pomType "maven" (set_latestFdkVersion "1.0.105" fresh_helper)), w')
    /\ files w'
       = <[filepath_Join [filepath_Join ["proj"; "src/test/java/com/example/fn"];
                          "HelloFunctionTest.java"] := helloJavaTestBoilerplate]>
           (<[filepath_Join [filepath_Join ["proj"; "src/main/java/com/example/fn"];
                             "HelloFunction.java"] := helloJavaSrcBoilerplate]>
              (<[filepath_Join ["proj"; "pom.xml"]
                 := pomFileContent "1.0.105"
                      (version (set_pomType "maven"
                                  (set_latestFdkVersion "1.0.105" fresh_helper)))
                      (pomType (set_pomType "maven"
                                  (set_latestFdkVersion "1.0.105" fresh_helper)))]> ∅))
    /\ size (files w') = 3
    /\ filepath_Join ["proj"; "src/main/java/com/example/fn"] ∈ dirs w'
    /\ filepath_Join ["proj"; "src/test/java/com/example/fn"] ∈ dirs w'.
Proof.
  apply (GenerateBoilerplate_clean (xml := mini_xml) fresh_helper
           (set_pomType "maven" (set_latestFdkVersion "1.0.105" fresh_helper))
           "" ["proj"] "proj" "1.0.105" (with_dir "proj" maven_world)
           (record (HttpGet mavenVersionUrl false) (with_dir "proj" maven_world))).
  - now left.
  - discriminate.
  - repeat constructor; discriminate.
  - reflexivity.
  - reflexivity.
  - vm_compute. reflexivity.
  - intros p. reflexivity.
  - vm_compute. reflexivity.
Defined.

(** ** The build stage *)

Section BuildStage.

Lemma Sprintf_one (a b x : string) :
  occurs "%" a = false -> occurs "%" b = false ->
  fmt_Sprintf (a +:+ "%s" +:+ b) [OString x] = a +:+ x +:+ b.
Proof.
  intros Ha Hb. rewrite (Sprintf_literal _ _ _ Ha), Sprintf_s.
  rewrite <- (append_empty_r b) at 1. rewrite (Sprintf_literal _ _ _ Hb).
  cbn [fmt_Sprintf extra]. now rewrite append_empty_r.
Qed.

(** [mavenOpts] in one expression. *)
Lemma mavenOpts_value (w : World) :
  mavenOpts w
  = Returned (proxy_opts "http" (getenv w "http_proxy")
              +:+ proxy_opts "https" (getenv w "https_proxy")
              +:+ "-Dhttp.nonProxyHosts=" +:+ commas_to_pipes (getenv w "no_proxy") +:+ " "
              +:+ "-Dmaven.repo.local=/usr/share/maven/ref/repository", w).
Proof.
  unfold mavenOpts, bind, os_Getenv, ret, proxy_opts.
  rewrite Replace_commas.
  rewrite (Sprintf_one "-Dhttp.nonProxyHosts=" " ") by reflexivity.
  destruct (Url.Parse (getenv w "http_proxy")) as [u1|e1];
    destruct (Url.Parse (getenv w "https_proxy")) as [u2|e2];
    rewrite ?(Sprintf_one "-Dhttp.proxyHost=" " "), ?(Sprintf_one "-Dhttp.proxyPort=" " "),
      ?(Sprintf_one "-Dhttps.proxyHost=" " "), ?(Sprintf_one "-Dhttps.proxyPort=" " ")
      by reflexivity;
    rewrite ?append_assoc, ?append_nil; reflexivity.
Qed.

Lemma HasSuffix_append (a t : string) : strings_HasSuffix (a +:+ t) t = true.
Proof.
  unfold strings_HasSuffix. rewrite length_append.
  apply andb_true_iff. split; [apply Nat.leb_le; lia|].
  replace (String.length a + String.length t - String.length t) with (String.length a) by lia.
  rewrite str_drop_append. apply String.eqb_refl.
Qed.

(** C7: the build stage is always these five instructions, in this order:
    [ENV MAVEN_OPTS] with the options [mavenOpts] computes, which are the
    proxy options of [http_proxy] and of [https_proxy], the hosts of
    [no_proxy] and the local repository; the manifest; the Maven run that
    fetches the dependencies; the sources; and [mvn package].  The fetching
    run is the exec form of [mvn package dependency:copy-dependencies] with
    its four properties, and its last argument is [--fail-never]. *)
Theorem DockerfileBuildCmds_steps (h : JavaLangHelper) (w : World) :
  exists opts fetch,
    opts = proxy_opts "http" (getenv w "http_proxy")
           +:+ proxy_opts "https" (getenv w "https_proxy")
           +:+ "-Dhttp.nonProxyHosts=" +:+ commas_to_pipes (getenv w "no_proxy") +:+ " "
           +:+ "-Dmaven.repo.local=/usr/share/maven/ref/repository"
    /\ mavenOpts w = Returned (opts, w)
    /\ DockerfileBuildCmds h w
       = Returned (["ENV MAVEN_OPTS " +:+ opts;
                    "ADD pom.xml /function/pom.xml";
                    fetch;
                    "ADD src /function/src";
                    "RUN [" +:+ quoted "mvn" +:+ ", " +:+ quoted "package" +:+ "]"],
                   w)
    /\ fetch = "RUN ["
               +:+ strings_Join
                     (map quoted ["mvn"; "package"; "dependency:copy-dependencies";
                                  "-DincludeScope=runtime"; "-DskipTests=true";
                                  "-Dmdep.prependGroupId=true"; "-DoutputDirectory=target";
                                  "--fail-never"]) ", "
               +:+ "]"
    /\ strings_HasSuffix fetch (", " +:+ quoted "--fail-never" +:+ "]") = true
    /\ strings_HasSuffix opts "-Dmaven.repo.local=/usr/share/maven/ref/repository" = true.
Proof.
  eexists _, _. split; [reflexivity|]. split; [apply mavenOpts_value|].
  split.
  - unfold DockerfileBuildCmds, bind, ret. rewrite mavenOpts_value.
    rewrite (Sprintf_one "ENV MAVEN_OPTS " "") by reflexivity.
    rewrite append_empty_r. reflexivity.
  - split; [vm_compute; reflexivity|]. split; [vm_compute; reflexivity|].
    rewrite <- !append_assoc. apply HasSuffix_append.
Qed.

(** C8, as the code has it: [MAVEN_OPTS] is the options of [http_proxy],
    the options of [https_proxy], [http.nonProxyHosts] set to [no_proxy]
    with every comma turned into a pipe, and the local repository.  The
    options of a proxy variable are [proxyHost] and [proxyPort] set to the
    [Hostname()] and [Port()] of its URL when [url.Parse] accepts the
    value, and are left out when it does not. *)
Theorem mavenOpts_translation (w : World) :
  exists http https,
    mavenOpts w
    = Returned (http +:+ https
                +:+ "-Dhttp.nonProxyHosts=" +:+ commas_to_pipes (getenv w "no_proxy") +:+ " "
                +:+ "-Dmaven.repo.local=/usr/share/maven/ref/repository", w)
    /\ (forall u, Url.Parse (getenv w "http_proxy") = inl u ->
                  http = "-Dhttp.proxyHost=" +:+ Url.Hostname u +:+ " "
                         +:+ "-Dhttp.proxyPort=" +:+ Url.Port u +:+ " ")
    /\ (forall e, Url.Parse (getenv w "http_proxy") = inr e -> http = "")
    /\ (forall u, Url.Parse (getenv w "https_proxy") = inl u ->
                  https = "-Dhttps.proxyHost=" +:+ Url.Hostname u +:+ " "
                          +:+ "-Dhttps.proxyPort=" +:+ Url.Port u +:+ " ")
    /\ (forall e, Url.Parse (getenv w "https_proxy") = inr e -> https = "").
Proof.
  exists (proxy_opts "http" (getenv w "http_proxy")),
    (proxy_opts "https" (getenv w "https_proxy")).
  split; [apply mavenOpts_value|].
  unfold proxy_opts.
  repeat split; intros x Hx; rewrite Hx; reflexivity.
Qed.

End BuildStage.

(** C8 as stated fails: with [http_proxy] and [https_proxy] set to
    "192.168.1.1:3128", which [url.Parse] rejects (a first path segment with
    a colon), [MAVEN_OPTS] names no proxy host and no proxy port at all. *)
Lemma mavenOpts_drops_unparsed_proxy :
  getenv proxy_world "http_proxy" = "192.168.1.1:3128"
  /\ Url.Parse "192.168.1.1:3128"
     = inr (errorString "first path segment in URL cannot contain colon")
  /\ mavenOpts proxy_world
     = Returned ("-Dhttp.nonProxyHosts=localhost|127.0.0.1 "
                 +:+ "-Dmaven.repo.local=/usr/share/maven/ref/repository", proxy_world)
  /\ strings_Contains
       ("-Dhttp.nonProxyHosts=localhost|127.0.0.1 "
        +:+ "-Dmaven.repo.local=/usr/share/maven/ref/repository") "proxyHost" = false.
Proof. repeat split; vm_compute; reflexivity. Qed.

(** ** Laws of version resolution *)

Section ResolutionLaws.

Context {xml : XmlDecoder}.

(** What [getFDKLatestFromURL] can return, and the requests it has made by
    then: one to the primary registry and a version tagged "maven", or one
    to each registry, the secondary without certificate verification, and
    either a version tagged "bintray" or no version and no tag. *)
Lemma getFDKLatestFromURL_outcome (comURL bintrayURL : string) (w w' : World)
    (r : string * string * option error) :
  getFDKLatestFromURL comURL bintrayURL w = Returned (r, w') ->
  (w' = record (HttpGet comURL false) w /\ exists v, r = (v, "maven", None))
  \/ (w' = record (HttpGet bintrayURL true) (record (HttpGet comURL false) w)
      /\ ((exists v, r = (v, "bintray", None)) \/ exists err, r = ("", "", err))).
Proof.
  unfold getFDKLatestFromURL, bind, ret, lift. intros H.
  destruct (getURLResponse comURL false w) as [[r1 w1]|] eqn:E1; [|discriminate].
  apply getURLResponse_frame in E1. subst w1.
  repeat case_match; simplify_eq; eauto;
    match goal with
    | E : getURLResponse _ _ _ = Returned (_, ?w2) |- _ =>
        apply getURLResponse_frame in E; subst w2
    end; eauto 6.
Qed.

Lemma GetLatestFDKVersion_keeps_version (h h' : JavaLangHelper) (w w' : World)
    (r : string * option error) :
  GetLatestFDKVersion h w = Returned ((r, h'), w') -> version h' = version h.
Proof.
  unfold GetLatestFDKVersion, bind, ret, os_Getenv. intros H.
  repeat case_match; simplify_eq; reflexivity.
Qed.

(** The three ways resolution returns. *)
Lemma GetLatestFDKVersion_cases (h h' : JavaLangHelper) (w w' : World)
    (v : string) (err : option error) :
  GetLatestFDKVersion h w = Returned ((v, err, h'), w') ->
  (latestFdkVersion h <> "" /\ v = latestFdkVersion h /\ err = None /\ h' = h /\ w' = w)
  \/ (latestFdkVersion h = "" /\ getenv w versionEnv <> "" /\ v = getenv w versionEnv
      /\ err = None /\ h' = h /\ w' = w)
  \/ (latestFdkVersion h = "" /\ getenv w versionEnv = ""
      /\ exists r, getFDKLatestFromURL mavenVersionUrl bintrayVersionURL w = Returned (r, w')
         /\ match r with
            | (_, _, Some _) => v = "" /\ err = Some fetchError /\ h' = h
            | (version, pType, None) =>
                v = version /\ err = None
                /\ h' = set_pomType pType (set_latestFdkVersion version h)
            end).
Proof.
  unfold GetLatestFDKVersion, bind, ret, os_Getenv. intros H.
  destruct (String.eqb (latestFdkVersion h) "") eqn:Ec; cbn [negb] in H.
  - apply String.eqb_eq in Ec. right.
    destruct (String.eqb (getenv w versionEnv) "") eqn:Ee; cbn [negb] in H.
    + apply String.eqb_eq in Ee. right. split; [assumption|]. split; [assumption|].
      destruct (getFDKLatestFromURL mavenVersionUrl bintrayVersionURL w)
        as [[[[version pType] e] w1]|] eqn:Eg; [|discriminate].
      exists (version, pType, e). destruct e; simplify_eq; auto.
    + apply String.eqb_neq in Ee. left. simplify_eq. auto 6.
  - apply String.eqb_neq in Ec. left. simplify_eq. auto 6.
Qed.

(** Resolution asks at most two things of the network, in a fixed order:
    Maven Central, with certificate verification, and after it Bintray,
    without.  It reads the environment and changes neither it nor the file
    system. *)
Theorem resolution_request_discipline (h h' : JavaLangHelper) (w w' : World)
    (r : string * option error) :
  GetLatestFDKVersion h w = Returned ((r, h'), w') ->
  environ w' = environ w /\ files w' = files w /\ dirs w' = dirs w
  /\ (trace w' = trace w
      \/ trace w' = trace w ++ [HttpGet mavenVersionUrl false]
      \/ trace w' = trace w ++ [HttpGet mavenVersionUrl false; HttpGet bintrayVersionURL true]).
Proof.
  destruct r as [v err]. intros H.
  destruct (GetLatestFDKVersion_cases _ _ _ _ _ _ H)
    as [(_ & _ & _ & _ & ->)|[(_ & _ & _ & _ & _ & ->)|(_ & _ & r & Hg & _)]];
    [repeat split; now left..|].
  destruct (getFDKLatestFromURL_outcome _ _ _ _ _ Hg) as [[-> _]|[-> _]];
    cbn; repeat split.
  - right. now left.
  - right. right. now rewrite <- app_assoc.
Qed.

Lemma GetLatestFDKVersion_again (h h' : JavaLangHelper) (w w' : World) (v : string) :
  GetLatestFDKVersion h w = Returned ((v, None, h'), w') ->
  v <> "" ->
  GetLatestFDKVersion h' w' = Returned ((v, None, h'), w').
Proof.
  intros H Hv.
  destruct (GetLatestFDKVersion_cases _ _ _ _ _ _ H)
    as [(Hc & -> & _ & -> & ->)|[(Hc & He & -> & _ & -> & ->)|(Hc & He & r & Hg & Hr)]].
  - now apply GetLatestFDKVersion_cached.
  - unfold GetLatestFDKVersion, bind, os_Getenv. rewrite Hc. cbn.
    destruct (String.eqb (getenv w versionEnv) "") eqn:E; [|reflexivity].
    apply String.eqb_eq in E. contradiction.
  - destruct r as [[version pType] [e|]].
    + destruct Hr as (_ & Hr & _). discriminate.
    + destruct Hr as (-> & _ & ->).
      rewrite (GetLatestFDKVersion_cached (set_pomType pType (set_latestFdkVersion version h)) w')
        by exact Hv.
      reflexivity.
Qed.

(** Once resolution has returned a version that is not empty, it returns
    the same version again, from the state it left, without a request and
    without a change to the helper. *)
Theorem resolution_is_stable (h h' : JavaLangHelper) (w w' : World) (v : string) :
  GetLatestFDKVersion h w = Returned ((v, None, h'), w') ->
  v <> "" ->
  GetLatestFDKVersion h' w' = Returned ((v, None, h'), w').
Proof. apply GetLatestFDKVersion_again. Qed.

(** Resolution reports one error only, [fetchError], and only after both
    registries have been asked; with it come the empty version and the
    helper as it was, nothing cached. *)
Theorem resolution_error_shape (h h' : JavaLangHelper) (w w' : World)
    (v : string) (e : error) :
  GetLatestFDKVersion h w = Returned ((v, Some e, h'), w') ->
  e = fetchError /\ v = "" /\ h' = h
  /\ trace w' = trace w ++ [HttpGet mavenVersionUrl false; HttpGet bintrayVersionURL true].
Proof.
  intros H.
  destruct (GetLatestFDKVersion_cases _ _ _ _ _ _ H)
    as [(_ & _ & Hn & _)|[(_ & _ & _ & Hn & _)|(Hc & He & r & Hg & Hr)]];
    try discriminate.
  destruct (getFDKLatestFromURL_outcome _ _ _ _ _ Hg) as [[-> [v0 ->]]|[-> [[v0 ->]|[err ->]]]].
  - destruct Hr as (_ & Hr & _). discriminate.
  - destruct Hr as (_ & Hr & _). discriminate.
  - destruct err as [e0|].
    + destruct Hr as (-> & Hr & ->). simplify_eq. repeat split. cbn.
      now rewrite <- app_assoc.
    + destruct Hr as (_ & Hr & _). discriminate.
Qed.

End ResolutionLaws.

Lemma resolution_request_discipline_witness :
  environ (world_after (GetLatestFDKVersion (xml := mini_xml) fresh_helper) primary_404_world)
  = environ primary_404_world
  /\ files (world_after (GetLatestFDKVersion (xml := mini_xml) fresh_helper) primary_404_world)
     = files primary_404_world
  /\ dirs (world_after (GetLatestFDKVersion (xml := mini_xml) fresh_helper) primary_404_world)
     = dirs primary_404_world
  /\ (trace (world_after (GetLatestFDKVersion (xml := mini_xml) fresh_helper) primary_404_world)
      = trace primary_404_world
      \/ trace (world_after (GetLatestFDKVersion (xml := mini_xml) fresh_helper)
                  primary_404_world)
         = trace primary_404_world ++ [HttpGet mavenVersionUrl false]
      \/ trace (world_after (GetLatestFDKVersion (xml := mini_xml) fresh_helper)
                  primary_404_world)
         = trace primary_404_world
           ++ [HttpGet mavenVersionUrl false; HttpGet bintrayVersionURL true]).
Proof.
  apply (resolution_request_discipline (xml := mini_xml) fresh_helper
           (set_pomType "bintray" (set_latestFdkVersion "2.3.1" fresh_helper))
           primary_404_world _ ("2.3.1", None)).
  vm_compute. reflexivity.
Defined.

Lemma resolution_is_stable_witness :
  GetLatestFDKVersion (xml := mini_xml)
    (set_pomType "maven" (set_latestFdkVersion "1.0.105" fresh_helper))
    (record (HttpGet mavenVersionUrl false) maven_world)
  = Returned (("1.0.105", None, set_pomType "maven" (set_latestFdkVersion "1.0.105" fresh_helper)),
              record (HttpGet mavenVersionUrl false) maven_world).
Proof.
  apply (resolution_is_stable (xml := mini_xml) fresh_helper _ maven_world _ "1.0.105").
  - vm_compute. reflexivity.
  - discriminate.
Defined.

Lemma resolution_error_shape_witness :
  fetchError = fetchError /\ "" = ""
  /\ fresh_helper = fresh_helper
  /\ trace (record (HttpGet bintrayVersionURL true)
              (record (HttpGet mavenVersionUrl false) down_world))
     = trace down_world ++ [HttpGet mavenVersionUrl false; HttpGet bintrayVersionURL true].
Proof.
  apply (resolution_error_shape (xml := mini_xml) fresh_helper fresh_helper down_world
           (record (HttpGet bintrayVersionURL true)
              (record (HttpGet mavenVersionUrl false) down_world)) "" fetchError).
  vm_compute. reflexivity.
Defined.

(** ** What a fetch and a parse accept *)

Section Acceptance.

Context {xml : XmlDecoder}.

(** A fetch gives data exactly when the request came back without an
    error, with status 200 (no other status, 2xx or not, will do) and a
    body that could be read to its end; the data is that body, and the
    request is the one thing recorded. *)
Theorem getURLResponse_success_iff (url : string) (insecure : bool) (w w' : World)
    (data : string) :
  getURLResponse url insecure w = Returned ((data, None), w')
  <-> (exists resp, network w (trace w) url insecure = (Some resp, None)
                    /\ StatusCode resp = 200%Z /\ Body resp = (data, None))
      /\ w' = record (HttpGet url insecure) w.
Proof.
  unfold getURLResponse, bind, client_Get, panic, ret, ioutil_ReadAll. split.
  - intros H.
    destruct (network w (trace w) url insecure) as [[resp|] err] eqn:Hnet; [|discriminate].
    destruct err as [e|]; [cbn in H; discriminate|].
    cbn in H. destruct (StatusCode resp =? 200)%Z eqn:Es; [|cbn in H; discriminate].
    cbn in H. destruct (Body resp) as [body [e|]] eqn:Eb; simplify_eq.
    split; [|reflexivity]. exists resp. apply Z.eqb_eq in Es. auto.
  - intros [(resp & Hnet & Hs & Hb) ->]. rewrite Hnet. cbn. rewrite Hs, Hb. reflexivity.
Qed.

(** [parseBintrayResponse] panics on exactly two kinds of document: the
    empty array and [null].  Every other text makes it return, a version
    or an error. *)
Theorem parseBintrayResponse_panics_iff (data : string) :
  (exists reason, parseBintrayResponse data = Panicked reason)
  <-> Json.parse data = Some (Json.Array []) \/ Json.parse data = Some Json.Null.
Proof.
  unfold parseBintrayResponse, json_Unmarshal. split.
  - intros [reason H].
    destruct (Json.parse data) as [[| | | | elems |]|]; cbn in H; try discriminate; auto.
    destruct elems as [|v rest]; [auto|]. exfalso. cbn in H.
    destruct (decode_parsedResponse v Bintray.zero) as [x e].
    destruct (decode_elems rest []) as [xs e']. cbn in H.
    destruct (first_error e e'); discriminate.
  - intros [-> | ->]; eexists; reflexivity.
Qed.

(** A primary registry that answers 200 with a body that is no usable
    metadata (the decoder rejects it, or it lists no version) is passed
    over like one that refused: the secondary registry is asked, and a
    version it gives is returned and cached with the tag "bintray". *)
Theorem unusable_primary_answer_falls_back (h : JavaLangHelper) (w : World)
    (body1 body2 v : string) (e : error) :
  latestFdkVersion h = "" ->
  getenv w versionEnv = "" ->
  network w (trace w) mavenVersionUrl false = answer 200 body1 ->
  parseMavenResponse body1 = ("", Some e) ->
  network w (trace w ++ [HttpGet mavenVersionUrl false]) bintrayVersionURL true
  = answer 200 body2 ->
  parseBintrayResponse body2 = Returned (v, None) ->
  GetLatestFDKVersion h w
  = Returned ((v, None, set_pomType "bintray" (set_latestFdkVersion v h)),
              record (HttpGet bintrayVersionURL true)
                (record (HttpGet mavenVersionUrl false) w)).
Proof.
  intros Hc Henv Hnet1 Hp1 Hnet2 Hp2.
  unfold GetLatestFDKVersion. rewrite Hc. cbn. fold (getenv w versionEnv).
  rewrite Henv. cbn.
  unfold bind, getFDKLatestFromURL. unfold bind.
  rewrite (getURLResponse_answer _ _ _ _ Hnet1), Hp1.
  rewrite (getURLResponse_answer bintrayVersionURL true
             (record (HttpGet mavenVersionUrl false) w) body2 Hnet2).
  unfold lift. rewrite Hp2. reflexivity.
Qed.

(** A secondary registry that answers 200 with a body the parser rejects
    is not reported: the error handed back is the one of the fetch, which
    is nil.  The helper returns the empty version and no error, and what it
    caches is the empty version and the empty tag, over the tag it had. *)
Theorem secondary_parse_error_is_dropped (h : JavaLangHelper) (w : World)
    (resp : Response) (err : option error) (body : string) (e : error) :
  latestFdkVersion h = "" ->
  getenv w versionEnv = "" ->
  network w (trace w) mavenVersionUrl false = (Some resp, err) ->
  StatusCode resp <> 200%Z ->
  network w (trace w ++ [HttpGet mavenVersionUrl false]) bintrayVersionURL true
  = answer 200 body ->
  parseBintrayResponse body = Returned ("", Some e) ->
  GetLatestFDKVersion h w
  = Returned (("", None, set_pomType "" (set_latestFdkVersion "" h)),
              record (HttpGet bintrayVersionURL true)
                (record (HttpGet mavenVersionUrl false) w)).
Proof.
  intros Hc Henv Hnet1 Hs Hnet2 Hp.
  unfold GetLatestFDKVersion. rewrite Hc. cbn. fold (getenv w versionEnv).
  rewrite Henv. cbn.
  unfold bind, getFDKLatestFromURL. unfold bind.
  destruct (getURLResponse_bad_status _ _ _ _ _ Hnet1 Hs) as [e1 ->].
  rewrite (getURLResponse_answer bintrayVersionURL true
             (record (HttpGet mavenVersionUrl false) w) body Hnet2).
  unfold lift. rewrite Hp. reflexivity.
Qed.

End Acceptance.

Lemma unusable_primary_answer_falls_back_witness :
  GetLatestFDKVersion (xml := mini_xml) fresh_helper primary_garbage_world
  = Returned (("2.3.1", None, set_pomType "bintray" (set_latestFdkVersion "2.3.1" fresh_helper)),
              record (HttpGet bintrayVersionURL true)
                (record (HttpGet mavenVersionUrl false) primary_garbage_world)).
Proof.
  apply (unusable_primary_answer_falls_back (xml := mini_xml) fresh_helper
           primary_garbage_world "<html>moved</html>" sample_descriptors "2.3.1"
           (errorString "expected element type <metadata> but have <html>"));
    vm_compute; reflexivity.
Defined.

Lemma secondary_parse_error_is_dropped_witness :
  GetLatestFDKVersion (xml := mini_xml) warm_tag_helper garbage_world
  = Returned (("", None, fresh_helper),
              record (HttpGet bintrayVersionURL true)
                (record (HttpGet mavenVersionUrl false) garbage_world)).
Proof.
  apply (secondary_parse_error_is_dropped (xml := mini_xml) warm_tag_helper garbage_world
           {| StatusCode := 404; Body := ("Not Found", None) |} None
           "<html>Bintray has been sunset</html>"
           (errorString "invalid character in JSON document"));
    try (vm_compute; reflexivity).
  discriminate.
Defined.

(** ** The images *)

Section ImageLaws.

Context {xml : XmlDecoder}.

Lemma image_name (repository infix v : string) :
  occurs "%" (repository +:+ infix) = false ->
  fmt_Sprintf ((repository +:+ infix) +:+ "%s") [OString v] = repository +:+ infix +:+ v.
Proof.
  intros H. rewrite (Sprintf_literal _ _ _ H).
  change (fmt_Sprintf "%s" [OString v]) with (v +:+ "").
  now rewrite append_empty_r, append_assoc.
Qed.

(** The two images carry the version that was resolved.  For a helper of
    Java 8 or 11 and a resolution that returns [v] with no error,
    [BuildFromImage] returns the build image with [v] as its tag (after
    "jdk11-" for Java 11) and [RunFromImage] the runtime image with [v]
    (after "jre11-" for Java 11), each in the state the resolution left;
    and when [v] is not empty, [RunFromImage] called after
    [BuildFromImage], from the state it left, returns the same runtime
    image without another request. *)
Theorem run_image_follows_build_image (h h' : JavaLangHelper) (w w' : World) (v : string) :
  version h = "8" \/ version h = "11" ->
  GetLatestFDKVersion h w = Returned ((v, None, h'), w') ->
  BuildFromImage h w
  = Returned (("fnproject/fn-java-fdk-build:"
               +:+ (if String.eqb (version h) "8" then "" else "jdk11-") +:+ v,
               None, h'), w')
  /\ RunFromImage h w
     = Returned (("fnproject/fn-java-fdk:"
                  +:+ (if String.eqb (version h) "8" then "" else "jre11-") +:+ v,
                  None, h'), w')
  /\ (v <> "" ->
      RunFromImage h' w'
      = Returned (("fnproject/fn-java-fdk:"
                   +:+ (if String.eqb (version h) "8" then "" else "jre11-") +:+ v,
                   None, h'), w')).
Proof.
  intros Hver Hres.
  pose proof (GetLatestFDKVersion_keeps_version _ _ _ _ _ Hres) as Hkeep.
  assert (Hrun : forall h0 w0,
             GetLatestFDKVersion h0 w0 = Returned ((v, None, h'), w') ->
             RunFromImage h0 w0
             = Returned (("fnproject/fn-java-fdk:"
                          +:+ (if String.eqb (version h) "8" then "" else "jre11-") +:+ v,
                          None, h'), w')).
  { intros h0 w0 H0. unfold RunFromImage, bind, ret. rewrite H0, Hkeep.
    destruct Hver as [-> | ->]; cbn [String.eqb Ascii.eqb Bool.eqb].
    - now rewrite <- (image_name "fnproject/fn-java-fdk:" "" v eq_refl).
    - now rewrite <- (image_name "fnproject/fn-java-fdk:" "jre11-" v eq_refl). }
  split; [|split; [now apply Hrun|]].
  - unfold BuildFromImage, bind, ret. rewrite Hres, Hkeep.
    destruct Hver as [-> | ->]; cbn [String.eqb Ascii.eqb Bool.eqb].
    + now rewrite <- (image_name "fnproject/fn-java-fdk-build:" "" v eq_refl).
    + now rewrite <- (image_name "fnproject/fn-java-fdk-build:" "jdk11-" v eq_refl).
  - intros Hv. apply Hrun. now apply (GetLatestFDKVersion_again h h' w w').
Qed.

(** For a Java version other than 8 and 11 neither method gives an image,
    and neither says so before the FDK version has been resolved: a panic
    of the resolution is the methods' panic, an error of the resolution is
    the error returned, and "unsupported java version" is returned only
    after a resolution that succeeded, in the world it left. *)
Theorem unsupported_version_after_resolution (h : JavaLangHelper) (w : World) :
  version h <> "8" -> version h <> "11" ->
  BuildFromImage h w
  = match GetLatestFDKVersion h w with
    | Returned ((_, err, h'), w') =>
        Returned (("", Some (default (errorString ("unsupported java version " +:+ version h))
                               err), h'), w')
    | Panicked reason => Panicked reason
    end
  /\ RunFromImage h w = BuildFromImage h w.
Proof.
  intros H8 H11. unfold BuildFromImage, RunFromImage, bind, ret.
  destruct (GetLatestFDKVersion h w) as [[[[v err] h1] w1]|] eqn:Hres; [|auto].
  pose proof (GetLatestFDKVersion_keeps_version _ _ _ _ _ Hres) as Hver.
  destruct err as [e|]; [auto|]. rewrite Hver.
  apply String.eqb_neq in H8, H11. rewrite H8, H11. split; [|reflexivity].
  unfold fmt_Errorf. cbn [default].
  pose proof (image_name "unsupported java version " "" (version h) eq_refl) as E.
  change (fmt_Sprintf "unsupported java version %s" [OString (version h)]
          = "unsupported java version " +:+ "" +:+ version h) in E.
  now rewrite E, append_nil.
Qed.

End ImageLaws.

Lemma run_image_follows_build_image_witness :
  BuildFromImage (xml := mini_xml) fresh_helper maven_world
  = Returned (("fnproject/fn-java-fdk-build:"
               +:+ (if String.eqb (version fresh_helper) "8" then "" else "jdk11-")
               +:+ "1.0.105",
               None, set_pomType "maven" (set_latestFdkVersion "1.0.105" fresh_helper)),
              record (HttpGet mavenVersionUrl false) maven_world)
  /\ RunFromImage (xml := mini_xml) fresh_helper maven_world
     = Returned (("fnproject/fn-java-fdk:"
                  +:+ (if String.eqb (version fresh_helper) "8" then "" else "jre11-")
                  +:+ "1.0.105",
                  None, set_pomType "maven" (set_latestFdkVersion "1.0.105" fresh_helper)),
                 record (HttpGet mavenVersionUrl false) maven_world)
  /\ ("1.0.105" <> "" ->
      RunFromImage (xml := mini_xml)
        (set_pomType "maven" (set_latestFdkVersion "1.0.105" fresh_helper))
        (record (HttpGet mavenVersionUrl false) maven_world)
      = Returned (("fnproject/fn-java-fdk:"
                   +:+ (if String.eqb (version fresh_helper) "8" then "" else "jre11-")
                   +:+ "1.0.105",
                   None, set_pomType "maven" (set_latestFdkVersion "1.0.105" fresh_helper)),
                  record (HttpGet mavenVersionUrl false) maven_world)).
Proof.
  apply (run_image_follows_build_image (xml := mini_xml) fresh_helper
           (set_pomType "maven" (set_latestFdkVersion "1.0.105" fresh_helper))
           maven_world (record (HttpGet mavenVersionUrl false) maven_world) "1.0.105").
  - now right.
  - vm_compute. reflexivity.
Defined.

Lemma unsupported_version_after_resolution_witness :
  BuildFromImage (xml := mini_xml) java17_helper primary_404_world
  = match GetLatestFDKVersion (xml := mini_xml) java17_helper primary_404_world with
    | Returned ((_, err, h'), w') =>
        Returned (("", Some (default (errorString ("unsupported java version "
                                                   +:+ version java17_helper)) err), h'), w')
    | Panicked reason => Panicked reason
    end
  /\ RunFromImage (xml := mini_xml) java17_helper primary_404_world
     = BuildFromImage (xml := mini_xml) java17_helper primary_404_world.
Proof.
  apply (unsupported_version_after_resolution (xml := mini_xml) java17_helper
           primary_404_world); discriminate.
Defined.

(** ** Generation and the pre-build check *)

Section AfterGeneration.

Context {xml : XmlDecoder}.

Lemma ioutil_WriteFile_keeps (filename data : string) (perm : Z) (w w' : World)
    (e : option error) :
  ioutil_WriteFile filename data perm w = Returned (e, w') ->
  (forall q, is_Some (files w !! q) -> is_Some (files w' !! q))
  /\ (e = None -> files w' !! filename = Some data).
Proof.
  intros H.
  destruct (ioutil_WriteFile_frame filename data perm w) as (e0 & w0 & H0 & _ & _ & _ & Hf).
  rewrite H0 in H. simplify_eq. rewrite Hf. split.
  - intros q Hq. destruct e; [exact Hq|].
    destruct (decide (q = filename)) as [->|Hne].
    + rewrite lookup_insert_eq. eauto.
    + now rewrite lookup_insert_ne by (apply not_eq_sym, Hne).
  - intros ->. apply lookup_insert_eq.
Qed.

Lemma os_MkdirAll_keeps (path : string) (perm : Z) (w w' : World) (e : option error) :
  os_MkdirAll path perm w = Returned (e, w') -> files w' = files w.
Proof.
  intros H.
  destruct (os_MkdirAll_frame path perm w) as (e0 & w0 & H0 & Hf & _).
  rewrite H0 in H. now simplify_eq.
Qed.

Lemma mkDirAndWriteFile_keeps (path dir filename content : string) (w w' : World)
    (e : option error) :
  mkDirAndWriteFile path dir filename content w = Returned (e, w') ->
  forall q, is_Some (files w !! q) -> is_Some (files w' !! q).
Proof.
  unfold mkDirAndWriteFile, bind, ret. intros H q Hq.
  destruct (os_MkdirAll (filepath_Join [path; dir]) 493 w) as [[e1 w1]|] eqn:E1;
    [|discriminate].
  apply os_MkdirAll_keeps in E1.
  destruct e1 as [e1|].
  - simplify_eq. now rewrite E1.
  - apply ioutil_WriteFile_keeps in H as [H _]. apply H. now rewrite E1.
Qed.

Lemma ioutil_WriteFile_refused (filename data : string) (perm : Z) (w : World) (e : error) :
  fs_fault w filename = Some e ->
  ioutil_WriteFile filename data perm w
  = Returned (Some e, record (WriteFile filename data perm) w).
Proof. intros Hf. unfold ioutil_WriteFile. cbn. now rewrite Hf. Qed.

(** A generation that returned no error has left a manifest. *)
Lemma GenerateBoilerplate_leaves_manifest (h h' : JavaLangHelper) (path : string)
    (w w' : World) :
  GenerateBoilerplate h path w = Returned ((None, h'), w') ->
  is_Some (files w' !! filepath_Join [path; "pom.xml"]).
Proof.
  unfold GenerateBoilerplate, bind, ret, exists_. intros H.
  destruct (bool_decide (is_Some (files w !! filepath_Join [path; "pom.xml"]))
            || bool_decide (filepath_Join [path; "pom.xml"] ∈ dirs w)); [discriminate|].
  destruct (GetLatestFDKVersion h w) as [[[[v err] h1] w1]|]; [|discriminate].
  destruct err as [e|]; [discriminate|].
  destruct (ioutil_WriteFile _ _ _ w1) as [[e2 w2]|] eqn:E2; [|discriminate].
  destruct e2 as [e2|]; [discriminate|].
  apply ioutil_WriteFile_keeps in E2 as [_ E2]. specialize (E2 eq_refl).
  destruct (mkDirAndWriteFile path _ _ _ w2) as [[e3 w3]|] eqn:E3; [|discriminate].
  destruct e3 as [e3|]; [discriminate|].
  destruct (mkDirAndWriteFile path _ _ _ w3) as [[e4 w4]|] eqn:E4; [|discriminate].
  simplify_eq.
  eapply mkDirAndWriteFile_keeps; [exact E4|].
  eapply mkDirAndWriteFile_keeps; [exact E3|].
  rewrite E2. eauto.
Qed.

(** Generation is not repeated: after a generation that returned no error,
    a second one in the same directory returns [ErrBoilerplateExists] and
    leaves the world as the first one left it. *)
Theorem GenerateBoilerplate_twice (h h' : JavaLangHelper) (path : string) (w w' : World) :
  GenerateBoilerplate h path w = Returned ((None, h'), w') ->
  GenerateBoilerplate h' path w' = Returned ((Some ErrBoilerplateExists, h'), w').
Proof.
  intros H. apply GenerateBoilerplate_manifest_there.
  eapply GenerateBoilerplate_leaves_manifest, H.
Qed.

(** The pre-build check reads: it leaves the world as it is.  An error of
    [os.Getwd] is returned as it is; with the working directory known, the
    check returns no error when the directory holds something named
    [pom.xml], and the error that says no [pom.xml] was found when it
    does not.  So it returns no error exactly when the working directory
    is known and holds something named [pom.xml]. *)
Theorem PreBuild_checks_only {cwd : WorkingDirectory} (h : JavaLangHelper) (w : World) :
  exists r,
    PreBuild h w = Returned (r, w)
    /\ (forall wd e, os_Getwd w = (wd, Some e) -> r = Some e)
    /\ (forall wd, os_Getwd w = (wd, None) ->
                   r = if bool_decide (is_Some (files w !! filepath_Join [wd; "pom.xml"]))
                          || bool_decide (filepath_Join [wd; "pom.xml"] ∈ dirs w)
                       then None
                       else Some (errorString
                                    "Could not find pom.xml - are you sure this is a Maven project?"))
    /\ (r = None
        <-> exists wd, os_Getwd w = (wd, None)
                       /\ (is_Some (files w !! filepath_Join [wd; "pom.xml"])
                           \/ filepath_Join [wd; "pom.xml"] ∈ dirs w)).
Proof.
  unfold PreBuild, bind, ret, exists_.
  destruct (os_Getwd w) as [wd [e|]] eqn:Ewd.
  - eexists. split; [reflexivity|]. split; [intros wd' e' H; now simplify_eq|].
    split; [intros wd' H; discriminate|].
    split; [discriminate|]. intros (wd' & Hwd & _). discriminate.
  - exists (if bool_decide (is_Some (files w !! filepath_Join [wd; "pom.xml"]))
               || bool_decide (filepath_Join [wd; "pom.xml"] ∈ dirs w)
            then None
            else Some (errorString
                         "Could not find pom.xml - are you sure this is a Maven project?")).
    split; [destruct (_ || _); reflexivity|].
    split; [intros wd' e' H; discriminate|].
    split; [intros wd' H; now simplify_eq|].
    destruct (bool_decide (is_Some (files w !! filepath_Join [wd; "pom.xml"]))) eqn:Ef;
      [|destruct (bool_decide (filepath_Join [wd; "pom.xml"] ∈ dirs w)) eqn:Ed];
      cbn [orb].
    + apply bool_decide_eq_true_1 in Ef. split; [|reflexivity]. intros _. eauto.
    + apply bool_decide_eq_true_1 in Ed. split; [|reflexivity]. intros _. eauto.
    + apply bool_decide_eq_false_1 in Ef, Ed. split; [discriminate|].
      intros (wd' & Hwd & [Hf|Hd]); simplify_eq; contradiction.
Qed.

(** The check that follows generation passes: after a generation below
    [path] that returned no error, the pre-build check of a process whose
    working directory is [path] returns no error. *)
Theorem PreBuild_after_GenerateBoilerplate {cwd : WorkingDirectory}
    (h h' : JavaLangHelper) (path : string) (w w' : World) :
  GenerateBoilerplate h path w = Returned ((None, h'), w') ->
  os_Getwd w' = (path, None) ->
  PreBuild h' w' = Returned (None, w').
Proof.
  intros H Hwd. apply GenerateBoilerplate_leaves_manifest in H.
  unfold PreBuild, bind, ret, exists_. rewrite Hwd.
  now rewrite (bool_decide_eq_true_2 _ H).
Qed.

(** When resolution fails, generation returns its error and has written
    nothing: the files and the directories are those it found, in the
    world resolution left. *)
Theorem failed_resolution_writes_nothing (h h' : JavaLangHelper) (path v : string)
    (w w' : World) (e : error) :
  files w !! filepath_Join [path; "pom.xml"] = None ->
  filepath_Join [path; "pom.xml"] ∉ dirs w ->
  GetLatestFDKVersion h w = Returned ((v, Some e, h'), w') ->
  GenerateBoilerplate h path w = Returned ((Some e, h'), w')
  /\ files w' = files w /\ dirs w' = dirs w.
Proof.
  intros Hnone Hdir Hres.
  destruct (GetLatestFDKVersion_same_fs _ _ _ _ _ Hres) as (Hf & Hd & _).
  split; [|auto].
  unfold GenerateBoilerplate, bind, exists_.
  rewrite bool_decide_eq_false_2 by (rewrite Hnone; apply is_Some_None).
  rewrite (bool_decide_eq_false_2 _ Hdir). cbn [orb].
  now rewrite Hres.
Qed.

(** When the file system refuses the manifest, generation returns that
    error after the one attempt: the files and the directories are those it
    found, and no directory was asked for. *)
Theorem refused_manifest_stops_generation (h h' : JavaLangHelper) (path v : string)
    (w w1 : World) (e : error) :
  files w !! filepath_Join [path; "pom.xml"] = None ->
  filepath_Join [path; "pom.xml"] ∉ dirs w ->
  fs_fault w (filepath_Join [path; "pom.xml"]) = Some e ->
  GetLatestFDKVersion h w = Returned ((v, None, h'), w1) ->
  exists w',
    GenerateBoilerplate h path w = Returned ((Some e, h'), w')
    /\ files w' = files w /\ dirs w' = dirs w
    /\ trace w' = trace w1 ++ [WriteFile (filepath_Join [path; "pom.xml"])
                                 (pomFileContent v (version h') (pomType h')) 420].
Proof.
  intros Hnone Hdir Hfault Hres.
  destruct (GetLatestFDKVersion_same_fs _ _ _ _ _ Hres) as (Hf & Hd & Hq).
  unfold GenerateBoilerplate, bind, exists_.
  rewrite bool_decide_eq_false_2 by (rewrite Hnone; apply is_Some_None).
  rewrite (bool_decide_eq_false_2 _ Hdir). cbn [orb].
  rewrite Hres.
  rewrite (ioutil_WriteFile_refused _ _ _ _ e) by now rewrite Hq.
  eexists. split; [reflexivity|]. cbn [files dirs trace record]. auto.
Qed.

(** Nothing is rolled back.  In a target directory that exists and holds
    nothing, when the manifest has been written and the system refuses to
    make the directory [src], generation returns that error with the
    manifest left in place as the one file; no directory has been made;
    and a second generation then returns [ErrBoilerplateExists], so the
    starter files are not written by running it again. *)
Theorem manifest_stays_after_failure (h h' : JavaLangHelper) (root : string)
    (elems : list string) (path v : string) (w w1 : World) (e : error) :
  root = "" \/ root = "/" -> elems <> [] -> Forall real_element elems ->
  path = plain root elems ->
  files w = ∅ -> dirs w = {[path]} ->
  fs_fault w (filepath_Join [path; "pom.xml"]) = None ->
  fs_fault w (filepath_Join [path; "src"]) = Some e ->
  GetLatestFDKVersion h w = Returned ((v, None, h'), w1) ->
  exists w',
    GenerateBoilerplate h path w = Returned ((Some e, h'), w')
    /\ files w' = {[filepath_Join [path; "pom.xml"]
                    := pomFileContent v (version h') (pomType h')]}
    /\ dirs w' = dirs w
    /\ GenerateBoilerplate h' path w' = Returned ((Some ErrBoilerplateExists, h'), w').
Proof.
  intros Hroot Helems Hreal Hpath Hfiles Hdirs Hfault Hsrc Hres.
  destruct (GetLatestFDKVersion_same_fs _ _ _ _ _ Hres) as (Hf1 & Hd1 & Hq1).
  destruct (starter_names root elems path Hroot Helems Hreal Hpath)
    as (Hne & Epom & Esrc & Edmain & _).
  clear Hpath Hreal Helems Hroot.
  assert (Hne' : forall a, path +:+ a <> "") by (intros a; destruct path; [contradiction|discriminate]).
  unfold GenerateBoilerplate at 1. unfold bind, exists_, mkDirAndWriteFile, bind.
  rewrite Edmain. rewrite Epom in *. rewrite Esrc in Hsrc.
  set (pom := path +:+ "/pom.xml") in *.
  assert (Ppom : parent_dir pom = Some path)
    by (apply (parent_dir_entry path "pom.xml"); [assumption|discriminate|reflexivity]).
  assert (Dpom : pom <> path) by (apply below_not_self; discriminate).
  rewrite Hfiles, Hdirs, lookup_empty.
  rewrite bool_decide_eq_false_2 by apply is_Some_None.
  rewrite bool_decide_eq_false_2 by (rewrite elem_of_singleton; exact Dpom).
  cbn [orb]. rewrite Hres.
  rewrite ioutil_WriteFile_stored;
    [|rewrite Hq1; exact Hfault
     |rewrite Hd1, Hdirs, elem_of_singleton; exact Dpom
     |unfold dir_there, is_dir; rewrite Ppom, Hd1, Hdirs;
      apply bool_decide_eq_true_2, elem_of_singleton; reflexivity].
  set (w2 := set_files _ _).
  set (w3 := record (MkdirAll (path +:+ "/src/main/java/com/example/fn") 493) w2).
  assert (Hno : forall a, a <> "" -> strings_HasPrefix a "/pom.xml" = false ->
                          is_dir w3 (path +:+ a) = false /\ is_file w3 (path +:+ a) = false).
  { intros a Ha Hp. unfold is_dir, is_file. cbn. rewrite Hd1, Hdirs, Hf1, Hfiles. split.
    - apply bool_decide_eq_false_2. rewrite elem_of_singleton. now apply below_not_self.
    - apply bool_decide_eq_false_2. rewrite lookup_insert_ne, lookup_empty.
      + apply is_Some_None.
      + apply not_eq_sym. now apply below_differs. }
  assert (Hup : forall a n, n <> "" -> occurs "/" n = false ->
                            parent_dir (path +:+ a +:+ String "/" n) = Some (path +:+ a)).
  { intros a n Hn Hs. rewrite <- append_assoc. apply parent_dir_entry; auto. }
  assert (Hblock : forall fuel,
             String.length (path +:+ "/src/main/java/com/example/fn") <= fuel ->
             MkdirAll_from fuel (path +:+ "/src/main/java/com/example/fn") w3 = (Some e, w3)).
  { apply (MkdirAll_from_blocked_below _ (path +:+ "/src/main/java/com/example"));
      [apply Hno; [discriminate|reflexivity]..
      |exact (Hup "/src/main/java/com/example" "fn" ltac:(discriminate) eq_refl)|].
    apply (MkdirAll_from_blocked_below _ (path +:+ "/src/main/java/com"));
      [apply Hno; [discriminate|reflexivity]..
      |exact (Hup "/src/main/java/com" "example" ltac:(discriminate) eq_refl)|].
    apply (MkdirAll_from_blocked_below _ (path +:+ "/src/main/java"));
      [apply Hno; [discriminate|reflexivity]..
      |exact (Hup "/src/main/java" "com" ltac:(discriminate) eq_refl)|].
    apply (MkdirAll_from_blocked_below _ (path +:+ "/src/main"));
      [apply Hno; [discriminate|reflexivity]..
      |exact (Hup "/src/main" "java" ltac:(discriminate) eq_refl)|].
    apply (MkdirAll_from_blocked_below _ (path +:+ "/src"));
      [apply Hno; [discriminate|reflexivity]..
      |exact (Hup "/src" "main" ltac:(discriminate) eq_refl)|].
    apply (MkdirAll_from_blocked _ path);
      [apply Hno; [discriminate|reflexivity]..
      |apply (parent_dir_entry path "src"); [assumption|discriminate|reflexivity]
      | |].
    - unfold is_dir. cbn. rewrite Hd1, Hdirs.
      apply bool_decide_eq_true_2, elem_of_singleton. reflexivity.
    - cbn. rewrite Hq1. exact Hsrc. }
  unfold os_MkdirAll. fold w3. rewrite Hblock by lia.
  eexists. split; [reflexivity|]. unfold w3, w2. cbn [files dirs set_files record].
  rewrite Hf1, Hd1, Hfiles, Hdirs. split; [reflexivity|]. split; [reflexivity|].
  rewrite <- Epom. apply GenerateBoilerplate_manifest_there.
  cbn [files dirs set_files record]. rewrite Epom. fold pom.
  rewrite lookup_insert_eq. eauto.
Qed.

End AfterGeneration.

Lemma GenerateBoilerplate_twice_witness :
  GenerateBoilerplate (xml := mini_xml)
    (set_pomType "maven" (set_latestFdkVersion "1.0.105" fresh_helper)) "proj"
    (world_after (GenerateBoilerplate (xml := mini_xml) fresh_helper "proj")
       (with_dir "proj" maven_world))
  = Returned ((Some ErrBoilerplateExists,
               set_pomType "maven" (set_latestFdkVersion "1.0.105" fresh_helper)),
              world_after (GenerateBoilerplate (xml := mini_xml) fresh_helper "proj")
                (with_dir "proj" maven_world)).
Proof.
  apply (GenerateBoilerplate_twice (xml := mini_xml) fresh_helper _ "proj"
           (with_dir "proj" maven_world)).
  vm_compute. reflexivity.
Defined.

Lemma PreBuild_after_GenerateBoilerplate_witness :
  PreBuild (cwd := in_directory "proj")
    (set_pomType "maven" (set_latestFdkVersion "1.0.105" fresh_helper))
    (world_after (GenerateBoilerplate (xml := mini_xml) fresh_helper "proj")
       (with_dir "proj" maven_world))
  = Returned (None,
              world_after (GenerateBoilerplate (xml := mini_xml) fresh_helper "proj")
                (with_dir "proj" maven_world)).
Proof.
  apply (PreBuild_after_GenerateBoilerplate (xml := mini_xml) (cwd := in_directory "proj")
           fresh_helper _ "proj" (with_dir "proj" maven_world)).
  - vm_compute. reflexivity.
  - reflexivity.
Defined.

Lemma failed_resolution_writes_nothing_witness :
  GenerateBoilerplate (xml := mini_xml) fresh_helper "proj" down_world
  = Returned ((Some fetchError, fresh_helper),
              record (HttpGet bintrayVersionURL true)
                (record (HttpGet mavenVersionUrl false) down_world))
  /\ files (record (HttpGet bintrayVersionURL true)
              (record (HttpGet mavenVersionUrl false) down_world)) = files down_world
  /\ dirs (record (HttpGet bintrayVersionURL true)
             (record (HttpGet mavenVersionUrl false) down_world)) = dirs down_world.
Proof.
  apply (failed_resolution_writes_nothing (xml := mini_xml) fresh_helper fresh_helper
           "proj" "" down_world).
  - reflexivity.
  - vm_compute. discriminate.
  - vm_compute. reflexivity.
Defined.

Lemma refused_manifest_stops_generation_witness :
  exists w',
    GenerateBoilerplate (xml := mini_xml) fresh_helper "proj" readonly_world
    = Returned ((Some (errorString "open proj/pom.xml: read-only file system"),
                 set_pomType "maven" (set_latestFdkVersion "1.0.105" fresh_helper)), w')
    /\ files w' = files readonly_world /\ dirs w' = dirs readonly_world
    /\ trace w' = trace (record (HttpGet mavenVersionUrl false) readonly_world)
                  ++ [WriteFile (filepath_Join ["proj"; "pom.xml"])
                        (pomFileContent "1.0.105"
                           (version (set_pomType "maven"
                                       (set_latestFdkVersion "1.0.105" fresh_helper)))
                           (pomType (set_pomType "maven"
                                       (set_latestFdkVersion "1.0.105" fresh_helper)))) 420].
Proof.
  apply (refused_manifest_stops_generation (xml := mini_xml) fresh_helper _ "proj" "1.0.105"
           readonly_world (record (HttpGet mavenVersionUrl false) readonly_world)).
  - reflexivity.
  - vm_compute. discriminate.
  - vm_compute. reflexivity.
  - vm_compute. reflexivity.
Defined.

Lemma manifest_stays_after_failure_witness :
  exists w',
    GenerateBoilerplate (xml := mini_xml) fresh_helper "proj" readonly_src_world
    = Returned ((Some (errorString "mkdir proj/src: permission denied"),
                 set_pomType "maven" (set_latestFdkVersion "1.0.105" fresh_helper)), w')
    /\ files w'
       = {[filepath_Join ["proj"; "pom.xml"]
           := pomFileContent "1.0.105"
                (version (set_pomType "maven" (set_latestFdkVersion "1.0.105" fresh_helper)))
                (pomType (set_pomType "maven" (set_latestFdkVersion "1.0.105" fresh_helper)))]}
    /\ dirs w' = dirs readonly_src_world
    /\ GenerateBoilerplate (xml := mini_xml)
         (set_pomType "maven" (set_latestFdkVersion "1.0.105" fresh_helper)) "proj" w'
       = Returned ((Some ErrBoilerplateExists,
                    set_pomType "maven" (set_latestFdkVersion "1.0.105" fresh_helper)), w').
Proof.
  apply (manifest_stays_after_failure (xml := mini_xml) fresh_helper _ "" ["proj"] "proj"
           "1.0.105" readonly_src_world
           (record (HttpGet mavenVersionUrl false) readonly_src_world)).
  - now left.
  - discriminate.
  - repeat constructor; discriminate.
  - reflexivity.
  - reflexivity.
  - reflexivity.
  - vm_compute. reflexivity.
  - vm_compute. reflexivity.
  - vm_compute. reflexivity.
Defined.

(** ** The manifest and the build options, in full *)

Section ManifestText.

Context {xml : XmlDecoder}.

Lemma Sprintf_three (a b c d x y z : string) :
  occurs "%" a = false -> occurs "%" b = false ->
  occurs "%" c = false -> occurs "%" d = false ->
  fmt_Sprintf (a +:+ "%s" +:+ b +:+ "%s" +:+ c +:+ "%s" +:+ d) [OString x; OString y; OString z]
  = a +:+ x +:+ b +:+ y +:+ c +:+ z +:+ d.
Proof.
  intros Ha Hb Hc Hd.
  rewrite (Sprintf_literal _ _ _ Ha), Sprintf_s.
  rewrite (Sprintf_literal _ _ _ Hb), Sprintf_s.
  rewrite (Sprintf_literal _ _ _ Hc), Sprintf_s.
  rewrite <- (append_empty_r d) at 1. rewrite (Sprintf_literal _ _ _ Hd).
  cbn [fmt_Sprintf extra]. now rewrite append_empty_r.
Qed.

Lemma template_holes (template : string) :
  template = mavenPomFile \/ template = bintrayPomFile ->
  exists head middle gap tail,
    template = (head +:+ fdk_open) +:+ "%s" +:+ (fdk_close +:+ middle +:+ "<source>")
               +:+ "%s" +:+ ("</source>" +:+ gap +:+ "<target>") +:+ "%s"
               +:+ ("</target>" +:+ tail)
    /\ occurs "%" (head +:+ fdk_open) = false
    /\ occurs "%" (fdk_close +:+ middle +:+ "<source>") = false
    /\ occurs "%" ("</source>" +:+ gap +:+ "<target>") = false
    /\ occurs "%" ("</target>" +:+ tail) = false
    /\ strings_Contains (head +:+ middle +:+ gap +:+ tail) bintray_repository
       = negb (String.eqb template mavenPomFile).
Proof.
  intros [-> | ->].
  - exists (template_parts mavenPomFile).1.1.1, (template_parts mavenPomFile).1.1.2,
      (template_parts mavenPomFile).1.2, (template_parts mavenPomFile).2.
    repeat split; vm_compute; reflexivity.
  - exists (template_parts bintrayPomFile).1.1.1, (template_parts bintrayPomFile).1.1.2,
      (template_parts bintrayPomFile).1.2, (template_parts bintrayPomFile).2.
    repeat split; vm_compute; reflexivity.
Qed.

(** Every manifest is a fixed text with three holes: the FDK version goes
    into [fdk.version], the helper's Java version into the compiler's
    [source] and [target].  The registry tag decides the fixed text and
    nothing else: it declares the Bintray repository unless the tag is
    "maven". *)
Theorem manifest_has_three_holes (pt : string) :
  exists head middle gap tail,
    (forall v jv,
        pomFileContent v jv pt
        = head +:+ fdk_open +:+ v +:+ fdk_close +:+ middle
          +:+ "<source>" +:+ jv +:+ "</source>" +:+ gap
          +:+ "<target>" +:+ jv +:+ "</target>" +:+ tail)
    /\ strings_Contains (head +:+ middle +:+ gap +:+ tail) bintray_repository
       = negb (String.eqb pt "maven").
Proof.
  unfold pomFileContent. destruct (String.eqb pt "maven").
  - destruct (template_holes mavenPomFile (or_introl eq_refl))
      as (hd & md & gp & tl & Ht & H1 & H2 & H3 & H4 & Hrepo).
    exists hd, md, gp, tl. split.
    + intros v jv. rewrite Ht at 1. rewrite (Sprintf_three _ _ _ _ _ _ _ H1 H2 H3 H4).
      now rewrite !append_assoc.
    + rewrite Hrepo. now rewrite String.eqb_refl.
  - destruct (template_holes bintrayPomFile (or_intror eq_refl))
      as (hd & md & gp & tl & Ht & H1 & H2 & H3 & H4 & Hrepo).
    exists hd, md, gp, tl. split.
    + intros v jv. rewrite Ht at 1. rewrite (Sprintf_three _ _ _ _ _ _ _ H1 H2 H3 H4).
      now rewrite !append_assoc.
    + rewrite Hrepo. vm_compute. reflexivity.
Qed.

Lemma ioutil_WriteFile_requests (filename data : string) (perm : Z) (w w' : World)
    (e : option error) (url : string) (insecure : bool) :
  ioutil_WriteFile filename data perm w = Returned (e, w') ->
  HttpGet url insecure ∈ trace w' -> HttpGet url insecure ∈ trace w.
Proof.
  intros H.
  destruct (ioutil_WriteFile_frame filename data perm w) as (e0 & w0 & H0 & _ & _ & Ht & _).
  rewrite H0 in H. simplify_eq.
  rewrite Ht, elem_of_app, list_elem_of_singleton. intros [Hin|Hin]; [assumption|discriminate].
Qed.

Lemma os_MkdirAll_requests (path : string) (perm : Z) (w w' : World)
    (e : option error) (url : string) (insecure : bool) :
  os_MkdirAll path perm w = Returned (e, w') ->
  HttpGet url insecure ∈ trace w' -> HttpGet url insecure ∈ trace w.
Proof.
  intros H.
  destruct (os_MkdirAll_frame path perm w) as (e0 & w0 & H0 & _ & _ & Ht & _).
  rewrite H0 in H. simplify_eq.
  rewrite Ht, elem_of_app, list_elem_of_singleton. intros [Hin|Hin]; [assumption|discriminate].
Qed.

Lemma mkDirAndWriteFile_requests (path dir filename content : string) (w w' : World)
    (e : option error) (url : string) (insecure : bool) :
  mkDirAndWriteFile path dir filename content w = Returned (e, w') ->
  HttpGet url insecure ∈ trace w' -> HttpGet url insecure ∈ trace w.
Proof.
  unfold mkDirAndWriteFile, bind, ret. intros H Hin.
  destruct (os_MkdirAll (filepath_Join [path; dir]) 493 w) as [[e1 w1]|] eqn:E1;
    [|discriminate].
  destruct e1 as [e1|].
  - simplify_eq. eapply os_MkdirAll_requests; eassumption.
  - eapply os_MkdirAll_requests; [exact E1|].
    eapply ioutil_WriteFile_requests; eassumption.
Qed.

(** The requests of a generation are those of its resolution. *)
Lemma GenerateBoilerplate_requests (h h1 h' : JavaLangHelper) (path v : string)
    (w w1 w' : World) (err : option error) (url : string) (insecure : bool) :
  files w !! filepath_Join [path; "pom.xml"] = None ->
  filepath_Join [path; "pom.xml"] ∉ dirs w ->
  GetLatestFDKVersion h w = Returned ((v, None, h1), w1) ->
  GenerateBoilerplate h path w = Returned ((err, h'), w') ->
  HttpGet url insecure ∈ trace w' -> HttpGet url insecure ∈ trace w1.
Proof.
  intros Hnone Hdir Hres. unfold GenerateBoilerplate, bind, exists_, ret.
  rewrite bool_decide_eq_false_2 by (rewrite Hnone; apply is_Some_None).
  rewrite (bool_decide_eq_false_2 _ Hdir). cbn [orb]. rewrite Hres.
  intros H Hin.
  destruct (ioutil_WriteFile _ _ _ w1) as [[e2 w2]|] eqn:E2; [|discriminate].
  destruct e2 as [e2|].
  { simplify_eq. eapply ioutil_WriteFile_requests; eassumption. }
  destruct (mkDirAndWriteFile path _ _ _ w2) as [[e3 w3]|] eqn:E3; [|discriminate].
  destruct e3 as [e3|].
  { simplify_eq. eapply ioutil_WriteFile_requests; [exact E2|].
    eapply mkDirAndWriteFile_requests; eassumption. }
  destruct (mkDirAndWriteFile path _ _ _ w3) as [[e4 w4]|] eqn:E4; [|discriminate].
  simplify_eq. eapply ioutil_WriteFile_requests; [exact E2|].
  eapply mkDirAndWriteFile_requests; [exact E3|].
  eapply mkDirAndWriteFile_requests; eassumption.
Qed.

(** A version taken from the override carries no registry tag.  A helper
    that has resolved nothing before, generating with the override set in
    a directory that exists, writes the manifest of a version from
    Bintray, and makes no request. *)
Theorem override_manifest_is_bintray (h : JavaLangHelper) (path V : string) (w : World) :
  latestFdkVersion h = "" -> pomType h <> "maven" ->
  environ w !! versionEnv = Some V -> V <> "" ->
  files w !! filepath_Join [path; "pom.xml"] = None ->
  filepath_Join [path; "pom.xml"] ∉ dirs w ->
  dir_there w (filepath_Join [path; "pom.xml"]) = true ->
  fs_fault w (filepath_Join [path; "pom.xml"]) = None ->
  exists err w',
    GenerateBoilerplate h path w = Returned ((err, h), w')
    /\ files w' !! filepath_Join [path; "pom.xml"]
       = Some (fmt_Sprintf bintrayPomFile [OString V; OString (version h); OString (version h)])
    /\ forall url insecure, HttpGet url insecure ∈ trace w' -> HttpGet url insecure ∈ trace w.
Proof.
  intros Hc Hpt Hv Hne Hnone Hdir Hthere Hfault.
  pose proof (GetLatestFDKVersion_env h w V Hc Hv Hne) as Hres.
  destruct (GenerateBoilerplate_manifest h h path V w w Hnone Hdir Hthere Hfault Hres)
    as (err & w' & Hgen & Hfile).
  exists err, w'. split; [exact Hgen|]. split.
  - rewrite Hfile. unfold pomFileContent.
    destruct (String.eqb (pomType h) "maven") eqn:E; [|reflexivity].
    apply String.eqb_eq in E. contradiction.
  - intros url insecure. eapply GenerateBoilerplate_requests; eassumption.
Qed.

End ManifestText.

Lemma override_manifest_is_bintray_witness :
  exists err w',
    GenerateBoilerplate (xml := mini_xml) fresh_helper "proj" (with_dir "proj" override_world)
    = Returned ((err, fresh_helper), w')
    /\ files w' !! filepath_Join ["proj"; "pom.xml"]
       = Some (fmt_Sprintf bintrayPomFile
                 [OString "2.0.0"; OString (version fresh_helper);
                  OString (version fresh_helper)])
    /\ forall url insecure,
         HttpGet url insecure ∈ trace w'
         -> HttpGet url insecure ∈ trace (with_dir "proj" override_world).
Proof.
  apply (override_manifest_is_bintray (xml := mini_xml) fresh_helper "proj" "2.0.0"
           (with_dir "proj" override_world)).
  - reflexivity.
  - discriminate.
  - vm_compute. reflexivity.
  - discriminate.
  - reflexivity.
  - vm_compute. discriminate.
  - vm_compute. reflexivity.
  - reflexivity.
Defined.

Section MoreBuildStage.

(** Without proxy settings the options still name a proxy: host and port
    are set to the empty string for both schemes, because the empty string
    parses as a URL. *)
Theorem mavenOpts_without_proxies (w : World) :
  getenv w "http_proxy" = "" -> getenv w "https_proxy" = "" -> getenv w "no_proxy" = "" ->
  mavenOpts w
  = Returned ("-Dhttp.proxyHost= -Dhttp.proxyPort= "
              +:+ "-Dhttps.proxyHost= -Dhttps.proxyPort= "
              +:+ "-Dhttp.nonProxyHosts= "
              +:+ "-Dmaven.repo.local=/usr/share/maven/ref/repository", w).
Proof.
  intros H1 H2 H3. rewrite mavenOpts_value, H1, H2, H3. reflexivity.
Qed.

(** The runtime is "java" whatever the Java version, and reading it never
    runs past the end of the names; the second name is "java" followed by
    the version, so two helpers go by the same names exactly when they are
    for the same Java version. *)
Theorem LangStrings_names (h h2 : JavaLangHelper) :
  LangStrings h = ["java"; "java" +:+ version h]
  /\ Runtime h = Returned "java"
  /\ (LangStrings h = LangStrings h2 <-> version h = version h2).
Proof.
  assert (HL : forall x, LangStrings x = ["java"; "java" +:+ version x]).
  { intros x. unfold LangStrings.
    pose proof (image_name "java" "" (version x) eq_refl) as E.
    change (fmt_Sprintf "java%s" [OString (version x)] = "java" +:+ "" +:+ version x) in E.
    now rewrite E, append_nil. }
  split; [apply HL|]. split.
  - unfold Runtime. now rewrite HL.
  - rewrite !HL. split.
    + intros H. injection H as H. now rewrite !append_nil in H.
    + now intros ->.
Qed.

End MoreBuildStage.

Lemma mavenOpts_without_proxies_witness :
  mavenOpts offline_world
  = Returned ("-Dhttp.proxyHost= -Dhttp.proxyPort= "
              +:+ "-Dhttps.proxyHost= -Dhttps.proxyPort= "
              +:+ "-Dhttp.nonProxyHosts= "
              +:+ "-Dmaven.repo.local=/usr/share/maven/ref/repository", offline_world).
Proof. apply (mavenOpts_without_proxies offline_world); reflexivity. Defined.

(** ** The order of the calls *)

Section CallOrder.

Context {xml : XmlDecoder}.

Lemma ioutil_WriteFile_trace (filename data : string) (perm : Z) (w w' : World)
    (e : option error) :
  ioutil_WriteFile filename data perm w = Returned (e, w') ->
  trace w' = trace w ++ [WriteFile filename data perm].
Proof.
  intros H.
  destruct (ioutil_WriteFile_frame filename data perm w) as (e0 & w0 & H0 & _ & _ & Ht & _).
  rewrite H0 in H. now simplify_eq.
Qed.

Lemma os_MkdirAll_trace (path : string) (perm : Z) (w w' : World) (e : option error) :
  os_MkdirAll path perm w = Returned (e, w') ->
  trace w' = trace w ++ [MkdirAll path perm].
Proof.
  intros H.
  destruct (os_MkdirAll_frame path perm w) as (e0 & w0 & H0 & _ & _ & Ht & _).
  rewrite H0 in H. now simplify_eq.
Qed.

Lemma mkDirAndWriteFile_trace (path dir filename content : string) (w w' : World) :
  mkDirAndWriteFile path dir filename content w = Returned (None, w') ->
  trace w' = trace w ++ [MkdirAll (filepath_Join [path; dir]) 493;
                         WriteFile (filepath_Join [filepath_Join [path; dir]; filename])
                           content 420].
Proof.
  unfold mkDirAndWriteFile, bind, ret. intros H.
  destruct (os_MkdirAll (filepath_Join [path; dir]) 493 w) as [[e1 w1]|] eqn:E1;
    [|discriminate].
  apply os_MkdirAll_trace in E1.
  destruct e1 as [e1|]; [discriminate|].
  apply ioutil_WriteFile_trace in H. rewrite H, E1. now rewrite <- app_assoc.
Qed.

(** A generation that returned no error has resolved the version and then
    made five calls to the file system, in this order: the manifest, the
    directory of the starter function and the function, the directory of
    the test and the test; directories with mode 0755 (493), files with
    mode 0644 (420). *)
Theorem GenerateBoilerplate_call_order (h h' : JavaLangHelper) (path : string)
    (w w' : World) :
  GenerateBoilerplate h path w = Returned ((None, h'), w') ->
  exists v w1,
    GetLatestFDKVersion h w = Returned ((v, None, h'), w1)
    /\ trace w'
       = trace w1
         ++ [WriteFile (filepath_Join [path; "pom.xml"])
               (pomFileContent v (version h') (pomType h')) 420;
             MkdirAll (filepath_Join [path; "src/main/java/com/example/fn"]) 493;
             WriteFile (filepath_Join [filepath_Join [path; "src/main/java/com/example/fn"];
                                       "HelloFunction.java"]) helloJavaSrcBoilerplate 420;
             MkdirAll (filepath_Join [path; "src/test/java/com/example/fn"]) 493;
             WriteFile (filepath_Join [filepath_Join [path; "src/test/java/com/example/fn"];
                                       "HelloFunctionTest.java"]) helloJavaTestBoilerplate 420].
Proof.
  unfold GenerateBoilerplate, bind, ret, exists_. intros H.
  destruct (bool_decide (is_Some (files w !! filepath_Join [path; "pom.xml"]))
            || bool_decide (filepath_Join [path; "pom.xml"] ∈ dirs w)); [discriminate|].
  destruct (GetLatestFDKVersion h w) as [[[[v err] h1] w1]|]; [|discriminate].
  destruct err as [e|]; [discriminate|].
  destruct (ioutil_WriteFile _ _ _ w1) as [[e2 w2]|] eqn:E2; [|discriminate].
  destruct e2 as [e2|]; [discriminate|].
  apply ioutil_WriteFile_trace in E2.
  destruct (mkDirAndWriteFile path _ _ _ w2) as [[e3 w3]|] eqn:E3; [|discriminate].
  destruct e3 as [e3|]; [discriminate|].
  apply mkDirAndWriteFile_trace in E3.
  destruct (mkDirAndWriteFile path _ _ _ w3) as [[e4 w4]|] eqn:E4; [|discriminate].
  simplify_eq. apply mkDirAndWriteFile_trace in E4.
  exists v, w1. split; [reflexivity|].
  rewrite E4, E3, E2. now rewrite <- !app_assoc.
Qed.

(** A version that comes out empty came from a registry, and it is not
    kept: at least one request was sent for it, and the helper has no
    version cached afterwards, so the next call asks again. *)
Theorem empty_version_is_not_cached (h h' : JavaLangHelper) (w w' : World) :
  GetLatestFDKVersion h w = Returned (("", None, h'), w') ->
  latestFdkVersion h' = ""
  /\ exists requests,
       trace w' = trace w ++ HttpGet mavenVersionUrl false :: requests.
Proof.
  intros H.
  destruct (GetLatestFDKVersion_cases _ _ _ _ _ _ H)
    as [(Hc & Hv & _)|[(_ & He & Hv & _)|(Hc & He & r & Hg & Hr)]];
    [congruence..|].
  destruct (getFDKLatestFromURL_outcome _ _ _ _ _ Hg)
    as [[-> [v0 ->]]|[-> [[v0 ->]|[err ->]]]].
  - destruct Hr as (<- & _ & ->). split; [reflexivity|]. now exists [].
  - destruct Hr as (<- & _ & ->). split; [reflexivity|].
    exists [HttpGet bintrayVersionURL true]. cbn. now rewrite <- app_assoc.
  - destruct err as [e|]; [destruct Hr as (_ & Hr & _); discriminate|].
    destruct Hr as (_ & _ & ->). split; [reflexivity|].
    exists [HttpGet bintrayVersionURL true]. cbn. now rewrite <- app_assoc.
Qed.

End CallOrder.

Lemma GenerateBoilerplate_call_order_witness :
  exists v w1,
    GetLatestFDKVersion (xml := mini_xml) fresh_helper (with_dir "proj" maven_world)
    = Returned ((v, None, set_pomType "maven" (set_latestFdkVersion "1.0.105" fresh_helper)), w1)
    /\ trace (world_after (GenerateBoilerplate (xml := mini_xml) fresh_helper "proj")
                (with_dir "proj" maven_world))
       = trace w1
         ++ [WriteFile (filepath_Join ["proj"; "pom.xml"])
               (pomFileContent v
                  (version (set_pomType "maven" (set_latestFdkVersion "1.0.105" fresh_helper)))
                  (pomType (set_pomType "maven" (set_latestFdkVersion "1.0.105" fresh_helper))))
               420;
             MkdirAll (filepath_Join ["proj"; "src/main/java/com/example/fn"]) 493;
             WriteFile (filepath_Join [filepath_Join ["proj"; "src/main/java/com/example/fn"];
                                       "HelloFunction.java"]) helloJavaSrcBoilerplate 420;
             MkdirAll (filepath_Join ["proj"; "src/test/java/com/example/fn"]) 493;
             WriteFile (filepath_Join [filepath_Join ["proj"; "src/test/java/com/example/fn"];
                                       "HelloFunctionTest.java"]) helloJavaTestBoilerplate 420].
Proof.
  apply (GenerateBoilerplate_call_order (xml := mini_xml) fresh_helper _ "proj"
           (with_dir "proj" maven_world)).
  vm_compute. reflexivity.
Defined.

Lemma empty_version_is_not_cached_witness :
  latestFdkVersion fresh_helper = ""
  /\ exists requests,
       trace (record (HttpGet bintrayVersionURL true)
                (record (HttpGet mavenVersionUrl false) garbage_world))
       = trace garbage_world ++ HttpGet mavenVersionUrl false :: requests.
Proof.
  apply (empty_version_is_not_cached (xml := mini_xml) fresh_helper fresh_helper
           garbage_world).
  vm_compute. reflexivity.
Defined.

(** ** The application client *)

Section ApplicationClient.

Import Adapter.

Lemma convert_from_returns (ociApps : list ApplicationSummary) (resApps apps : list App) :
  convert_from resApps ociApps = Returned apps
  <-> exists new,
        apps = resApps ++ new
        /\ Forall2 (fun s a => DisplayName s = Some (Name a) /\ Id s = Some (ID a)) ociApps new.
Proof.
  revert resApps apps.
  induction ociApps as [|s l IH]; intros resApps apps; cbn [convert_from].
  - split.
    + intros H. simplify_eq. exists []. split; [now rewrite app_nil_r|constructor].
    + intros (new & -> & H). inversion H. now rewrite app_nil_r.
  - destruct (DisplayName s) as [name|] eqn:En; [destruct (Id s) as [id|] eqn:Ei|].
    + rewrite IH. split.
      * intros (new & -> & H). exists ({| Name := name; ID := id |} :: new).
        split; [now rewrite <- app_assoc|]. constructor; [cbn; split; assumption|exact H].
      * intros (new & -> & H). inversion H as [|s' a l' new' [Hn Hi] Hrest]; subst.
        exists new'. split; [|exact Hrest].
        rewrite <- app_assoc. destruct a as [an ai]. cbn in Hn, Hi. now simplify_eq.
    + split; [discriminate|].
      intros (new & _ & H). inversion H as [|s' a l' new' [Hn Hi] Hrest]; subst.
      rewrite Ei in Hi. discriminate.
    + split; [destruct (Id s); discriminate|].
      intros (new & _ & H). inversion H as [|s' a l' new' [Hn Hi] Hrest]; subst.
      rewrite En in Hn. discriminate.
Qed.

Lemma convert_from_panics (ociApps : list ApplicationSummary) (resApps : list App) :
  (exists reason, convert_from resApps ociApps = Panicked reason)
  <-> Exists (fun s => DisplayName s = None \/ Id s = None) ociApps.
Proof.
  revert resApps. induction ociApps as [|s l IH]; intros resApps; cbn [convert_from].
  - split; [intros [r H]; discriminate|intros H; inversion H].
  - destruct (DisplayName s) as [name|] eqn:En; [destruct (Id s) as [id|] eqn:Ei|].
    + rewrite IH. split; [intros H; now apply Exists_cons_tl|].
      intros H. inversion H as [s' l' [Hs|Hs]|]; subst; [congruence..|assumption].
    + split; [intros _; apply Exists_cons_hd; now right|intros _; eauto].
    + split; [intros _; apply Exists_cons_hd; now left|].
      intros _. destruct (Id s); eauto.
Qed.

Lemma convert_length (ociApps : list ApplicationSummary) (apps : list App) :
  convertOCIAppsToAdapterApps ociApps = Returned apps -> length ociApps = length apps.
Proof.
  intros H. apply convert_from_returns in H as (new & -> & H).
  apply Forall2_length in H. exact H.
Qed.

(** The conversion gives one application for each summary, in the order of
    the summaries, with the summary's display name and identifier; it
    panics exactly when a summary lacks one of the two. *)
Theorem convertOCIAppsToAdapterApps_spec (ociApps : list ApplicationSummary) :
  (forall apps,
      convertOCIAppsToAdapterApps ociApps = Returned apps
      <-> Forall2 (fun s a => DisplayName s = Some (Name a) /\ Id s = Some (ID a))
            ociApps apps)
  /\ ((exists reason, convertOCIAppsToAdapterApps ociApps = Panicked reason)
      <-> Exists (fun s => DisplayName s = None \/ Id s = None) ociApps).
Proof.
  split; [|apply convert_from_panics].
  intros apps. unfold convertOCIAppsToAdapterApps. rewrite convert_from_returns. split.
  - intros (new & -> & H). exact H.
  - intros H. exists apps. split; [reflexivity|exact H].
Qed.

Lemma int64_small (z : Z) : (- 2 ^ 63 <= z < 2 ^ 63)%Z -> int64 z = z.
Proof.
  intros H. unfold int64.
  change (2 ^ 63)%Z with 9223372036854775808%Z in *.
  change (2 ^ 64)%Z with 18446744073709551616%Z.
  rewrite Z.mod_small; lia.
Qed.

(** What the loop compares with zero, when nothing wraps. *)
Lemma howManyMore_small (n : Z) (total page : nat) :
  (- 2 ^ 62 <= n < 2 ^ 62)%Z ->
  (Z.of_nat total <= Z.max 0 n + Z.of_nat page)%Z ->
  (Z.of_nat page < 2 ^ 61)%Z ->
  int64 (n - int64 (Z.of_nat (total + page))) = (n - Z.of_nat total - Z.of_nat page)%Z.
Proof.
  intros Hn Ht Hp.
  change (2 ^ 62)%Z with 4611686018427387904%Z in *.
  change (2 ^ 61)%Z with 2305843009213693952%Z in *.
  rewrite (int64_small (Z.of_nat (total + page)));
    [rewrite int64_small|];
    change (2 ^ 63)%Z with 9223372036854775808%Z; lia.
Qed.

(** The page just fetched is counted twice.  Asked for [n] applications,
    the client stops after the first page as soon as that page holds half
    of [n], whether or not the service has more: one request, the whole
    page returned, and the note on the standard error stream when the page
    is empty. *)
Theorem ListApp_counts_page_twice (fuel : nat) (client : Service) (compartmentId : string)
    (n : Z) (resp : ListApplicationsResponse) (apps : list App) :
  client [] {| CompartmentId := Some compartmentId; Page := None |} = (resp, None) ->
  convertOCIAppsToAdapterApps (Items resp) = Returned apps ->
  (Z.of_nat (length apps) < 2 ^ 61)%Z ->
  (- 2 ^ 62 <= n <= 2 * Z.of_nat (length apps))%Z ->
  ListApp (S fuel) client compartmentId n
  = Some {| outcome := Returned (apps, None);
            stderr := if length apps =? 0 then "No apps found
" else "";
            sent := [{| CompartmentId := Some compartmentId; Page := None |}] |}.
Proof.
  intros Hc Hconv Hlen Hn.
  pose proof (convert_length _ _ Hconv) as Hl.
  unfold ListApp. cbn [ListApp_loop]. rewrite Hc, Hconv. cbn [app].
  rewrite Hl, howManyMore_small;
    [|change (2 ^ 62)%Z with 4611686018427387904%Z in *;
      change (2 ^ 61)%Z with 2305843009213693952%Z in *; lia..].
  replace (n - Z.of_nat (length apps) - Z.of_nat (length apps) <=? 0)%Z with true
    by (symmetry; apply Z.leb_le; lia).
  cbn [orb]. destruct apps as [|a apps']; reflexivity.
Qed.

(** All or nothing.  When a later page cannot be had, the applications of
    the pages before it are dropped: the client returns the error and no
    application.  The second request is the first with the page token the
    service gave. *)
Theorem ListApp_error_drops_pages (fuel : nat) (client : Service) (compartmentId : string)
    (n : Z) (resp resp2 : ListApplicationsResponse) (apps : list App) (token : string)
    (e : error) :
  client [] {| CompartmentId := Some compartmentId; Page := None |} = (resp, None) ->
  convertOCIAppsToAdapterApps (Items resp) = Returned apps ->
  OpcNextPage resp = Some token ->
  (Z.of_nat (length apps) < 2 ^ 61)%Z ->
  (2 * Z.of_nat (length apps) < n < 2 ^ 62)%Z ->
  client [{| CompartmentId := Some compartmentId; Page := None |}]
    {| CompartmentId := Some compartmentId; Page := Some token |} = (resp2, Some e) ->
  ListApp (S (S fuel)) client compartmentId n
  = Some {| outcome := Returned ([], Some e);
            stderr := "";
            sent := [{| CompartmentId := Some compartmentId; Page := None |};
                     {| CompartmentId := Some compartmentId; Page := Some token |}] |}.
Proof.
  intros Hc Hconv Hnext Hlen Hn Hc2.
  pose proof (convert_length _ _ Hconv) as Hl.
  unfold ListApp. cbn [ListApp_loop]. rewrite Hc, Hconv. cbn [app].
  rewrite Hl, howManyMore_small;
    [|change (2 ^ 62)%Z with 4611686018427387904%Z in *;
      change (2 ^ 61)%Z with 2305843009213693952%Z in *; lia..].
  replace (n - Z.of_nat (length apps) - Z.of_nat (length apps) <=? 0)%Z with false
    by (symmetry; apply Z.leb_gt; lia).
  rewrite Hnext. cbn [orb bool_decide CompartmentId]. 
  rewrite bool_decide_eq_false_2 by discriminate.
  rewrite Hc2. reflexivity.
Qed.

Lemma ListApp_loop_more_fuel (client : Service) (n : Z) (fuel fuel' : nat)
    (history : list ListApplicationsRequest) (req : ListApplicationsRequest)
    (resApps : list App) (r : Result (list App + error) * list ListApplicationsRequest) :
  ListApp_loop fuel client n history req resApps = Some r ->
  fuel <= fuel' ->
  ListApp_loop fuel' client n history req resApps = Some r.
Proof.
  revert fuel' history req resApps.
  induction fuel as [|fuel IH]; intros fuel' history req resApps H Hle; [discriminate|].
  destruct fuel' as [|fuel']; [lia|].
  cbn [ListApp_loop] in *.
  destruct (client history req) as [resp [e|]]; [exact H|].
  destruct (convertOCIAppsToAdapterApps (Items resp)) as [adapterApps|reason]; [|exact H].
  destruct (_ || _); [exact H|].
  apply IH; [exact H|lia].
Qed.

(** The loop ends within [fuel] requests when [fuel] is above the
    applications still asked for. *)
Lemma ListApp_loop_ends (client : Service) (n : Z) :
  (- 2 ^ 62 <= n < 2 ^ 62)%Z ->
  (forall history req resp,
      client history req = (resp, None) ->
      (Z.of_nat (length (Items resp)) < 2 ^ 61)%Z
      /\ (OpcNextPage resp <> None -> Items resp <> [])) ->
  forall fuel history req resApps,
    (Z.of_nat (length resApps) <= Z.max 0 n)%Z ->
    Z.to_nat (n - Z.of_nat (length resApps)) < fuel ->
    is_Some (ListApp_loop fuel client n history req resApps).
Proof.
  intros Hn Hpages. induction fuel as [|fuel IH]; intros history req resApps Hc Hf; [lia|].
  cbn [ListApp_loop].
  destruct (client history req) as [resp [e|]] eqn:Hresp; [eauto|].
  destruct (Hpages _ _ _ Hresp) as [Hsize Hnonempty].
  destruct (convertOCIAppsToAdapterApps (Items resp)) as [adapterApps|reason] eqn:Hconv;
    [|eauto].
  pose proof (convert_length _ _ Hconv) as Hl.
  rewrite Hl, length_app, howManyMore_small;
    [|change (2 ^ 62)%Z with 4611686018427387904%Z in *;
      change (2 ^ 61)%Z with 2305843009213693952%Z in *; lia..].
  destruct (n - Z.of_nat (length resApps + length adapterApps)
            - Z.of_nat (length adapterApps) <=? 0)%Z eqn:Hmore; [eauto|].
  destruct (bool_decide (OpcNextPage resp = None)) eqn:Hnext; [eauto|].
  cbn [orb]. apply Z.leb_gt in Hmore. apply bool_decide_eq_false_1 in Hnext.
  specialize (Hnonempty Hnext).
  assert (length adapterApps <> 0)
    by (rewrite <- Hl; destruct (Items resp); [contradiction|discriminate]).
  apply IH; rewrite length_app; lia.
Qed.

(** The listing ends.  When every page that announces a successor holds at
    least one application, a budget of more than [n] requests is enough
    for the loop to end, and every such budget gives the same run. *)
Theorem ListApp_terminates (client : Service) (compartmentId : string) (n : Z) :
  (- 2 ^ 62 <= n < 2 ^ 62)%Z ->
  (forall history req resp,
      client history req = (resp, None) ->
      (Z.of_nat (length (Items resp)) < 2 ^ 61)%Z
      /\ (OpcNextPage resp <> None -> Items resp <> [])) ->
  exists run,
    forall fuel, Z.to_nat n < fuel -> ListApp fuel client compartmentId n = Some run.
Proof.
  intros Hn Hpages.
  destruct (ListApp_loop_ends client n Hn Hpages (S (Z.to_nat n)) []
              {| CompartmentId := Some compartmentId; Page := None |} [])
    as [r Hr]; [cbn; lia|cbn; lia|].
  destruct (ListApp (S (Z.to_nat n)) client compartmentId n) as [run|] eqn:Hrun.
  - exists run. intros fuel Hfuel. revert Hrun. unfold ListApp.
    rewrite Hr, (ListApp_loop_more_fuel _ _ _ fuel _ _ _ _ Hr) by lia. auto.
  - exfalso. revert Hrun. unfold ListApp. rewrite Hr.
    destruct r as [[[resApps|e]|reason] history]; [|discriminate..].
    destruct (length resApps =? 0); discriminate.
Qed.

End ApplicationClient.

Lemma ListApp_counts_page_twice_witness :
  Adapter.ListApp 5 Adapter.two_pages "ocid1.compartment" 3
  = Some {| Adapter.outcome :=
              Returned ([{| Adapter.Name := "app-a"; Adapter.ID := "ocid1.a" |};
                         {| Adapter.Name := "app-b"; Adapter.ID := "ocid1.b" |}], None);
            Adapter.stderr := if length [{| Adapter.Name := "app-a"; Adapter.ID := "ocid1.a" |};
                                         {| Adapter.Name := "app-b"; Adapter.ID := "ocid1.b" |}]
                                 =? 0
                              then "No apps found
" else "";
            Adapter.sent := [{| Adapter.CompartmentId := Some "ocid1.compartment";
                                Adapter.Page := None |}] |}.
Proof.
  apply (ListApp_counts_page_twice 4 Adapter.two_pages "ocid1.compartment" 3
           {| Adapter.Items := [Adapter.summary "app-a" "ocid1.a";
                                Adapter.summary "app-b" "ocid1.b"];
              Adapter.OpcNextPage := Some "page-2" |}).
  - reflexivity.
  - reflexivity.
  - vm_compute. reflexivity.
  - vm_compute. split; discriminate.
Defined.

Lemma ListApp_error_drops_pages_witness :
  Adapter.ListApp 2 Adapter.broken_second_page "ocid1.compartment" 10
  = Some {| Adapter.outcome := Returned ([], Some (errorString "Service error:InternalError"));
            Adapter.stderr := "";
            Adapter.sent := [{| Adapter.CompartmentId := Some "ocid1.compartment";
                                Adapter.Page := None |};
                             {| Adapter.CompartmentId := Some "ocid1.compartment";
                                Adapter.Page := Some "page-2" |}] |}.
Proof.
  apply (ListApp_error_drops_pages 0 Adapter.broken_second_page "ocid1.compartment" 10
           {| Adapter.Items := [Adapter.summary "app-a" "ocid1.a"];
              Adapter.OpcNextPage := Some "page-2" |}
           {| Adapter.Items := []; Adapter.OpcNextPage := None |}
           [{| Adapter.Name := "app-a"; Adapter.ID := "ocid1.a" |}] "page-2"
           (errorString "Service error:InternalError")).
  - reflexivity.
  - reflexivity.
  - reflexivity.
  - vm_compute. reflexivity.
  - vm_compute. split; reflexivity.
  - reflexivity.
Defined.

Lemma ListApp_terminates_witness :
  exists run,
    forall fuel, Z.to_nat 10 < fuel
                 -> Adapter.ListApp fuel Adapter.two_pages "ocid1.compartment" 10 = Some run.
Proof.
  apply (ListApp_terminates Adapter.two_pages "ocid1.compartment" 10).
  - vm_compute. split; [discriminate|reflexivity].
  - intros history req resp. unfold Adapter.two_pages.
    destruct (Adapter.Page req); intros H; injection H as <-; cbn;
      (split; [reflexivity|]); intros Hnext; [contradiction|discriminate].
Defined.
